(** * Chess Master: the game session state machine of [ChessGame.tsx]

    A shallow embedding of the React component [ChessGame]: the state record
    [GameState], the state updaters passed to [setGameState], the memoised
    callbacks, the timer effect, and the settings dialog rendered inside
    it.  The rules engine (the [chess.js] package) and [JSON.parse] are not
    part of the repository; they are taken as parameters, with the laws the
    session logic relies on collected in [EngineLaws].

    Three things the component leaves to its surroundings are kept
    explicit:

    - an exception: the engine throws on a move it does not accept, and no
      updater catches it ([Result]);
    - the identity of the time-control object a state holds, which the
      timer callback writes into ([Ref]);
    - whether React runs the updater of a click at once or while rendering
      (the flag of [ClickSquare]). *)

From Stdlib Require Import ZArith List String Ascii Bool Lia Permutation.
From Stdlib Require DecimalString.
Import ListNotations.
Set Warnings "-register-all".
Open Scope string_scope.
Open Scope Z_scope.
Open Scope list_scope.

(** ** JavaScript values read back from [localStorage] *)

Module JS.

(** The result of [JSON.parse].  Numbers are kept as integers; an object
    is the ordered list of its own properties. *)
Inductive JSON : Type :=
| JNull
| JBool (b : bool)
| JNum (n : Z)
| JStr (s : string)
| JArr (l : list JSON)
| JObj (l : list (string * JSON)).

(** A JavaScript value as the component sees it: [None] is [undefined]. *)
Definition Value : Type := option JSON.

(** Truthiness, as used by [||] and by [if (savedGame)]. *)
Definition truthy (v : Value) : bool :=
  match v with
  | None => false
  | Some JNull => false
  | Some (JBool b) => b
  | Some (JNum n) => negb (n =? 0)
  | Some (JStr s) => negb (s =? EmptyString)%string
  | Some (JArr _) => true
  | Some (JObj _) => true
  end.

Fixpoint assoc (k : string) (l : list (string * JSON)) : Value :=
  match l with
  | [] => None
  | (k', v) :: r => if (k =? k')%string then Some v else assoc k r
  end.

(** Property access [parsed.k].  Reading a property of [null] throws a
    [TypeError] (outer [None]); on any other value without that own
    property the result is [undefined]. *)
Definition prop (parsed : JSON) (k : string) : option Value :=
  match parsed with
  | JNull => None
  | JObj l => Some (assoc k l)
  | _ => Some None
  end.

Definition asString (v : JSON) : option string :=
  match v with JStr s => Some s | _ => None end.

Fixpoint asStrings (l : list JSON) : option (list string) :=
  match l with
  | [] => Some []
  | v :: r =>
      match asString v, asStrings r with
      | Some s, Some ss => Some (s :: ss)
      | _, _ => None
      end
  end.

Definition asStringArray (v : Value) : option (list string) :=
  match v with
  | Some (JArr l) => asStrings l
  | _ => None
  end.

End JS.

(** ** The interface of the rules engine ([chess.js]) *)

Inductive Color : Type := White | Black.

Definition Color_eqb (a b : Color) : bool :=
  match a, b with
  | White, White | Black, Black => true
  | _, _ => false
  end.

(** ['w'] and ['b'] *)
Definition colorLetter (c : Color) : string :=
  match c with White => "w" | Black => "b" end.

Inductive PieceSymbol : Type := Pawn | Knight | Bishop | Rook | Queen | King.

(** [move.captured.toUpperCase()] *)
Definition toUpperCase (p : PieceSymbol) : string :=
  match p with
  | Pawn => "P" | Knight => "N" | Bishop => "B"
  | Rook => "R" | Queen => "Q" | King => "K"
  end.

(** A square is the string the engine uses for it (["e4"]). *)
Definition Square : Type := string.

Record Piece : Type := { pieceColor : Color; pieceType : PieceSymbol }.

(** The verbose move object returned by [move] and [history]. *)
Module Move.
Record t : Type := {
  color : Color;
  from : Square;
  to : Square;
  piece : PieceSymbol;
  captured : option PieceSymbol;
  san : string
}.
End Move.


(** What a call of [move] can do.  The [chess.js] the component is built
    with makes the move and returns its record, or throws
    ([Error: Invalid move]) when the move is not legal; it has no falsy
    result.  [Null] is the falsy result that the test [if (!move)] of
    [handleMove] provides for; [EngineLaws] says that it does not occur. *)
Inductive MoveOutcome (G : Type) : Type :=
| Made (m : Move.t) (g : G)
| Null
| Invalid.

Arguments Made {G} _ _.
Arguments Null {G}.
Arguments Invalid {G}.

(** The operations of a [Chess] instance that the component calls.  The
    instance is mutable in JavaScript; here every mutating call returns the
    resulting instance. *)
Record Engine : Type := {
  Game : Type;
  Fen : Type;
  newChess : Game;                                           (* new Chess() *)
  fen : Game -> Fen;                                         (* g.fen() *)
  loadFen : Fen -> Game;                                     (* new Chess(fen) *)
  turn : Game -> Color;                                      (* g.turn() *)
  get : Game -> Square -> option Piece;                      (* g.get(sq) *)
  moves : Game -> Square -> list Move.t;     (* g.moves({square, verbose:true}) *)
  move : Game -> Square -> Square -> MoveOutcome Game;
                                   (* g.move({from, to, promotion:'q'}) *)
  moveSan : Game -> string -> MoveOutcome Game;              (* g.move(san) *)
  history : Game -> list Move.t;             (* g.history({verbose:true}) *)
  isCheck : Game -> bool;
  isCheckmate : Game -> bool;
  isStalemate : Game -> bool;
  isDraw : Game -> bool;
  isGameOver : Game -> bool;
  loadPgn : JS.Value -> option Game     (* new Chess() then loadPgn(v); None: throws *)
}.

(** What the session logic expects of the engine. *)
Record EngineLaws (E : Engine) : Prop := {
  (* loading a FEN gives that position, with an empty move list *)
  fen_loadFen : forall g, fen E (loadFen E (fen E g)) = fen E g;
  history_loadFen : forall x, history E (loadFen E x) = [];
  history_newChess : history E (newChess E) = [];
  (* the legal moves depend on the position only *)
  moves_fen : forall g1 g2 sq, fen E g1 = fen E g2 -> moves E g1 sq = moves E g2 sq;
  (* [move] throws exactly when the target is not among the legal moves of
     the source square, and never returns a falsy value *)
  move_legal : forall g f t,
      move E g f t = Invalid <-> ~ In t (map Move.to (moves E g f));
  move_not_null : forall g f t, move E g f t <> Null;
  moveSan_not_null : forall g s, moveSan E g s <> Null;
  (* only a piece of the side to move has legal moves *)
  moves_own : forall g f,
      moves E g f <> [] ->
      exists p, get E g f = Some p /\ pieceColor p = turn E g;
  (* the move made is appended to the move list *)
  move_made : forall g f t m g',
      move E g f t = Made m g' ->
      history E g' = history E g ++ [m] /\
      Move.from m = f /\ Move.to m = t /\ Move.color m = turn E g;
  moveSan_made : forall g s m g',
      moveSan E g s = Made m g' -> history E g' = history E g ++ [m];
  (* the notation of a move, read back in the same position, is that move *)
  san_roundtrip : forall g1 g2 f t m g1',
      fen E g1 = fen E g2 ->
      move E g1 f t = Made m g1' ->
      exists g2', moveSan E g2 (Move.san m) = Made m g2' /\
                  fen E g2' = fen E g1';
  (* termination flags *)
  isGameOver_def : forall g,
      isGameOver E g = isCheckmate E g || isStalemate E g || isDraw E g;
  no_moves_when_mated : forall g sq,
      isCheckmate E g = true \/ isStalemate E g = true -> moves E g sq = []
}.

(** ** The component state *)

Module CapturedPieces.
Record t : Type := { white : list string; black : list string }.
End CapturedPieces.

Module TimeControl.
Record t : Type := { white : Z; black : Z; increment : Z }.
End TimeControl.

Module LastMove.
Record t : Type := { from : string; to : string }.
End LastMove.

(** [initialTimeControl] as the module is loaded: ten minutes, no increment. *)
Definition initialTimeControl : TimeControl.t :=
  {| TimeControl.white := 10 * 60;
     TimeControl.black := 10 * 60;
     TimeControl.increment := 0 |}.

Inductive SoundType : Type := SoundMove | SoundCapture | SoundCheck | SoundGameEnd.

(** What running a state updater gives: the value it returns, or nothing,
    when an exception leaves it.  No updater of the component catches an
    exception, and the component is under no error boundary: an updater
    that throws takes the component off the page. *)
Inductive Result (A : Type) : Type :=
| Returns (a : A)
| Throws.

Arguments Returns {A} _.
Arguments Throws {A}.

(** The identity of a time-control object: the module-level
    [initialTimeControl], or the [n]-th object created since the page was
    loaded (by a spread, by [JSON.parse] or by a handler of the settings
    dialog).  The timer callback writes into the object the state holds, so
    it matters who else holds that object. *)
Inductive Ref : Type :=
| Initial
| Created (n : nat).

Definition Ref_eqb (a b : Ref) : bool :=
  match a, b with
  | Initial, Initial => true
  | Created n, Created m => Nat.eqb n m
  | _, _ => false
  end.

(** ** [SettingsDialog] *)

Module SettingsDialog.

Module Preset.
Record t : Type := { name : string; time : Z; increment : Z }.
End Preset.

Definition TIME_PRESETS : list Preset.t :=
  [{| Preset.name := "Bullet (1+0)"; Preset.time := 60; Preset.increment := 0 |};
   {| Preset.name := "Bullet (2+1)"; Preset.time := 120; Preset.increment := 1 |};
   {| Preset.name := "Blitz (3+0)"; Preset.time := 180; Preset.increment := 0 |};
   {| Preset.name := "Blitz (3+2)"; Preset.time := 180; Preset.increment := 2 |};
   {| Preset.name := "Blitz (5+0)"; Preset.time := 300; Preset.increment := 0 |};
   {| Preset.name := "Blitz (5+3)"; Preset.time := 300; Preset.increment := 3 |};
   {| Preset.name := "Rapid (10+0)"; Preset.time := 600; Preset.increment := 0 |};
   {| Preset.name := "Rapid (15+10)"; Preset.time := 900; Preset.increment := 10 |};
   {| Preset.name := "Classical (30+0)"; Preset.time := 1800; Preset.increment := 0 |};
   {| Preset.name := "Custom"; Preset.time := 0; Preset.increment := 0 |}].

(** The three [useState] cells of the dialog.  [localTimeControl] gives the
    fields of the object the cell refers to, as they are now; which object
    that is, is kept by the component around the dialog. *)
Record State : Type := {
  isOpen : bool;
  localTimeControl : TimeControl.t;
  selectedPreset : string
}.

(** The cells when the dialog mounts with the property [timeControl]:
    [useState(timeControl)] keeps the object it is given, the one the game
    state holds at that moment, and never looks at the property again. *)
Definition initial (timeControl : TimeControl.t) : State :=
  {| isOpen := false; localTimeControl := timeControl; selectedPreset := "Custom" |}.

Definition handleTimePresetChange (presetName : string) (st : State) : State :=
  match find (fun p => (Preset.name p =? presetName)%string) TIME_PRESETS with
  | Some preset =>
      if negb (Preset.name preset =? "Custom")%string
      then {| isOpen := isOpen st;
              localTimeControl :=
                {| TimeControl.white := Preset.time preset;
                   TimeControl.black := Preset.time preset;
                   TimeControl.increment := Preset.increment preset |};
              selectedPreset := presetName |}
      else {| isOpen := isOpen st; localTimeControl := localTimeControl st;
              selectedPreset := presetName |}
  | None => {| isOpen := isOpen st; localTimeControl := localTimeControl st;
               selectedPreset := presetName |}
  end.

(** The handler of the slider "Time per player". *)
Definition onTimeChange (value : Z) (st : State) : State :=
  {| isOpen := isOpen st;
     localTimeControl :=
       {| TimeControl.white := value;
          TimeControl.black := value;
          TimeControl.increment := TimeControl.increment (localTimeControl st) |};
     selectedPreset := "Custom" |}.

(** The handler of the slider "Increment (seconds)". *)
Definition onIncrementChange (value : Z) (st : State) : State :=
  {| isOpen := isOpen st;
     localTimeControl :=
       {| TimeControl.white := TimeControl.white (localTimeControl st);
          TimeControl.black := TimeControl.black (localTimeControl st);
          TimeControl.increment := value |};
     selectedPreset := "Custom" |}.

(** [handleApplySettings]: the time control handed to [onTimeControlChange]
    (the object of the cell itself), and the closed dialog. *)
Definition handleApplySettings (st : State) : TimeControl.t * State :=
  (localTimeControl st,
   {| isOpen := false; localTimeControl := localTimeControl st;
      selectedPreset := selectedPreset st |}).

(** What the user does in the open dialog. *)
Inductive Action : Type :=
| ChoosePreset (presetName : string)
| SlideTime (value : Z)
| SlideIncrement (value : Z).

Definition step (st : State) (a : Action) : State :=
  match a with
  | ChoosePreset n => handleTimePresetChange n st
  | SlideTime v => onTimeChange v st
  | SlideIncrement v => onIncrementChange v st
  end.

(** Does the handler call [setLocalTimeControl] with a new object?  The
    sliders always do; the preset list does for a name of the table other
    than "Custom". *)
Definition installs (a : Action) : bool :=
  match a with
  | ChoosePreset n =>
      match find (fun p => (Preset.name p =? n)%string) TIME_PRESETS with
      | Some preset => negb (Preset.name preset =? "Custom")%string
      | None => false
      end
  | SlideTime _ => true
  | SlideIncrement _ => true
  end.

(** The sliders stay between their [min] and [max]. *)
Definition inRange (a : Action) : Prop :=
  match a with
  | ChoosePreset _ => True
  | SlideTime v => 30 <= v <= 3600
  | SlideIncrement v => 0 <= v <= 30
  end.

End SettingsDialog.

(** ** [ChessGame] *)

Section ChessGame.

Variable E : Engine.

(** [JSON.parse]: [None] where it throws a [SyntaxError]. *)
Variable JSON_parse : string -> option JS.JSON.

(** [interface GameState] *)
Record GameState : Type := {
  game : Game E;
  gameHistory : list string;
  capturedPieces : CapturedPieces.t;
  lastMove : option LastMove.t;
  selectedSquare : option string;
  legalMoves : list string;
  isFlipped : bool;
  soundEnabled : bool;
  timeControl : TimeControl.t;
  isTimerRunning : bool;
  boardTheme : string
}.

(** What an updater or a callback does besides computing the next state. *)
Inductive Effect : Type :=
| PlaySound (type : SoundType)
| Toast (title description : string)
| SaveGameState (state : GameState).

(** [playSound]: silent unless [soundEnabled].  The callback reads the flag
    of the last render, which is the flag of the state an updater is given. *)
Definition playSound (enabled : bool) (type : SoundType) : list Effect :=
  if enabled then [PlaySound type] else [].

(** The state returned when nothing is restored. *)
Definition freshState (tc : TimeControl.t) : GameState :=
  {| game := newChess E;
     gameHistory := [];
     capturedPieces := {| CapturedPieces.white := []; CapturedPieces.black := [] |};
     lastMove := None;
     selectedSquare := None;
     legalMoves := [];
     isFlipped := false;
     soundEnabled := true;
     timeControl := tc;
     isTimerRunning := false;
     boardTheme := "classic" |}.

(** *** Captured pieces *)

(** ['b' + move.captured.toUpperCase()] for a white move, ['w' + ...] for
    a black one. *)
Definition capturedPieceId (c : Color) (p : PieceSymbol) : string :=
  match c with
  | White => String.append "b" (toUpperCase p)
  | Black => String.append "w" (toUpperCase p)
  end.

(** [pieces[capturedBy].push(capturedPiece)] with
    [capturedBy = move.color === 'w' ? 'white' : 'black']. *)
Definition pushCaptured (cp : CapturedPieces.t) (m : Move.t) : CapturedPieces.t :=
  match Move.captured m with
  | Some p =>
      match Move.color m with
      | White =>
          {| CapturedPieces.white :=
               CapturedPieces.white cp ++ [capturedPieceId White p];
             CapturedPieces.black := CapturedPieces.black cp |}
      | Black =>
          {| CapturedPieces.white := CapturedPieces.white cp;
             CapturedPieces.black :=
               CapturedPieces.black cp ++ [capturedPieceId Black p] |}
      end
  | None => cp
  end.

(** *** [handleMove]: the updater run for a drop or a completing click *)

Definition creditIncrement (c : Color) (tc : TimeControl.t) : TimeControl.t :=
  match c with
  | White =>
      {| TimeControl.white := TimeControl.white tc + TimeControl.increment tc;
         TimeControl.black := TimeControl.black tc;
         TimeControl.increment := TimeControl.increment tc |}
  | Black =>
      {| TimeControl.white := TimeControl.white tc;
         TimeControl.black := TimeControl.black tc + TimeControl.increment tc;
         TimeControl.increment := TimeControl.increment tc |}
  end.

(** The updater of [handleMove].  The call of [newGame.move] is its second
    statement and stands in no [try]: where the engine throws, the updater
    throws, before any sound or save. *)
Definition handleMove (prev : GameState) (sourceSquare targetSquare : Square)
  : Result (GameState * list Effect) :=
  let newGame := loadFen E (fen E (game prev)) in
  match move E newGame sourceSquare targetSquare with
  | Invalid => Throws
  | Null => Returns (prev, [])
  | Made m newGame =>
      let newCapturedPieces := pushCaptured (capturedPieces prev) m in
      let sounds :=
        playSound (soundEnabled prev)
          (match Move.captured m with Some _ => SoundCapture | None => SoundMove end)
        ++ (if isCheck E newGame then playSound (soundEnabled prev) SoundCheck else [])
        ++ (if isGameOver E newGame then playSound (soundEnabled prev) SoundGameEnd else []) in
      let newTimeControl :=
        if isTimerRunning prev
        then creditIncrement (Move.color m) (timeControl prev)
        else timeControl prev in
      let newState :=
        {| game := newGame;
           gameHistory := gameHistory prev ++ [Move.san m];
           capturedPieces := newCapturedPieces;
           lastMove := Some {| LastMove.from := sourceSquare; LastMove.to := targetSquare |};
           selectedSquare := None;
           legalMoves := [];
           isFlipped := isFlipped prev;
           soundEnabled := soundEnabled prev;
           timeControl := newTimeControl;
           isTimerRunning := isTimerRunning prev && negb (isGameOver E newGame);
           boardTheme := boardTheme prev |} in
      Returns (newState, sounds ++ [SaveGameState newState])
  end.

(** [prev] as the updater of [handleMove] leaves it behind.
    [newCapturedPieces] is a shallow copy of [prev.capturedPieces]: the two
    arrays are shared, and the push of a captured piece lands in the array
    that [prev] holds as well.  Nothing else of [prev] is written. *)
Definition afterPush (prev : GameState) (sourceSquare targetSquare : Square)
  : GameState :=
  match move E (loadFen E (fen E (game prev))) sourceSquare targetSquare with
  | Made m _ =>
      {| game := game prev; gameHistory := gameHistory prev;
         capturedPieces := pushCaptured (capturedPieces prev) m;
         lastMove := lastMove prev;
         selectedSquare := selectedSquare prev; legalMoves := legalMoves prev;
         isFlipped := isFlipped prev; soundEnabled := soundEnabled prev;
         timeControl := timeControl prev; isTimerRunning := isTimerRunning prev;
         boardTheme := boardTheme prev |}
  | _ => prev
  end.

(** *** [handleSquareClick] *)

(** The updater of [handleSquareClick].  When the click completes a move
    the updater calls [handleMove], which hands React an update of its
    own, and returns [prev]: the second component is that call. *)
Definition handleSquareClick (prev : GameState) (square : Square)
  : GameState * option (Square * Square) :=
  let piece := get E (game prev) square in
  let deselected :=
    {| game := game prev; gameHistory := gameHistory prev;
       capturedPieces := capturedPieces prev; lastMove := lastMove prev;
       selectedSquare := None; legalMoves := [];
       isFlipped := isFlipped prev; soundEnabled := soundEnabled prev;
       timeControl := timeControl prev; isTimerRunning := isTimerRunning prev;
       boardTheme := boardTheme prev |} in
  let selected :=
    {| game := game prev; gameHistory := gameHistory prev;
       capturedPieces := capturedPieces prev; lastMove := lastMove prev;
       selectedSquare := Some square;
       legalMoves := map Move.to (moves E (game prev) square);
       isFlipped := isFlipped prev; soundEnabled := soundEnabled prev;
       timeControl := timeControl prev; isTimerRunning := isTimerRunning prev;
       boardTheme := boardTheme prev |} in
  let ownPiece :=
    match piece with
    | Some p => Color_eqb (pieceColor p) (turn E (game prev))
    | None => false
    end in
  match selectedSquare prev with
  | Some sel =>
      if (sel =? square)%string then (deselected, None)
      else if negb (sel =? EmptyString)%string && existsb (String.eqb square) (legalMoves prev)
      then (prev, Some (sel, square))
      else if ownPiece then (selected, None) else (prev, None)
  | None => if ownPiece then (selected, None) else (prev, None)
  end.

(** *** The timer callback *)

Definition timeUp (c : Color) : Effect :=
  match c with
  | White => Toast "Time's up!" "White ran out of time. Black wins!"
  | Black => Toast "Time's up!" "Black ran out of time. White wins!"
  end.

(** The updater run by [setInterval] every second.  [newState] is a shallow
    copy of [prev]: the assignment to [newState.timeControl.white] writes
    into the object [prev.timeControl] refers to (see [dispatch]). *)
Definition tick (prev : GameState) : GameState * list Effect :=
  let tc := timeControl prev in
  match turn E (game prev) with
  | White =>
      let w := Z.max 0 (TimeControl.white tc - 1) in
      let tc' := {| TimeControl.white := w;
                    TimeControl.black := TimeControl.black tc;
                    TimeControl.increment := TimeControl.increment tc |} in
      ({| game := game prev; gameHistory := gameHistory prev;
          capturedPieces := capturedPieces prev; lastMove := lastMove prev;
          selectedSquare := selectedSquare prev; legalMoves := legalMoves prev;
          isFlipped := isFlipped prev; soundEnabled := soundEnabled prev;
          timeControl := tc';
          isTimerRunning := if w =? 0 then false else isTimerRunning prev;
          boardTheme := boardTheme prev |},
       if w =? 0 then [timeUp White] else [])
  | Black =>
      let b := Z.max 0 (TimeControl.black tc - 1) in
      let tc' := {| TimeControl.white := TimeControl.white tc;
                    TimeControl.black := b;
                    TimeControl.increment := TimeControl.increment tc |} in
      ({| game := game prev; gameHistory := gameHistory prev;
          capturedPieces := capturedPieces prev; lastMove := lastMove prev;
          selectedSquare := selectedSquare prev; legalMoves := legalMoves prev;
          isFlipped := isFlipped prev; soundEnabled := soundEnabled prev;
          timeControl := tc';
          isTimerRunning := if b =? 0 then false else isTimerRunning prev;
          boardTheme := boardTheme prev |},
       if b =? 0 then [timeUp Black] else [])
  end.

(** The interval exists only while this holds (the effect's condition). *)
Definition timerActive (s : GameState) : bool :=
  isTimerRunning s && negb (isGameOver E (game s)).

(** *** [undoMove] *)

(** [newHistory.forEach(move => newGame.move(move))] on a [new Chess()]:
    the loop ignores what [move] returns, and ends with the exception of
    the first notation the engine does not accept. *)
Definition replay (sans : list string) : Result (Game E) :=
  fold_left
    (fun r san =>
       match r with
       | Returns g =>
           match moveSan E g san with
           | Made _ g' => Returns g'
           | Null => Returns g
           | Invalid => Throws
           end
       | Throws => Throws
       end)
    sans (Returns (newChess E)).

(** The loop over [newGame.history({verbose:true})] that fills two empty
    buckets. *)
Definition recalculate (h : list Move.t) : CapturedPieces.t :=
  fold_left pushCaptured h
    {| CapturedPieces.white := []; CapturedPieces.black := [] |}.

(** [history.length > 0 ? {from, to} of the last entry : null] *)
Definition lastMoveOf (h : list Move.t) : option LastMove.t :=
  match rev h with
  | m :: _ => Some {| LastMove.from := Move.from m; LastMove.to := Move.to m |}
  | [] => None
  end.

Definition undoMove (prev : GameState) : Result (GameState * list Effect) :=
  match gameHistory prev with
  | [] => Returns (prev, [])
  | _ :: _ =>
      let newHistory := removelast (gameHistory prev) in
      match replay newHistory with
      | Throws => Throws
      | Returns newGame =>
          let h := history E newGame in
          let newState :=
            {| game := newGame;
               gameHistory := newHistory;
               capturedPieces := recalculate h;
               lastMove := lastMoveOf h;
               selectedSquare := None;
               legalMoves := [];
               isFlipped := isFlipped prev;
               soundEnabled := soundEnabled prev;
               timeControl := timeControl prev;
               isTimerRunning := isTimerRunning prev;
               boardTheme := boardTheme prev |} in
          Returns (newState, [SaveGameState newState])
      end
  end.

(** *** [resetGame] *)

(** [resetGame] is not an updater: it reads [gameState] from the render in
    which the memoised callback was last created ([captured]), and copies
    the module-level object [initialTimeControl] as it is at that moment
    ([initial]). *)
Definition resetGame (captured : GameState) (initial : TimeControl.t)
  : GameState * list Effect :=
  let newState :=
    {| game := newChess E;
       gameHistory := [];
       capturedPieces := {| CapturedPieces.white := []; CapturedPieces.black := [] |};
       lastMove := None;
       selectedSquare := None;
       legalMoves := [];
       isFlipped := isFlipped captured;
       soundEnabled := soundEnabled captured;
       timeControl := initial;
       isTimerRunning := false;
       boardTheme := boardTheme captured |} in
  (newState,
   [SaveGameState newState; Toast "Game Reset" "A new game has started!"]).

(** *** The settings updaters *)

Definition flipBoard (prev : GameState) : GameState * list Effect :=
  let newState :=
    {| game := game prev; gameHistory := gameHistory prev;
       capturedPieces := capturedPieces prev; lastMove := lastMove prev;
       selectedSquare := selectedSquare prev; legalMoves := legalMoves prev;
       isFlipped := negb (isFlipped prev); soundEnabled := soundEnabled prev;
       timeControl := timeControl prev; isTimerRunning := isTimerRunning prev;
       boardTheme := boardTheme prev |} in
  (newState, [SaveGameState newState]).

Definition toggleSound (prev : GameState) : GameState * list Effect :=
  let newState :=
    {| game := game prev; gameHistory := gameHistory prev;
       capturedPieces := capturedPieces prev; lastMove := lastMove prev;
       selectedSquare := selectedSquare prev; legalMoves := legalMoves prev;
       isFlipped := isFlipped prev; soundEnabled := negb (soundEnabled prev);
       timeControl := timeControl prev; isTimerRunning := isTimerRunning prev;
       boardTheme := boardTheme prev |} in
  (newState, [SaveGameState newState]).

Definition toggleTimer (prev : GameState) : GameState * list Effect :=
  ({| game := game prev; gameHistory := gameHistory prev;
      capturedPieces := capturedPieces prev; lastMove := lastMove prev;
      selectedSquare := selectedSquare prev; legalMoves := legalMoves prev;
      isFlipped := isFlipped prev; soundEnabled := soundEnabled prev;
      timeControl := timeControl prev; isTimerRunning := negb (isTimerRunning prev);
      boardTheme := boardTheme prev |}, []).

Definition updateTimeControl (newTimeControl : TimeControl.t) (prev : GameState)
  : GameState * list Effect :=
  let newState :=
    {| game := game prev; gameHistory := gameHistory prev;
       capturedPieces := capturedPieces prev; lastMove := lastMove prev;
       selectedSquare := selectedSquare prev; legalMoves := legalMoves prev;
       isFlipped := isFlipped prev; soundEnabled := soundEnabled prev;
       timeControl := newTimeControl; isTimerRunning := isTimerRunning prev;
       boardTheme := boardTheme prev |} in
  (newState, [SaveGameState newState]).

Definition updateBoardTheme (theme : string) (prev : GameState)
  : GameState * list Effect :=
  let newState :=
    {| game := game prev; gameHistory := gameHistory prev;
       capturedPieces := capturedPieces prev; lastMove := lastMove prev;
       selectedSquare := selectedSquare prev; legalMoves := legalMoves prev;
       isFlipped := isFlipped prev; soundEnabled := soundEnabled prev;
       timeControl := timeControl prev; isTimerRunning := isTimerRunning prev;
       boardTheme := theme |} in
  (newState, [SaveGameState newState]).

(** *** The [useState] initialiser: restoring a saved game *)

(** The initialiser returns an object built from whatever was stored.
    [Typed s shares] is a state whose fields have their declared types;
    [shares] tells that [s.timeControl] is the module-level object
    [initialTimeControl] itself ([parsed.timeControl || initialTimeControl]
    with nothing stored) and not a copy.  [Untyped] stands for an object
    with a field outside its declared type. *)
Inductive InitialState : Type :=
| Typed (s : GameState) (shares : bool)
| Untyped.

Definition field (parsed : JS.JSON) (k : string) : JS.Value :=
  match JS.prop parsed k with Some v => v | None => None end.

Definition decodeCapturedPieces (v : JS.Value) : option CapturedPieces.t :=
  match v with
  | Some (JS.JObj l) =>
      match JS.asStringArray (JS.assoc "white" l),
            JS.asStringArray (JS.assoc "black" l) with
      | Some w, Some b =>
          Some {| CapturedPieces.white := w; CapturedPieces.black := b |}
      | _, _ => None
      end
  | _ => None
  end.

Definition decodeLastMove (v : JS.Value) : option (option LastMove.t) :=
  match v with
  | None | Some JS.JNull => Some None
  | Some (JS.JObj l) =>
      match JS.assoc "from" l, JS.assoc "to" l with
      | Some (JS.JStr f), Some (JS.JStr t) =>
          Some (Some {| LastMove.from := f; LastMove.to := t |})
      | _, _ => None
      end
  | _ => None
  end.

(** [parsed.isFlipped || false] *)
Definition decodeIsFlipped (v : JS.Value) : option bool :=
  if JS.truthy v
  then match v with Some (JS.JBool b) => Some b | _ => None end
  else Some false.

(** [parsed.soundEnabled !== false] *)
Definition decodeSoundEnabled (v : JS.Value) : bool :=
  match v with Some (JS.JBool false) => false | _ => true end.

(** [parsed.timeControl || initialTimeControl] *)
Definition decodeTimeControl (v : JS.Value) : option (TimeControl.t * bool) :=
  if JS.truthy v
  then match v with
       | Some (JS.JObj l) =>
           match JS.assoc "white" l, JS.assoc "black" l, JS.assoc "increment" l with
           | Some (JS.JNum w), Some (JS.JNum b), Some (JS.JNum i) =>
               Some ({| TimeControl.white := w; TimeControl.black := b;
                        TimeControl.increment := i |}, false)
           | _, _, _ => None
           end
       | _ => None
       end
  else Some (initialTimeControl, true).

(** [parsed.boardTheme || 'classic'] *)
Definition decodeBoardTheme (v : JS.Value) : option string :=
  if JS.truthy v
  then match v with Some (JS.JStr s) => Some s | _ => None end
  else Some "classic".

(** [savedGame] is [localStorage.getItem('chess-game-state')]: [None] for
    [null].  Every exception raised inside [try] ends in the fresh state
    returned after it. *)
Definition initialGameState (savedGame : option string) : InitialState :=
  let fresh := Typed (freshState initialTimeControl) false in
  match savedGame with
  | None => fresh
  | Some saved =>
      if (saved =? EmptyString)%string then fresh
      else
        match JSON_parse saved with
        | None => fresh
        | Some parsed =>
            match JS.prop parsed "pgn" with
            | None => fresh
            | Some pgn =>
                match loadPgn E pgn with
                | None => fresh
                | Some g =>
                    match JS.asStringArray (field parsed "gameHistory"),
                          decodeCapturedPieces (field parsed "capturedPieces"),
                          decodeLastMove (field parsed "lastMove"),
                          decodeIsFlipped (field parsed "isFlipped"),
                          decodeTimeControl (field parsed "timeControl"),
                          decodeBoardTheme (field parsed "boardTheme") with
                    | Some h, Some cp, Some lm, Some fl, Some (tc, shares), Some th =>
                        Typed
                          {| game := g;
                             gameHistory := h;
                             capturedPieces := cp;
                             lastMove := lm;
                             selectedSquare := None;
                             legalMoves := [];
                             isFlipped := fl;
                             soundEnabled := decodeSoundEnabled (field parsed "soundEnabled");
                             timeControl := tc;
                             isTimerRunning := false;
                             boardTheme := th |}
                          shares
                    | _, _, _, _, _, _ => Untyped
                    end
                end
            end
        end
  end.

(** *** The mounted component *)

(** Besides the React state of [ChessGame], these outlive a render:

    - the module-level object [initialTimeControl], with the fields it has
      now ([initialTimeControlNow]);
    - the [gameState] closed over by the memoised [resetGame];
    - the cells of the [SettingsDialog] rendered inside the component.

    [timeControlRef] and [localTimeControlRef] tell which objects
    [gameState.timeControl] and the dialog's [localTimeControl] are;
    [created] counts the time-control objects created so far. *)
Record Component : Type := {
  gameState : GameState;
  timeControlRef : Ref;
  initialTimeControlNow : TimeControl.t;
  resetGameState : GameState;
  settings : SettingsDialog.State;
  localTimeControlRef : Ref;
  created : nat
}.

(** The state holds the module-level object itself. *)
Definition sharesInitialTimeControl (c : Component) : bool :=
  Ref_eqb (timeControlRef c) Initial.

(** The dependency list of [resetGame]:
    [[gameState.isFlipped, gameState.soundEnabled, saveGameState, toast]].
    [saveGameState] is memoised with no dependency and [toast] is the
    function exported by the toast module, so only the two flags can
    differ between renders. *)
Definition sameDeps (a b : GameState) : bool :=
  Bool.eqb (isFlipped a) (isFlipped b) && Bool.eqb (soundEnabled a) (soundEnabled b).

(** A render: [useCallback] keeps the previous [resetGame] unless a
    dependency changed. *)
Definition render (c : Component) : Component :=
  {| gameState := gameState c;
     timeControlRef := timeControlRef c;
     initialTimeControlNow := initialTimeControlNow c;
     resetGameState :=
       if sameDeps (resetGameState c) (gameState c)
       then resetGameState c else gameState c;
     settings := settings c;
     localTimeControlRef := localTimeControlRef c;
     created := created c |}.

(** The first render: the dialog mounts with the time control of the
    initial state, and keeps that very object. *)
Definition mount (savedGame : option string) : option Component :=
  match initialGameState savedGame with
  | Typed s shares =>
      let ref := if shares then Initial else Created 0 in
      Some {| gameState := s;
              timeControlRef := ref;
              initialTimeControlNow := initialTimeControl;
              resetGameState := s;
              settings := SettingsDialog.initial (timeControl s);
              localTimeControlRef := ref;
              created := 1 |}
  | Untyped => None
  end.

(** The intents of the user interface, and the timer.

    [ClickSquare square idle]: a click on a square of the board.  [idle]
    tells how React runs the updater of [handleSquareClick]: at once, inside
    the call of [setGameState], when it has no work pending for the
    component ([true]), or later, while it renders the component
    ([false]).  This is decided inside React, by what it has done for the
    component before, including for the toasts; it is given here with the
    click.

    [ChangeSettings a] and [ApplySettings]: a preset chosen or a slider
    moved in the settings dialog, and its button "Apply Settings". *)
Inductive Intent : Type :=
| DropPiece (sourceSquare targetSquare : Square)
| ClickSquare (square : Square) (idle : bool)
| Reset
| Undo
| Flip
| Sound
| Timer
| ChangeSettings (a : SettingsDialog.Action)
| ApplySettings
| SetBoardTheme (theme : string)
| Tick.

(** An update that keeps the [timeControl] object of the state. *)
Definition update (c : Component) (r : GameState * list Effect)
  : Component * list Effect :=
  (render {| gameState := fst r;
             timeControlRef := timeControlRef c;
             initialTimeControlNow := initialTimeControlNow c;
             resetGameState := resetGameState c;
             settings := settings c;
             localTimeControlRef := localTimeControlRef c;
             created := created c |}, snd r).

(** An update whose state holds a [timeControl] object created for it. *)
Definition updateOwn (c : Component) (r : GameState * list Effect)
  : Component * list Effect :=
  (render {| gameState := fst r;
             timeControlRef := Created (created c);
             initialTimeControlNow := initialTimeControlNow c;
             resetGameState := resetGameState c;
             settings := settings c;
             localTimeControlRef := localTimeControlRef c;
             created := S (created c) |}, snd r).

(** [setGameState] with the updater of [handleMove]: a move made comes with
    a copy of the time control ([{ ...prev.timeControl }]). *)
Definition dispatchMove (c : Component) (sourceSquare targetSquare : Square)
  : Result (Component * list Effect) :=
  match handleMove (gameState c) sourceSquare targetSquare with
  | Throws => Throws
  | Returns r =>
      match move E (loadFen E (fen E (game (gameState c)))) sourceSquare targetSquare with
      | Made _ _ => Returns (updateOwn c r)
      | _ => Returns (update c r)
      end
  end.

(** A click that completes a move.  The updater of [handleSquareClick]
    calls [handleMove], hence [setGameState], from inside, and returns
    [prev].

    While React renders ([idle = false]) the inner update is queued behind
    the running one and applied to what that one returns: the state is the
    one [handleMove] returns.

    When React runs the updater at once ([idle = true]), the inner call
    finds the component still without pending work: its updater is run at
    once as well, on the current state, with its sounds and its save, and
    its result is queued first; then the outer updater returns [prev], the
    current state itself, and is queued behind it with that result.  Both
    results are kept, and the later one stands: the state stays the object
    [prev], with the captured piece pushed into its bucket. *)
Definition completeMove (c : Component) (idle : bool)
           (sourceSquare targetSquare : Square)
  : Result (Component * list Effect) :=
  if idle
  then match handleMove (gameState c) sourceSquare targetSquare with
       | Throws => Throws
       | Returns (_, effects) =>
           Returns (update c (afterPush (gameState c) sourceSquare targetSquare,
                              effects))
       end
  else dispatchMove c sourceSquare targetSquare.

(** The cells of the dialog after the timer callback wrote [tc] into the
    object [localTimeControl] refers to. *)
Definition written (tc : TimeControl.t) (st : SettingsDialog.State)
  : SettingsDialog.State :=
  {| SettingsDialog.isOpen := SettingsDialog.isOpen st;
     SettingsDialog.localTimeControl := tc;
     SettingsDialog.selectedPreset := SettingsDialog.selectedPreset st |}.

Definition dispatch (i : Intent) (c : Component) : Result (Component * list Effect) :=
  match i with
  | DropPiece f t => dispatchMove c f t
  | ClickSquare sq idle =>
      match handleSquareClick (gameState c) sq with
      | (s, None) => Returns (update c (s, []))
      | (_, Some (f, t)) => completeMove c idle f t
      end
  | Reset => Returns (updateOwn c (resetGame (resetGameState c) (initialTimeControlNow c)))
  | Undo =>
      match undoMove (gameState c) with
      | Throws => Throws
      | Returns r => Returns (update c r)
      end
  | Flip => Returns (update c (flipBoard (gameState c)))
  | Sound => Returns (update c (toggleSound (gameState c)))
  | Timer => Returns (update c (toggleTimer (gameState c)))
  | ChangeSettings a =>
      (* a handler of the dialog: only the dialog renders again *)
      Returns
        ({| gameState := gameState c;
            timeControlRef := timeControlRef c;
            initialTimeControlNow := initialTimeControlNow c;
            resetGameState := resetGameState c;
            settings := SettingsDialog.step (settings c) a;
            localTimeControlRef :=
              if SettingsDialog.installs a
              then Created (created c) else localTimeControlRef c;
            created :=
              if SettingsDialog.installs a then S (created c) else created c |},
         [])
  | ApplySettings =>
      (* [onTimeControlChange(localTimeControl)]: the state takes the
         object of the dialog *)
      let applied := SettingsDialog.handleApplySettings (settings c) in
      let r := updateTimeControl (fst applied) (gameState c) in
      Returns
        (render {| gameState := fst r;
                   timeControlRef := localTimeControlRef c;
                   initialTimeControlNow := initialTimeControlNow c;
                   resetGameState := resetGameState c;
                   settings := snd applied;
                   localTimeControlRef := localTimeControlRef c;
                   created := created c |}, snd r)
  | SetBoardTheme th => Returns (update c (updateBoardTheme th (gameState c)))
  | Tick =>
      if timerActive (gameState c)
      then
        let r := tick (gameState c) in
        (* the write goes to the object the state holds, whoever else
           holds it *)
        Returns
          (render {| gameState := fst r;
                     timeControlRef := timeControlRef c;
                     initialTimeControlNow :=
                       if Ref_eqb (timeControlRef c) Initial
                       then timeControl (fst r) else initialTimeControlNow c;
                     resetGameState := resetGameState c;
                     settings :=
                       if Ref_eqb (timeControlRef c) (localTimeControlRef c)
                       then written (timeControl (fst r)) (settings c)
                       else settings c;
                     localTimeControlRef := localTimeControlRef c;
                     created := created c |}, snd r)
      else Returns (c, [])
  end.

(** Running a list of intents, oldest first; nothing runs once the
    component is gone. *)
Fixpoint run (intents : list Intent) (c : Component) : Result Component :=
  match intents with
  | [] => Returns c
  | i :: rest =>
      match dispatch i c with
      | Returns (c', _) => run rest c'
      | Throws => Throws
      end
  end.

(** The same, with everything that was sounded, shown and saved. *)
Fixpoint runLog (intents : list Intent) (c : Component)
  : Result (Component * list Effect) :=
  match intents with
  | [] => Returns (c, [])
  | i :: rest =>
      match dispatch i c with
      | Returns (c', effects) =>
          match runLog rest c' with
          | Returns (c'', effects') => Returns (c'', effects ++ effects')
          | Throws => Throws
          end
      | Throws => Throws
      end
  end.

End ChessGame.

Arguments game {E} _.
Arguments gameHistory {E} _.
Arguments capturedPieces {E} _.
Arguments lastMove {E} _.
Arguments selectedSquare {E} _.
Arguments legalMoves {E} _.
Arguments isFlipped {E} _.
Arguments soundEnabled {E} _.
Arguments timeControl {E} _.
Arguments isTimerRunning {E} _.
Arguments boardTheme {E} _.
Arguments gameState {E} _.
Arguments timeControlRef {E} _.
Arguments initialTimeControlNow {E} _.
Arguments resetGameState {E} _.
Arguments settings {E} _.
Arguments localTimeControlRef {E} _.
Arguments created {E} _.
Arguments sharesInitialTimeControl {E} _.
Arguments PlaySound {E} _.
Arguments Toast {E} _ _.
Arguments SaveGameState {E} _.
Arguments Typed {E} _ _.
Arguments Untyped {E}.
(** ** A small rules engine: kings and rooks

    The rules of chess on boards that hold only kings and rooks (no
    castling), enough to run the session logic on concrete games: captures,
    check, checkmate, stalemate and the draw by insufficient material.  Its
    notation for a move is the pair of squares (["e1e2"]).  Draws that need
    the move counters or the earlier positions are left out. *)

Module KingsAndRooks.

(** File and rank, both from 0 to 7. *)
Definition Coord : Type := (Z * Z)%type.

Definition Coord_eqb (a b : Coord) : bool :=
  (fst a =? fst b) && (snd a =? snd b).

Definition onBoard (c : Coord) : bool :=
  (0 <=? fst c) && (fst c <? 8) && (0 <=? snd c) && (snd c <? 8).

Definition fileChar (f : Z) : ascii :=
  match f with
  | 0 => "a" | 1 => "b" | 2 => "c" | 3 => "d"
  | 4 => "e" | 5 => "f" | 6 => "g" | _ => "h"
  end%char.

Definition rankChar (r : Z) : ascii :=
  match r with
  | 0 => "1" | 1 => "2" | 2 => "3" | 3 => "4"
  | 4 => "5" | 5 => "6" | 6 => "7" | _ => "8"
  end%char.

Definition squareName (c : Coord) : Square :=
  String (fileChar (fst c)) (String (rankChar (snd c)) EmptyString).

Definition indexOf (a : ascii) (l : list ascii) : option Z :=
  (fix go (l : list ascii) (i : Z) : option Z :=
     match l with
     | [] => None
     | x :: r => if Ascii.eqb a x then Some i else go r (i + 1)
     end) l 0.

Definition coordOf (sq : Square) : option Coord :=
  match sq with
  | String f (String r EmptyString) =>
      match indexOf f ["a"; "b"; "c"; "d"; "e"; "f"; "g"; "h"]%char,
            indexOf r ["1"; "2"; "3"; "4"; "5"; "6"; "7"; "8"]%char with
      | Some x, Some y => Some (x, y)
      | _, _ => None
      end
  | _ => None
  end.

Record Position : Type := { placed : list (Coord * Piece); side : Color }.

(** A [Chess] instance: the position and the moves made on it. *)
Record Chess : Type := { position : Position; played : list Move.t }.

Definition opposite (c : Color) : Color :=
  match c with White => Black | Black => White end.

Definition pieceAt (pos : Position) (c : Coord) : option Piece :=
  match find (fun cp => Coord_eqb (fst cp) c) (placed pos) with
  | Some cp => Some (snd cp)
  | None => None
  end.

(** The squares a rook of colour [own] reaches from [c] in direction [d]. *)
Fixpoint slide (pos : Position) (own : Color) (c d : Coord) (fuel : nat)
  : list Coord :=
  match fuel with
  | O => []
  | S fuel =>
      let n := (fst c + fst d, snd c + snd d) in
      if onBoard n
      then match pieceAt pos n with
           | None => n :: slide pos own n d fuel
           | Some p => if Color_eqb (pieceColor p) own then [] else [n]
           end
      else []
  end.

Definition rookTargets (pos : Position) (own : Color) (c : Coord) : list Coord :=
  flat_map (fun d => slide pos own c d 7) [(1, 0); (-1, 0); (0, 1); (0, -1)].

Definition kingTargets (pos : Position) (own : Color) (c : Coord) : list Coord :=
  filter
    (fun n =>
       onBoard n &&
       match pieceAt pos n with
       | Some p => negb (Color_eqb (pieceColor p) own)
       | None => true
       end)
    (map (fun d => (fst c + fst d, snd c + snd d))
         [(1, 0); (1, 1); (0, 1); (-1, 1); (-1, 0); (-1, -1); (0, -1); (1, -1)]).

Definition targets (pos : Position) (c : Coord) (p : Piece) : list Coord :=
  match pieceType p with
  | King => kingTargets pos (pieceColor p) c
  | Rook => rookTargets pos (pieceColor p) c
  | _ => []
  end.

(** Is square [c] attacked by a piece of colour [by]? *)
Definition attacked (pos : Position) (by_ : Color) (c : Coord) : bool :=
  existsb
    (fun cp =>
       Color_eqb (pieceColor (snd cp)) by_ &&
       existsb (Coord_eqb c) (targets pos (fst cp) (snd cp)))
    (placed pos).

Definition inCheck (pos : Position) (col : Color) : bool :=
  existsb
    (fun cp =>
       Color_eqb (pieceColor (snd cp)) col &&
       match pieceType (snd cp) with King => true | _ => false end &&
       attacked pos (opposite col) (fst cp))
    (placed pos).

(** The position after the piece on [c] went to [c']. *)
Definition makeMove (pos : Position) (c c' : Coord) : Position :=
  {| placed :=
       map (fun cp => if Coord_eqb (fst cp) c then (c', snd cp) else cp)
           (filter (fun cp => negb (Coord_eqb (fst cp) c')) (placed pos));
     side := opposite (side pos) |}.

Definition legalTargets (pos : Position) (c : Coord) (p : Piece) : list Coord :=
  filter (fun c' => negb (inCheck (makeMove pos c c') (pieceColor p)))
         (targets pos c p).

(** The legal moves of the piece on [sq], each with the position it
    leads to. *)
Definition movesFrom (pos : Position) (sq : Square) : list (Move.t * Position) :=
  match coordOf sq with
  | Some c =>
      match pieceAt pos c with
      | Some p =>
          if Color_eqb (pieceColor p) (side pos)
          then map (fun c' =>
                      ({| Move.color := side pos;
                          Move.from := sq;
                          Move.to := squareName c';
                          Move.piece := pieceType p;
                          Move.captured := option_map pieceType (pieceAt pos c');
                          Move.san := String.append sq (squareName c') |},
                       makeMove pos c c'))
                   (legalTargets pos c p)
          else []
      | None => []
      end
  | None => []
  end.

Definition noLegalMove (pos : Position) : bool :=
  forallb
    (fun cp =>
       negb (Color_eqb (pieceColor (snd cp)) (side pos)) ||
       match legalTargets pos (fst cp) (snd cp) with [] => true | _ => false end)
    (placed pos).

Definition insufficientMaterial (pos : Position) : bool :=
  forallb (fun cp => match pieceType (snd cp) with King => true | _ => false end)
          (placed pos).

(** [move]: the legal move from [f] to [t] is made; there being none, the
    call throws. *)
Definition makeOn (g : Chess) (f t : Square) : MoveOutcome Chess :=
  match find (fun mp => (Move.to (fst mp) =? t)%string) (movesFrom (position g) f) with
  | Some (m, pos') => Made m {| position := pos'; played := played g ++ [m] |}
  | None => Invalid
  end.

Definition piece (c : Color) (t : PieceSymbol) : Piece :=
  {| pieceColor := c; pieceType := t |}.

(** The kings and rooks of the usual starting array. *)
Definition start : Position :=
  {| placed := [((0, 0), piece White Rook); ((4, 0), piece White King);
                ((7, 0), piece White Rook);
                ((0, 7), piece Black Rook); ((4, 7), piece Black King);
                ((7, 7), piece Black Rook)];
     side := White |}.

Definition checkmate (pos : Position) : bool :=
  inCheck pos (side pos) && noLegalMove pos.

Definition stalemate (pos : Position) : bool :=
  negb (inCheck pos (side pos)) && noLegalMove pos.

Definition engine : Engine :=
  {| Game := Chess;
     Fen := Position;
     newChess := {| position := start; played := [] |};
     fen := position;
     loadFen := fun p => {| position := p; played := [] |};
     turn := fun g => side (position g);
     get := fun g sq =>
              match coordOf sq with
              | Some c => pieceAt (position g) c
              | None => None
              end;
     moves := fun g sq => map fst (movesFrom (position g) sq);
     move := makeOn;
     moveSan := fun g s => makeOn g (substring 0 2 s) (substring 2 2 s);
     history := played;
     isCheck := fun g => inCheck (position g) (side (position g));
     isCheckmate := fun g => checkmate (position g);
     isStalemate := fun g => stalemate (position g);
     isDraw := fun g => stalemate (position g) || insufficientMaterial (position g);
     isGameOver := fun g =>
                     checkmate (position g) || stalemate (position g)
                     || (stalemate (position g) || insufficientMaterial (position g));
     loadPgn := fun v =>
                  match v with
                  | Some (JS.JStr EmptyString) => Some {| position := start; played := [] |}
                  | _ => None
                  end |}.

End KingsAndRooks.

(** ** Notions used to state the properties *)

Section Notions.

Variable E : Engine.

(** The remaining time of one side. *)
Definition remaining (c : Color) (tc : TimeControl.t) : Z :=
  match c with
  | White => TimeControl.white tc
  | Black => TimeControl.black tc
  end.

(** The bucket of one side: [capturedPieces.white] or [capturedPieces.black]. *)
Definition bucket (c : Color) (cp : CapturedPieces.t) : list string :=
  match c with
  | White => CapturedPieces.white cp
  | Black => CapturedPieces.black cp
  end.

Definition otherSide (c : Color) : Color :=
  match c with White => Black | Black => White end.

(** The captured piece of a move record, as a piece identifier: the piece
    belongs to the side that did not move. *)
Definition capturedPiece (m : Move.t) : option string :=
  match Move.captured m with
  | Some p => Some (String.append (colorLetter (otherSide (Move.color m))) (toUpperCase p))
  | None => None
  end.

(** The [capturedPiece] fields of the records made by side [c], in order. *)
Definition capturedIn (c : Color) (records : list Move.t) : list string :=
  flat_map
    (fun m =>
       if Color_eqb (Move.color m) c
       then match capturedPiece m with Some id => [id] | None => [] end
       else [])
    records.

(** Committing a sequence of moves, every one of them made by the engine;
    the result comes with the move records made. *)
Fixpoint play (s : GameState E) (ms : list (Square * Square))
  : option (GameState E * list Move.t) :=
  match ms with
  | [] => Some (s, [])
  | (f, t) :: r =>
      match move E (loadFen E (fen E (game s))) f t, handleMove E s f t with
      | Made m _, Returns (s1, _) =>
          match play s1 r with
          | Some (s', records) => Some (s', m :: records)
          | None => None
          end
      | _, _ => None
      end
  end.

(** Replaying a list of notations from [g], move by move; there is a
    result only if the engine makes every one of them. *)
Fixpoint replayFrom (g : Game E) (sans : list string) : option (Game E) :=
  match sans with
  | [] => Some g
  | x :: r =>
      match moveSan E g x with
      | Made _ g' => replayFrom g' r
      | _ => None
      end
  end.

(** The move history of [s] replays from the initial position to a game
    with the position of [s], whose records are [records], and the buckets
    of [s] are those recalculated from these records. *)
Definition consistent (s : GameState E) (records : list Move.t) : Prop :=
  exists g,
    replayFrom (newChess E) (gameHistory s) = Some g /\
    fen E g = fen E (game s) /\
    history E g = records /\
    capturedPieces s = recalculate records.

(** A component around the state [s]: the state and the dialog hold one
    time-control object, created for the state. *)
Definition componentOf (s : GameState E) : Component E :=
  {| gameState := s;
     timeControlRef := Created 0;
     initialTimeControlNow := initialTimeControl;
     resetGameState := s;
     settings := SettingsDialog.initial (timeControl s);
     localTimeControlRef := Created 0;
     created := 1 |}.

(** The component mounted with nothing stored. *)
Definition freshComponent : Component E :=
  componentOf (freshState E initialTimeControl).

(** A time control without negative entries, as the presets and the
    sliders of the settings dialog give. *)
Definition fromSettings (tc : TimeControl.t) : Prop :=
  0 <= TimeControl.white tc /\ 0 <= TimeControl.black tc /\
  0 <= TimeControl.increment tc.

(** The sliders of the dialog are within their bounds. *)
Definition validIntent (i : Intent) : Prop :=
  match i with
  | ChangeSettings a => SettingsDialog.inRange a
  | _ => True
  end.

(** No click is run by React at once (see [completeMove]). *)
Definition deferred (i : Intent) : Prop :=
  match i with
  | ClickSquare _ true => False
  | _ => True
  end.

(** The position, the move history, the captured pieces, the last move,
    the selection and the clock of [s'] are those of [s]. *)
Definition sameGameAndClock (s s' : GameState E) : Prop :=
  game s' = game s /\ gameHistory s' = gameHistory s /\
  capturedPieces s' = capturedPieces s /\ lastMove s' = lastMove s /\
  selectedSquare s' = selectedSquare s /\ legalMoves s' = legalMoves s /\
  timeControl s' = timeControl s /\ isTimerRunning s' = isTimerRunning s.

Definition clockOk (tc : TimeControl.t) : Prop :=
  0 <= TimeControl.white tc /\ 0 <= TimeControl.black tc /\
  0 <= TimeControl.increment tc.

(** The clock of the state, the module-level time control and the time
    control shown in the settings dialog are free of negative entries. *)
Definition clocksOk (c : Component E) : Prop :=
  clockOk (timeControl (gameState c)) /\ clockOk (initialTimeControlNow c)
  /\ clockOk (SettingsDialog.localTimeControl (settings c)).

(** The component has been rendered, neither its state nor its settings
    dialog holds the module-level time control, and that one is as
    loaded. *)
Definition settled (c : Component E) : Prop :=
  sameDeps E (resetGameState c) (gameState c) = true /\
  sharesInitialTimeControl c = false /\
  Ref_eqb (localTimeControlRef c) Initial = false /\
  initialTimeControlNow c = initialTimeControl.

(** An object created so far. *)
Definition known (c : Component E) (r : Ref) : Prop :=
  match r with
  | Initial => True
  | Created n => (n < created c)%nat
  end.

(** The two references of the component are to objects created so far, and
    references to one object see the same fields. *)
Definition objectsOk (c : Component E) : Prop :=
  known c (timeControlRef c) /\ known c (localTimeControlRef c)
  /\ (Ref_eqb (timeControlRef c) (localTimeControlRef c) = true ->
      SettingsDialog.localTimeControl (settings c) = timeControl (gameState c))
  /\ (Ref_eqb (timeControlRef c) Initial = true ->
      timeControl (gameState c) = initialTimeControlNow c)
  /\ (Ref_eqb (localTimeControlRef c) Initial = true ->
      SettingsDialog.localTimeControl (settings c) = initialTimeControlNow c).

(** The toast that reports the time of [side] as run out. *)
Definition isTimeExpired (side : Color) (e : Effect E) : bool :=
  match e with
  | Toast title description =>
      (title =? "Time's up!")%string
      && (description =?
          match side with
          | White => "White ran out of time. Black wins!"
          | Black => "Black ran out of time. White wins!"
          end)%string
  | _ => false
  end.

(** How often the time of [side] is reported as run out among [effects]. *)
Definition timesExpired (side : Color) (effects : list (Effect E)) : nat :=
  List.length (filter (isTimeExpired side) effects).

End Notions.

Arguments sameGameAndClock {E} _ _.

(** ** Concrete data for the examples *)

Module Examples.

Import KingsAndRooks.

(** [JSON.parse] on the keyword literals and the empty containers; any
    other text counts as not parsable here. *)
Definition parse (text : string) : option JS.JSON :=
  if (text =? "null")%string then Some JS.JNull
  else if (text =? "true")%string then Some (JS.JBool true)
  else if (text =? "false")%string then Some (JS.JBool false)
  else if (text =? "[]")%string then Some (JS.JArr [])
  else if (text =? "{}")%string then Some (JS.JObj [])
  else None.

(** A new game on the kings-and-rooks board. *)
Definition fresh : GameState engine := freshState engine initialTimeControl.

(** The same game with the clock running, White at 598 seconds and an
    increment of 5. *)
Definition timed : GameState engine :=
  {| game := newChess engine;
     gameHistory := [];
     capturedPieces := {| CapturedPieces.white := []; CapturedPieces.black := [] |};
     lastMove := None;
     selectedSquare := None;
     legalMoves := [];
     isFlipped := false;
     soundEnabled := true;
     timeControl := {| TimeControl.white := 598; TimeControl.black := 600;
                       TimeControl.increment := 5 |};
     isTimerRunning := true;
     boardTheme := "classic" |}.

(** White king d4 against black king e8 and an unguarded black rook e5,
    White to move, clock running. *)
Definition lastRook : GameState engine :=
  {| game := loadFen engine
               {| placed := [((3, 3), piece White King);
                             ((4, 7), piece Black King);
                             ((4, 4), piece Black Rook)];
                  side := White |};
     gameHistory := [];
     capturedPieces := {| CapturedPieces.white := []; CapturedPieces.black := [] |};
     lastMove := None;
     selectedSquare := None;
     legalMoves := [];
     isFlipped := false;
     soundEnabled := true;
     timeControl := initialTimeControl;
     isTimerRunning := true;
     boardTheme := "classic" |}.

(** The state after the move from [f] to [t] was committed in [s] ([s]
    itself where [handleMove] does not return). *)
Definition after (s : GameState engine) (f t : Square) : GameState engine :=
  match handleMove engine s f t with
  | Returns (s', _) => s'
  | Throws => s
  end.

(** The game after the rook took on a8 and the king stepped aside. *)
Definition twoMoves : GameState engine := after (after fresh "a1" "a8") "e8" "d7".

(** Five minutes with three seconds a move. *)
Definition fiveThree : TimeControl.t :=
  {| TimeControl.white := 300; TimeControl.black := 300; TimeControl.increment := 3 |}.

(** White king g6 and rook a1 against the black king h8, White to move:
    the rook mates on a8. *)
Definition mateInOne : GameState engine :=
  {| game := loadFen engine
               {| placed := [((6, 5), piece White King);
                             ((0, 0), piece White Rook);
                             ((7, 7), piece Black King)];
                  side := White |};
     gameHistory := [];
     capturedPieces := {| CapturedPieces.white := []; CapturedPieces.black := [] |};
     lastMove := None;
     selectedSquare := None;
     legalMoves := [];
     isFlipped := false;
     soundEnabled := true;
     timeControl := initialTimeControl;
     isTimerRunning := true;
     boardTheme := "classic" |}.

(** A stored record with an empty game and no [timeControl]. *)
Definition recordWithoutTimeControl : JS.JSON :=
  JS.JObj [("pgn", JS.JStr EmptyString);
           ("gameHistory", JS.JArr []);
           ("capturedPieces", JS.JObj [("white", JS.JArr []); ("black", JS.JArr [])]);
           ("lastMove", JS.JNull);
           ("isFlipped", JS.JBool false);
           ("soundEnabled", JS.JBool true);
           ("boardTheme", JS.JStr "classic")].

(** The bare kings left after the king took the rook. *)
Definition bareKings : GameState engine := after lastRook "d4" "e5".

(** A new game with the clock running and one second left for White. *)
Definition lastSecond : GameState engine :=
  {| game := newChess engine;
     gameHistory := [];
     capturedPieces := {| CapturedPieces.white := []; CapturedPieces.black := [] |};
     lastMove := None;
     selectedSquare := None;
     legalMoves := [];
     isFlipped := false;
     soundEnabled := true;
     timeControl := {| TimeControl.white := 1; TimeControl.black := 600;
                       TimeControl.increment := 0 |};
     isTimerRunning := true;
     boardTheme := "classic" |}.

(** A new game with the rook on a1 selected. *)
Definition rookSelected : GameState engine :=
  {| game := newChess engine;
     gameHistory := [];
     capturedPieces := {| CapturedPieces.white := []; CapturedPieces.black := [] |};
     lastMove := None;
     selectedSquare := Some "a1";
     legalMoves := ["b1"; "c1"; "d1"; "a2"; "a3"; "a4"; "a5"; "a6"; "a7"; "a8"];
     isFlipped := false;
     soundEnabled := true;
     timeControl := initialTimeControl;
     isTimerRunning := false;
     boardTheme := "classic" |}.

(** A game whose stored history begins with a notation that is no move. *)
Definition strayNotation : GameState engine :=
  {| game := newChess engine;
     gameHistory := ["zz"; "a1a8"];
     capturedPieces := {| CapturedPieces.white := []; CapturedPieces.black := [] |};
     lastMove := None;
     selectedSquare := None;
     legalMoves := [];
     isFlipped := false;
     soundEnabled := true;
     timeControl := initialTimeControl;
     isTimerRunning := false;
     boardTheme := "classic" |}.

End Examples.
(** ** The rest of the component *)

(** *** [saveGameState] *)

Section Persistence.

Variable E : Engine.

(** [state.game.pgn()] *)
Variable pgn : Game E -> string.

Definition jsonStrings (l : list string) : JS.JSON := JS.JArr (map JS.JStr l).

(** The object [saveData] that [saveGameState] hands to [JSON.stringify];
    the text stored is the one [JSON.parse] reads back as this value. *)
Definition saveData (state : GameState E) : JS.JSON :=
  JS.JObj
    [("pgn", JS.JStr (pgn (game state)));
     ("gameHistory", jsonStrings (gameHistory state));
     ("capturedPieces",
      JS.JObj [("white", jsonStrings (CapturedPieces.white (capturedPieces state)));
               ("black", jsonStrings (CapturedPieces.black (capturedPieces state)))]);
     ("lastMove",
      match lastMove state with
      | Some lm => JS.JObj [("from", JS.JStr (LastMove.from lm));
                            ("to", JS.JStr (LastMove.to lm))]
      | None => JS.JNull
      end);
     ("isFlipped", JS.JBool (isFlipped state));
     ("soundEnabled", JS.JBool (soundEnabled state));
     ("timeControl",
      JS.JObj [("white", JS.JNum (TimeControl.white (timeControl state)));
               ("black", JS.JNum (TimeControl.black (timeControl state)));
               ("increment", JS.JNum (TimeControl.increment (timeControl state)))]);
     ("boardTheme", JS.JStr (boardTheme state))].

End Persistence.

(** *** [getGameStatus] and the end-of-game dialog *)

Inductive Variant : Type := Destructive | Secondary | Default | Outline.

Inductive Icon : Type := Trophy | Handshake | Crown.

Module GameStatus.
Record t : Type := { status : string; message : string; variant : Variant }.
End GameStatus.

Module GameResult.
Record t : Type := { title : string; message : string; icon : Icon; variant : Variant }.
End GameResult.

Section Status.

Variable E : Engine.

(** [game.isThreefoldRepetition()] and [game.isInsufficientMaterial()] *)
Variable isThreefoldRepetition : Game E -> bool.
Variable isInsufficientMaterial : Game E -> bool.

(** [ChessGame.getGameStatus] on [gameState.game] *)
Definition getGameStatus (g : Game E) : GameStatus.t :=
  if isCheckmate E g then
    let winner := match turn E g with White => "Black" | Black => "White" end in
    {| GameStatus.status := "checkmate";
       GameStatus.message :=
         String.append "Checkmate! " (String.append winner " wins!");
       GameStatus.variant := Destructive |}
  else if isStalemate E g then
    {| GameStatus.status := "stalemate";
       GameStatus.message := "Draw by stalemate";
       GameStatus.variant := Secondary |}
  else if isDraw E g then
    {| GameStatus.status := "draw";
       GameStatus.message := "Game drawn";
       GameStatus.variant := Secondary |}
  else if isCheck E g then
    let player := match turn E g with White => "White" | Black => "Black" end in
    {| GameStatus.status := "check";
       GameStatus.message := String.append player " is in check!";
       GameStatus.variant := Default |}
  else
    let currentPlayer := match turn E g with White => "White" | Black => "Black" end in
    {| GameStatus.status := "playing";
       GameStatus.message := String.append currentPlayer " to move";
       GameStatus.variant := Outline |}.

(** [GameEndDialog.getGameResult] on its [game] property *)
Definition getGameResult (g : Game E) : GameResult.t :=
  if isCheckmate E g then
    let winner := match turn E g with White => "Black" | Black => "White" end in
    {| GameResult.title := "Checkmate!";
       GameResult.message := String.append winner " wins the game!";
       GameResult.icon := Trophy;
       GameResult.variant := Default |}
  else if isStalemate E g then
    {| GameResult.title := "Stalemate!";
       GameResult.message := "The game is drawn by stalemate";
       GameResult.icon := Handshake;
       GameResult.variant := Secondary |}
  else if isDraw E g then
    let drawReason :=
      if isThreefoldRepetition g then "Draw by threefold repetition"
      else if isInsufficientMaterial g then "Draw by insufficient material"
      else "The game is drawn" in
    {| GameResult.title := "Draw!";
       GameResult.message := drawReason;
       GameResult.icon := Handshake;
       GameResult.variant := Secondary |}
  else
    {| GameResult.title := "Game Over";
       GameResult.message := "The game has ended";
       GameResult.icon := Crown;
       GameResult.variant := Secondary |}.

(** The dialog is open exactly then: [isOpen={gameState.game.isGameOver()}]. *)
Definition dialogOpen (s : GameState E) : bool := isGameOver E (game s).

End Status.

(** *** Move numbers *)

(** In the history panel: [Math.floor(index / 2) + 1] and [index % 2 === 0],
    for an array index. *)
Definition moveNumber (index : Z) : Z := index / 2 + 1.

Definition isWhiteMove (index : Z) : bool := index mod 2 =? 0.

(** In the end-of-game dialog:
    [Math.floor(totalMoves / 2) + (totalMoves % 2)]. *)
Definition gameDuration (totalMoves : Z) : Z := totalMoves / 2 + totalMoves mod 2.

(** The indices of a history of [n] entries. *)
Definition indices (n : nat) : list Z := map Z.of_nat (seq 0 n).

(** *** [PIECE_SYMBOLS] *)

Definition PIECE_SYMBOLS : list (string * string) :=
  [("wK", "♔"); ("wQ", "♕"); ("wR", "♖"); ("wB", "♗"); ("wN", "♘"); ("wP", "♙");
   ("bK", "♚"); ("bQ", "♛"); ("bR", "♜"); ("bB", "♝"); ("bN", "♞"); ("bP", "♟")].

(** [PIECE_SYMBOLS[piece]]: [None] for a key the table lacks. *)
Fixpoint symbolOf (piece : string) (table : list (string * string)) : option string :=
  match table with
  | [] => None
  | (k, v) :: r => if (piece =? k)%string then Some v else symbolOf piece r
  end.

(** *** [ChessBoard]: the grid *)

Module ChessBoard.

Definition files : list string := ["a"; "b"; "c"; "d"; "e"; "f"; "g"; "h"].

Definition ranks : list string := ["8"; "7"; "6"; "5"; "4"; "3"; "2"; "1"].

(** [Array.prototype.indexOf]: -1 when the element is absent. *)
Definition indexOf (x : string) (l : list string) : Z :=
  (fix go (l : list string) (i : Z) : Z :=
     match l with
     | [] => -1
     | y :: r => if (y =? x)%string then i else go r (i + 1)
     end) l 0.

Definition getSquareColor (file rank : Z) : string :=
  if (file + rank) mod 2 =? 0 then "chess-dark" else "chess-light".

(** What [renderSquare] fixes of a cell apart from the piece and the
    highlight: the square, its shade and the coordinates written on it. *)
Record Cell : Type := {
  square : Square;
  isLight : bool;
  rankLabel : option string;
  fileLabel : option string
}.

Definition renderSquare (isFlipped : bool) (file rank : string) : Cell :=
  let fileIndex := indexOf file files in
  let rankIndex := indexOf rank ranks in
  {| square := String.append file rank;
     isLight := (getSquareColor fileIndex rankIndex =? "chess-light")%string;
     rankLabel :=
       if (negb isFlipped && (fileIndex =? 0)) || (isFlipped && (fileIndex =? 7))
       then Some rank else None;
     fileLabel :=
       if (negb isFlipped && (rankIndex =? 7)) || (isFlipped && (rankIndex =? 0))
       then Some file else None |}.

Definition boardFiles (isFlipped : bool) : list string :=
  if isFlipped then rev files else files.

Definition boardRanks (isFlipped : bool) : list string :=
  if isFlipped then rev ranks else ranks.

(** The rows of the grid, top row first, each from left to right. *)
Definition grid (isFlipped : bool) : list (list Cell) :=
  map (fun rank => map (fun file => renderSquare isFlipped file rank)
                       (boardFiles isFlipped))
      (boardRanks isFlipped).

End ChessBoard.

(** *** Drag and drop *)

Section DragAndDrop.

Variable E : Engine.

(** [ChessBoard.handleDragStart]: a drag starts only on a piece of the side
    to move; it stores the square and reports a click on it.  [None] is
    [preventDefault]. *)
Definition handleDragStart (c : Component E) (square : Square) (idle : bool)
  : option (Result (Component E * Square)) :=
  match get E (game (gameState c)) square with
  | Some p =>
      if Color_eqb (pieceColor p) (turn E (game (gameState c)))
      then Some match dispatch E (ClickSquare square idle) c with
                | Returns (c', _) => Returns (c', square)
                | Throws => Throws
                end
      else None
  | None => None
  end.

(** [ChessBoard.handleDrop] with [sourceSquare] read back from the drag. *)
Definition handleDrop (c : Component E) (sourceSquare targetSquare : Square)
  : Result (Component E * list (Effect E)) :=
  if negb (sourceSquare =? EmptyString)%string
     && negb (sourceSquare =? targetSquare)%string
  then dispatch E (DropPiece sourceSquare targetSquare) c
  else Returns (c, []).

(** A piece dragged from [from] and dropped on [to]. *)
Definition dragAndDrop (c : Component E) (from to : Square) (idle : bool)
  : Result (Component E) :=
  match handleDragStart c from idle with
  | Some (Returns (c', sourceSquare)) =>
      match handleDrop c' sourceSquare to with
      | Returns (c'', _) => Returns c''
      | Throws => Throws
      end
  | Some Throws => Throws
  | None => Returns c
  end.


(** The list of legal moves kept in the state is the one of the selected
    square in the position held, and is empty without a selection. *)
Definition selectionOk (s : GameState E) : Prop :=
  match selectedSquare s with
  | Some sq => legalMoves s = map Move.to (moves E (game s) sq)
  | None => legalMoves s = []
  end.

End DragAndDrop.

(** *** Showing a time *)

Module Display.

(** [Number.MAX_SAFE_INTEGER], 2^53 - 1: up to it, in absolute value, a
    JavaScript number holds every integer exactly, [Math.floor(x / 60)] and
    [x % 60] are the integer quotient and remainder, and [toString] writes
    the decimal digits. *)
Definition MAX_SAFE_INTEGER : Z := 9007199254740991.

Definition isSafeInteger (z : Z) : bool := Z.abs z <=? MAX_SAFE_INTEGER.

(** [Number.prototype.toString] of a safe integer; [None] beyond, where the
    number need not be the integer meant. *)
Definition toString (z : Z) : option string :=
  if isSafeInteger z
  then Some (DecimalString.NilZero.string_of_int (Z.to_int z))
  else None.

(** [s.padStart(2, '0')] *)
Definition padStart2 (s : string) : string :=
  match s with
  | EmptyString => "00"
  | String _ EmptyString => String "0" s
  | _ => s
  end.

End Display.

Module ChessGameDisplay.

(** [formatTime] of [ChessGame]: [Math.floor(seconds / 60)], [seconds % 60]
    and the template [mins:secs], the seconds padded to two characters;
    for a safe integer number of seconds. *)
Definition formatTime (seconds : Z) : option string :=
  let mins := seconds / 60 in
  let secs := Z.rem seconds 60 in
  if Display.isSafeInteger seconds
  then match Display.toString mins, Display.toString secs with
       | Some m, Some s => Some (String.append m (String.append ":" (Display.padStart2 s)))
       | _, _ => None
       end
  else None.

End ChessGameDisplay.

Module SettingsDialogDisplay.

(** [formatTime] of [SettingsDialog]: minutes and seconds above a minute,
    the bare seconds with an [s] below; for a safe integer number of
    seconds. *)
Definition formatTime (seconds : Z) : option string :=
  let mins := seconds / 60 in
  let secs := Z.rem seconds 60 in
  if Display.isSafeInteger seconds
  then match Display.toString mins, Display.toString secs with
       | Some m, Some s =>
           if 0 <? mins
           then Some (String.append m (String.append ":" (Display.padStart2 s)))
           else Some (String.append s "s")
       | _, _ => None
       end
  else None.

End SettingsDialogDisplay.

(** *** What is written to [localStorage] *)

Section Saves.

Variable E : Engine.

(** The states handed to [saveGameState] among some effects, in order. *)
Definition savedStates (effects : list (Effect E)) : list (GameState E) :=
  flat_map
    (fun e => match e with SaveGameState s => [s] | _ => [] end)
    effects.

(** The clock button, the timer and the display settings. *)
Definition keepsBoard (i : Intent) : Prop :=
  match i with
  | Timer | Tick | Flip | Sound | SetBoardTheme _ => True
  | _ => False
  end.

End Saves.
(** ** The kings-and-rooks engine obeys the laws *)

Lemma kr_coordOf_two (sq : Square) (c : KingsAndRooks.Coord) :
  KingsAndRooks.coordOf sq = Some c ->
  exists a b, sq = String a (String b EmptyString).
Proof.
  destruct sq as [|a [|b [|x r]]]; simpl; try discriminate.
  intros _. exists a, b. reflexivity.
Qed.

Lemma kr_movesFrom_shape (pos : KingsAndRooks.Position) (sq : Square)
      (m : Move.t) (pos' : KingsAndRooks.Position) :
  In (m, pos') (KingsAndRooks.movesFrom pos sq) ->
  Move.from m = sq /\ Move.color m = KingsAndRooks.side pos /\
  exists c', Move.to m = KingsAndRooks.squareName c' /\
             Move.san m = String.append sq (KingsAndRooks.squareName c').
Proof.
  unfold KingsAndRooks.movesFrom.
  destruct (KingsAndRooks.coordOf sq) as [c|]; [|intros []].
  destruct (KingsAndRooks.pieceAt pos c) as [p|]; [|intros []].
  destruct (Color_eqb (pieceColor p) (KingsAndRooks.side pos)); [|intros []].
  intros H. apply in_map_iff in H. destruct H as [c' [Heq _]].
  inversion Heq; subst; simpl. repeat split. exists c'. split; reflexivity.
Qed.

Lemma kr_find_to (l : list (Move.t * KingsAndRooks.Position)) (t : Square) :
  find (fun mp => (Move.to (fst mp) =? t)%string) l = None <->
  ~ In t (map Move.to (map fst l)).
Proof.
  induction l as [|[m p] l IH]; simpl.
  - split; [intros _ []|reflexivity].
  - destruct (String.eqb_spec (Move.to m) t) as [Heq|Hne].
    + split; [discriminate|]. intros H. exfalso. apply H. left. exact Heq.
    + rewrite IH. split.
      * intros H [H1|H1]; [exact (Hne H1)|exact (H H1)].
      * intros H H1. apply H. right. exact H1.
Qed.

Lemma kr_makeOn_made (g : KingsAndRooks.Chess) (f t : Square)
      (m : Move.t) (g' : KingsAndRooks.Chess) :
  KingsAndRooks.makeOn g f t = Made m g' ->
  In (m, KingsAndRooks.position g')
     (KingsAndRooks.movesFrom (KingsAndRooks.position g) f) /\
  KingsAndRooks.played g' = KingsAndRooks.played g ++ [m] /\
  Move.to m = t.
Proof.
  unfold KingsAndRooks.makeOn.
  destruct (find _ _) as [[m0 p0]|] eqn:Hf; [|discriminate].
  intros H. inversion H; subst; clear H. simpl.
  apply find_some in Hf. destruct Hf as [Hin Heq]. simpl in Heq.
  apply String.eqb_eq in Heq. auto.
Qed.

Lemma kr_substring_san (f t : Square) (c c' : KingsAndRooks.Coord) :
  KingsAndRooks.coordOf f = Some c ->
  t = KingsAndRooks.squareName c' ->
  substring 0 2 (String.append f t) = f /\
  substring 2 2 (String.append f t) = t.
Proof.
  intros Hf Ht. destruct (kr_coordOf_two f c Hf) as [a [b ->]].
  subst t. unfold KingsAndRooks.squareName. simpl. split; reflexivity.
Qed.

Lemma kr_no_legal_move (pos : KingsAndRooks.Position) (sq : Square) :
  KingsAndRooks.noLegalMove pos = true -> KingsAndRooks.movesFrom pos sq = [].
Proof.
  intros H. unfold KingsAndRooks.movesFrom.
  destruct (KingsAndRooks.coordOf sq) as [c|]; [|reflexivity].
  unfold KingsAndRooks.pieceAt.
  destruct (find _ (KingsAndRooks.placed pos)) as [[c0 p]|] eqn:Hf; [|reflexivity].
  simpl. destruct (Color_eqb (pieceColor p) (KingsAndRooks.side pos)) eqn:Hc;
    [|reflexivity].
  apply find_some in Hf. destruct Hf as [Hin Heq]. simpl in Heq.
  unfold KingsAndRooks.noLegalMove in H. rewrite forallb_forall in H.
  specialize (H _ Hin). simpl in H. rewrite Hc in H. simpl in H.
  assert (c0 = c) as ->.
  { unfold KingsAndRooks.Coord_eqb in Heq. apply andb_true_iff in Heq.
    destruct Heq as [H1 H2]. apply Z.eqb_eq in H1, H2.
    destruct c0, c; simpl in *; congruence. }
  destruct (KingsAndRooks.legalTargets pos c p); [reflexivity|discriminate].
Qed.

Lemma kr_laws : EngineLaws KingsAndRooks.engine.
Proof.
  constructor; simpl.
  - reflexivity.
  - reflexivity.
  - reflexivity.
  - intros g1 g2 sq H. rewrite H. reflexivity.
  - intros g f t. unfold KingsAndRooks.makeOn.
    rewrite <- kr_find_to.
    destruct (find _ _) as [[m p]|]; split; congruence.
  - intros g f t. unfold KingsAndRooks.makeOn.
    destruct (find _ _) as [[m p]|]; discriminate.
  - intros g s. unfold KingsAndRooks.makeOn.
    destruct (find _ _) as [[m p]|]; discriminate.
  - intros g f Hne. unfold KingsAndRooks.movesFrom in Hne.
    destruct (KingsAndRooks.coordOf f) as [c|]; [|contradiction].
    destruct (KingsAndRooks.pieceAt (KingsAndRooks.position g) c) as [p|];
      [|contradiction].
    exists p. split; [reflexivity|].
    destruct p as [[] ty], (KingsAndRooks.side (KingsAndRooks.position g));
      simpl in *; try reflexivity; contradiction.
  - intros g f t m g' H. apply kr_makeOn_made in H.
    destruct H as [Hin [Hpl Hto]].
    apply kr_movesFrom_shape in Hin. destruct Hin as [Hfrom [Hcol _]]. auto.
  - intros g s m g' H. apply kr_makeOn_made in H. tauto.
  - intros g1 g2 f t m g1' Hfen H.
    pose proof (kr_makeOn_made _ _ _ _ _ H) as [Hin [_ Hto]].
    pose proof (kr_movesFrom_shape _ _ _ _ Hin) as [_ [_ [c' [Hc' Hsan]]]].
    assert (exists c, KingsAndRooks.coordOf f = Some c) as [c Hc].
    { unfold KingsAndRooks.movesFrom in Hin.
      destruct (KingsAndRooks.coordOf f) as [c|]; [eauto|destruct Hin]. }
    destruct (kr_substring_san f (Move.to m) c c' Hc Hc') as [S1 S2].
    rewrite Hsan, <- Hc', S1, S2, Hto.
    exists {| KingsAndRooks.position := KingsAndRooks.position g1';
              KingsAndRooks.played := KingsAndRooks.played g2 ++ [m] |}.
    split; [|reflexivity].
    unfold KingsAndRooks.makeOn in *. rewrite <- Hfen.
    destruct (find _ _) as [[m0 p0]|]; [|discriminate].
    inversion H; subst. reflexivity.
  - reflexivity.
  - intros g sq H. unfold KingsAndRooks.checkmate, KingsAndRooks.stalemate in H.
    rewrite kr_no_legal_move; [reflexivity|].
    destruct H as [H|H]; apply andb_true_iff in H; tauto.
Qed.


(** A run on the kings-and-rooks board that returns: shown by running it. *)
Ltac returns_by_computation :=
  match goal with
  | |- exists x, ?r = Returns x =>
      let Hr := fresh "Hr" in
      let Hb := fresh "Hb" in
      destruct r eqn:Hr; [eexists; reflexivity|];
      exfalso;
      assert (match r with Returns _ => true | Throws => false end = true)
        as Hb by (vm_compute; reflexivity);
      rewrite Hr in Hb; discriminate Hb
  end.

(** A run goes on from where its first intent leaves the component. *)
Lemma run_cons (E : Engine) (i : Intent) (rest : list Intent)
      (c c' : Component E) (effects : list (Effect E)) :
  dispatch E i c = Returns (c', effects) ->
  run E (i :: rest) c = run E rest c'.
Proof.
  intros H.
  change (run E (i :: rest) c)
    with (match dispatch E i c with
          | Returns (c1, _) => run E rest c1
          | Throws => Throws
          end).
  rewrite H. reflexivity.
Qed.

Lemma run_thrown (E : Engine) (i : Intent) (rest : list Intent) (c : Component E) :
  dispatch E i c = Throws -> run E (i :: rest) c = Throws.
Proof.
  intros H.
  change (run E (i :: rest) c)
    with (match dispatch E i c with
          | Returns (c1, _) => run E rest c1
          | Throws => Throws
          end).
  rewrite H. reflexivity.
Qed.

(** ** Moves the engine does not make *)

Section Rejection.

Variable E : Engine.
Hypothesis L : EngineLaws E.

(** The game rebuilt from the FEN of [g] has the legal moves of [g]. *)
Lemma moves_reloaded (g : Game E) (sq : Square) :
  moves E (loadFen E (fen E g)) sq = moves E g sq.
Proof. apply (moves_fen E L). apply (fen_loadFen E L). Qed.

Lemma no_own_piece_no_moves (g : Game E) (sq : Square) :
  ~ (exists p, get E g sq = Some p /\ pieceColor p = turn E g) ->
  moves E g sq = [].
Proof.
  intros H. destruct (moves E g sq) eqn:Hm; [reflexivity|].
  exfalso. apply H. apply (moves_own E L). rewrite Hm. discriminate.
Qed.

Lemma handleMove_thrown (s : GameState E) (f t : Square) :
  move E (loadFen E (fen E (game s))) f t = Invalid ->
  handleMove E s f t = Throws.
Proof. intros H. unfold handleMove. rewrite H. reflexivity. Qed.

Lemma handleMove_not_destination (s : GameState E) (f t : Square) :
  ~ In t (map Move.to (moves E (game s) f)) ->
  handleMove E s f t = Throws.
Proof.
  intros H. apply handleMove_thrown. apply (move_legal E L).
  rewrite moves_reloaded. exact H.
Qed.

(** The test [if (!move)] never fires: [handleMove] commits the move or
    throws. *)
Lemma handleMove_commits_or_throws (s : GameState E) (f t : Square) :
  handleMove E s f t = Throws
  \/ exists m g' s' effects,
       move E (loadFen E (fen E (game s))) f t = Made m g'
       /\ handleMove E s f t = Returns (s', effects)
       /\ game s' = g' /\ gameHistory s' = gameHistory s ++ [Move.san m].
Proof.
  unfold handleMove.
  destruct (move E (loadFen E (fen E (game s))) f t) as [m g'| |] eqn:Hm.
  - right. exists m, g'. eexists. eexists.
    split; [reflexivity|]. split; [reflexivity|]. split; reflexivity.
  - exfalso. exact (move_not_null E L _ _ _ Hm).
  - left. reflexivity.
Qed.

End Rejection.

(** What [handleMove] returns for a move the engine makes. *)
Lemma handleMove_made (E : Engine) (s : GameState E) (f t : Square)
      (m : Move.t) (g' : Game E) :
  move E (loadFen E (fen E (game s))) f t = Made m g' ->
  exists effects,
    handleMove E s f t =
    Returns
      ({| game := g';
          gameHistory := gameHistory s ++ [Move.san m];
          capturedPieces := pushCaptured (capturedPieces s) m;
          lastMove := Some {| LastMove.from := f; LastMove.to := t |};
          selectedSquare := None;
          legalMoves := [];
          isFlipped := isFlipped s;
          soundEnabled := soundEnabled s;
          timeControl :=
            if isTimerRunning s
            then creditIncrement (Move.color m) (timeControl s)
            else timeControl s;
          isTimerRunning := isTimerRunning s && negb (isGameOver E g');
          boardTheme := boardTheme s |}, effects).
Proof.
  intros H. unfold handleMove. rewrite H. eexists. reflexivity.
Qed.

(** C2. The claim asks for an unchanged session; the code does not give it.
    If [from] holds no piece of the side to move, or [to] is not among the
    legal destinations of [from], or the engine rejects the pair, then the
    engine throws inside the updater of [handleMove], which has no handler
    for it: the updater returns no state at all, the drop takes the
    component off the page, and no later intent is served. *)
Theorem handleMove_illegal_throws (E : Engine) (L : EngineLaws E)
        (c : Component E) (from to : Square) :
  ~ (exists p, get E (game (gameState c)) from = Some p
               /\ pieceColor p = turn E (game (gameState c)))
  \/ ~ In to (map Move.to (moves E (game (gameState c)) from))
  \/ move E (loadFen E (fen E (game (gameState c)))) from to = Invalid ->
  handleMove E (gameState c) from to = Throws
  /\ dispatch E (DropPiece from to) c = Throws
  /\ forall later, run E (DropPiece from to :: later) c = Throws.
Proof.
  intros H.
  assert (handleMove E (gameState c) from to = Throws) as Ht.
  { destruct H as [H|[H|H]].
    - apply (handleMove_not_destination E L).
      rewrite (no_own_piece_no_moves E L _ _ H). intros [].
    - apply (handleMove_not_destination E L). exact H.
    - apply handleMove_thrown. exact H. }
  split; [exact Ht|].
  assert (dispatch E (DropPiece from to) c = Throws) as Hd.
  { simpl. unfold dispatchMove. rewrite Ht. reflexivity. }
  split; [exact Hd|].
  intros later. simpl run. simpl in Hd. rewrite Hd. reflexivity.
Qed.

Lemma handleMove_illegal_throws_witness :
  handleMove KingsAndRooks.engine Examples.fresh "a1" "b2" = Throws
  /\ run KingsAndRooks.engine [DropPiece "a1" "b2"; Flip]
         (freshComponent KingsAndRooks.engine) = Throws.
Proof.
  destruct (handleMove_illegal_throws KingsAndRooks.engine kr_laws
              (freshComponent KingsAndRooks.engine) "a1" "b2") as [H1 [_ H3]].
  - right. left. intros H. vm_compute in H.
    repeat (destruct H as [H|H]; [discriminate H|]). exact H.
  - split; [exact H1|apply H3].
Defined.

(** ** The increment *)

(** C5. On a committed move the mover's remaining time grows by the
    increment when the clock was running before the move and stays as it
    was when the clock was stopped; the other side's time and the increment
    itself are untouched.  With the clock running, an increment of 5 and
    the mover at 598 seconds, the mover ends with 603 seconds. *)
Theorem handleMove_credits_increment (E : Engine) (s : GameState E)
        (f t : Square) (m : Move.t) (g' : Game E) :
  move E (loadFen E (fen E (game s))) f t = Made m g' ->
  exists s' effects,
    handleMove E s f t = Returns (s', effects) /\
    let tc := timeControl s in
    let tc' := timeControl s' in
    remaining (Move.color m) tc' =
      remaining (Move.color m) tc
      + (if isTimerRunning s then TimeControl.increment tc else 0)
    /\ remaining (otherSide (Move.color m)) tc' = remaining (otherSide (Move.color m)) tc
    /\ TimeControl.increment tc' = TimeControl.increment tc
    /\ (isTimerRunning s = true -> TimeControl.increment tc = 5 ->
        remaining (Move.color m) tc = 598 -> remaining (Move.color m) tc' = 603)
    /\ (isTimerRunning s = false -> tc' = tc).
Proof.
  intros H. destruct (handleMove_made E s f t m g' H) as [effects He].
  eexists. exists effects. split; [exact He|]. simpl.
  destruct (isTimerRunning s), (Move.color m); simpl;
    repeat split; intros; try lia; try discriminate; try reflexivity.
Qed.

Lemma handleMove_credits_increment_witness :
  exists s' effects,
    handleMove KingsAndRooks.engine Examples.timed "a1" "a2" = Returns (s', effects)
    /\ remaining White (timeControl s') = 603.
Proof.
  assert (exists m g',
             move KingsAndRooks.engine
                  (loadFen KingsAndRooks.engine
                           (fen KingsAndRooks.engine (game Examples.timed)))
                  "a1" "a2" = Made m g' /\ Move.color m = White)
    as [m [g' [H Hc]]].
  { vm_compute. eexists. eexists. split; reflexivity. }
  destruct (handleMove_credits_increment KingsAndRooks.engine Examples.timed
              "a1" "a2" m g' H) as [s' [effects [He [_ [_ [_ [H603 _]]]]]]].
  exists s', effects. split; [exact He|].
  rewrite Hc in H603. apply H603; reflexivity.
Defined.

(** ** Undo and the clock *)

(** C8. Whatever [undoMove] returns holds the clock it was given: the
    remaining time of both sides, the increment and the running flag; the
    module-level time control and the time control of the settings dialog
    are not written either.  It returns with an empty history, and
    whenever the loop over the shortened history ends without an exception
    of the engine; where the engine rejects a stored notation there is no
    state at all. *)
Theorem undoMove_keeps_clock (E : Engine) (c : Component E) :
  (forall s' effects,
      undoMove E (gameState c) = Returns (s', effects) ->
      timeControl s' = timeControl (gameState c)
      /\ isTimerRunning s' = isTimerRunning (gameState c))
  /\ (forall c' effects,
        dispatch E Undo c = Returns (c', effects) ->
        timeControl (gameState c') = timeControl (gameState c)
        /\ isTimerRunning (gameState c') = isTimerRunning (gameState c)
        /\ initialTimeControlNow c' = initialTimeControlNow c
        /\ SettingsDialog.localTimeControl (settings c')
           = SettingsDialog.localTimeControl (settings c))
  /\ (gameHistory (gameState c) = [] ->
      dispatch E Undo c = Returns (update E c (gameState c, [])))
  /\ (forall g,
        replay E (removelast (gameHistory (gameState c))) = Returns g ->
        exists c' effects, dispatch E Undo c = Returns (c', effects))
  /\ (gameHistory (gameState c) <> [] ->
      replay E (removelast (gameHistory (gameState c))) = Throws ->
      dispatch E Undo c = Throws).
Proof.
  assert (forall g,
             replay E (removelast (gameHistory (gameState c))) = Returns g ->
             exists c' effects, dispatch E Undo c = Returns (c', effects)) as Hret.
  { intros g Hg. unfold dispatch, undoMove.
    destruct (gameHistory (gameState c)) as [|x r] eqn:Hh.
    - eexists. eexists. reflexivity.
    - rewrite Hg. eexists. eexists. reflexivity. }
  assert (gameHistory (gameState c) <> [] ->
          replay E (removelast (gameHistory (gameState c))) = Throws ->
          dispatch E Undo c = Throws) as Hthr.
  { intros Hne Hg. unfold dispatch, undoMove.
    destruct (gameHistory (gameState c)) as [|x r] eqn:Hh.
    - exfalso. apply Hne. reflexivity.
    - rewrite Hg. reflexivity. }
  assert (forall s' effects,
             undoMove E (gameState c) = Returns (s', effects) ->
             timeControl s' = timeControl (gameState c)
             /\ isTimerRunning s' = isTimerRunning (gameState c)) as Hu.
  { intros s' effects. unfold undoMove.
    destruct (gameHistory (gameState c)).
    - intros H. inversion H; subst. split; reflexivity.
    - destruct (replay E _); [|discriminate].
      intros H. inversion H; subst. split; reflexivity. }
  split; [exact Hu|]. split.
  - intros c' effects. unfold dispatch.
    destruct (undoMove E (gameState c)) as [[s1 e1]|] eqn:Hr; [|discriminate].
    intros H. inversion H; subst. simpl.
    destruct (Hu _ _ eq_refl) as [H1 H2]. repeat split; assumption.
  - split; [|split; [exact Hret|exact Hthr]].
    intros Hh. unfold dispatch, undoMove. rewrite Hh. reflexivity.
Qed.

Lemma undoMove_keeps_clock_witness :
  exists c' effects,
    dispatch KingsAndRooks.engine Undo
      (componentOf KingsAndRooks.engine Examples.twoMoves) = Returns (c', effects)
    /\ timeControl (gameState c') = timeControl Examples.twoMoves.
Proof.
  assert (exists c' effects,
             dispatch KingsAndRooks.engine Undo
               (componentOf KingsAndRooks.engine Examples.twoMoves)
             = Returns (c', effects)) as [c' [effects Hd]].
  { eexists. eexists. reflexivity. }
  exists c', effects. split; [exact Hd|].
  destruct (undoMove_keeps_clock KingsAndRooks.engine
              (componentOf KingsAndRooks.engine Examples.twoMoves)) as [_ [H _]].
  destruct (H c' effects Hd) as [H1 _]. exact H1.
Defined.

(** ** The settings intents *)

(** C10. Flipping the board, toggling the sound and choosing a board theme
    each change their own field only: the position, the move history, the
    captured pieces, the last move, the selection and the clock stay as
    they were, and so do the two other settings. *)
Theorem settings_change_own_field (E : Engine) (c : Component E) (theme : string) :
  exists cf ct ch ef et eh,
    dispatch E Flip c = Returns (cf, ef)
    /\ dispatch E Sound c = Returns (ct, et)
    /\ dispatch E (SetBoardTheme theme) c = Returns (ch, eh)
    /\ let s := gameState c in
       let flipped := gameState cf in
       let toggled := gameState ct in
       let themed := gameState ch in
       (sameGameAndClock s flipped /\ isFlipped flipped = negb (isFlipped s) /\
        soundEnabled flipped = soundEnabled s /\ boardTheme flipped = boardTheme s)
       /\ (sameGameAndClock s toggled /\ soundEnabled toggled = negb (soundEnabled s) /\
           isFlipped toggled = isFlipped s /\ boardTheme toggled = boardTheme s)
       /\ (sameGameAndClock s themed /\ boardTheme themed = theme /\
           isFlipped themed = isFlipped s /\ soundEnabled themed = soundEnabled s).
Proof.
  do 6 eexists.
  split; [reflexivity|]. split; [reflexivity|]. split; [reflexivity|].
  unfold sameGameAndClock. simpl. repeat split; reflexivity.
Qed.

(** ** Restoring a saved game *)

(** C9. With nothing stored, or with a stored text that [JSON.parse]
    rejects, the initialiser returns the fresh state (initial position, no
    move, empty buckets, ten minutes each, clock stopped, board not flipped,
    sound on, classic theme), and the component mounts with it. *)
Theorem initialGameState_falls_back (E : Engine)
        (JSON_parse : string -> option JS.JSON) (savedGame : option string) :
  savedGame = None
  \/ (exists text, savedGame = Some text /\ JSON_parse text = None) ->
  initialGameState E JSON_parse savedGame =
    Typed {| game := newChess E;
             gameHistory := [];
             capturedPieces :=
               {| CapturedPieces.white := []; CapturedPieces.black := [] |};
             lastMove := None;
             selectedSquare := None;
             legalMoves := [];
             isFlipped := false;
             soundEnabled := true;
             timeControl := {| TimeControl.white := 600; TimeControl.black := 600;
                               TimeControl.increment := 0 |};
             isTimerRunning := false;
             boardTheme := "classic" |} false
  /\ mount E JSON_parse savedGame = Some (freshComponent E).
Proof.
  intros [->|[text [-> Hp]]]; unfold mount, initialGameState.
  - split; reflexivity.
  - rewrite Hp. destruct (text =? EmptyString)%string; split; reflexivity.
Qed.

Lemma initialGameState_falls_back_witness :
  mount KingsAndRooks.engine Examples.parse (Some "{oops")
  = Some (freshComponent KingsAndRooks.engine).
Proof.
  apply (initialGameState_falls_back KingsAndRooks.engine Examples.parse
           (Some "{oops")).
  right. exists "{oops". split; reflexivity.
Defined.

(** The other exceptions raised inside [try] end in the fresh state too: a
    stored [null], whose [pgn] cannot be read, and a [pgn] the engine does
    not load. *)
Lemma initialGameState_caught (E : Engine)
      (JSON_parse : string -> option JS.JSON) (text : string) (parsed : JS.JSON) :
  JSON_parse text = Some parsed ->
  parsed = JS.JNull \/ loadPgn E (field parsed "pgn") = None ->
  initialGameState E JSON_parse (Some text) = Typed (freshState E initialTimeControl) false.
Proof.
  intros Hp H. unfold initialGameState. rewrite Hp.
  destruct (text =? EmptyString)%string; [reflexivity|].
  destruct H as [->|H]; [reflexivity|].
  unfold field in H. destruct (JS.prop parsed "pgn"); [|reflexivity].
  rewrite H. reflexivity.
Qed.

(** ** The settings dialog *)

Lemma preset_found_is_valid (presetName : string) (p : SettingsDialog.Preset.t) :
  find (fun p => (SettingsDialog.Preset.name p =? presetName)%string)
       SettingsDialog.TIME_PRESETS = Some p ->
  0 <= SettingsDialog.Preset.time p /\ 0 <= SettingsDialog.Preset.increment p.
Proof.
  intros H. apply find_some in H. destruct H as [Hin _].
  unfold SettingsDialog.TIME_PRESETS in Hin. simpl in Hin.
  repeat (destruct Hin as [<-|Hin]; [simpl; lia|]). destruct Hin.
Qed.

Lemma settings_step_valid (st : SettingsDialog.State) (a : SettingsDialog.Action) :
  SettingsDialog.inRange a ->
  fromSettings (SettingsDialog.localTimeControl st) ->
  fromSettings (SettingsDialog.localTimeControl (SettingsDialog.step st a)).
Proof.
  intros Ha [H1 [H2 H3]]. destruct a as [n|v|v]; simpl in *.
  - unfold SettingsDialog.handleTimePresetChange.
    destruct (find _ SettingsDialog.TIME_PRESETS) as [p|] eqn:Hf;
      [|repeat split; assumption].
    destruct (preset_found_is_valid n p Hf) as [P1 P2].
    destruct (negb _); simpl; repeat split; assumption.
  - unfold fromSettings. simpl. lia.
  - unfold fromSettings. simpl. lia.
Qed.

(** A handler that installs no object leaves the fields it shows. *)
Lemma settings_step_keeps (st : SettingsDialog.State) (a : SettingsDialog.Action) :
  SettingsDialog.installs a = false ->
  SettingsDialog.localTimeControl (SettingsDialog.step st a)
  = SettingsDialog.localTimeControl st.
Proof.
  destruct a as [n|v|v];
    unfold SettingsDialog.installs, SettingsDialog.step,
      SettingsDialog.handleTimePresetChange;
    [|discriminate|discriminate].
  destruct (find _ SettingsDialog.TIME_PRESETS) as [p|]; [|reflexivity].
  intros ->. reflexivity.
Qed.

(** ** The clock *)

Section Clock.

Variable E : Engine.

Lemma handleMove_clockOk (s s' : GameState E) (f t : Square)
      (effects : list (Effect E)) :
  handleMove E s f t = Returns (s', effects) ->
  clockOk (timeControl s) -> clockOk (timeControl s').
Proof.
  unfold handleMove, clockOk.
  destruct (move E _ f t) as [m g'| |]; intros H; inversion H; subst; simpl;
    [|tauto].
  destruct (isTimerRunning s), (Move.color m); simpl; lia.
Qed.

Lemma tick_clockOk (s : GameState E) :
  clockOk (timeControl s) -> clockOk (timeControl (fst (tick E s))).
Proof.
  unfold tick, clockOk. destruct (turn E (game s)); simpl; lia.
Qed.

(** What the push leaves of [prev]: everything but the buckets. *)
Lemma afterPush_frame (s : GameState E) (f t : Square) :
  let s' := afterPush E s f t in
  game s' = game s /\ gameHistory s' = gameHistory s
  /\ lastMove s' = lastMove s
  /\ selectedSquare s' = selectedSquare s /\ legalMoves s' = legalMoves s
  /\ timeControl s' = timeControl s /\ isTimerRunning s' = isTimerRunning s
  /\ isFlipped s' = isFlipped s /\ soundEnabled s' = soundEnabled s
  /\ boardTheme s' = boardTheme s.
Proof.
  unfold afterPush. destruct (move E _ f t); simpl; repeat split; reflexivity.
Qed.

(** The updater of [handleSquareClick] writes the selection only. *)
Lemma handleSquareClick_frame (s : GameState E) (sq : Square) :
  let s' := fst (handleSquareClick E s sq) in
  game s' = game s /\ gameHistory s' = gameHistory s
  /\ capturedPieces s' = capturedPieces s /\ lastMove s' = lastMove s
  /\ timeControl s' = timeControl s /\ isTimerRunning s' = isTimerRunning s
  /\ isFlipped s' = isFlipped s /\ soundEnabled s' = soundEnabled s
  /\ boardTheme s' = boardTheme s.
Proof.
  unfold handleSquareClick.
  destruct (selectedSquare s) as [sel|];
    repeat match goal with
           | |- context [if ?b then _ else _] => destruct b
           end; simpl; repeat split; reflexivity.
Qed.

Lemma dispatchMove_clocksOk (c c' : Component E) (f t : Square)
      (effects : list (Effect E)) :
  dispatchMove E c f t = Returns (c', effects) ->
  clocksOk E c -> clocksOk E c'.
Proof.
  unfold dispatchMove. intros Hd [H1 [H2 H3]].
  destruct (handleMove E (gameState c) f t) as [[s1 e1]|] eqn:Hm; [|discriminate].
  pose proof (handleMove_clockOk _ _ _ _ _ Hm H1) as H4.
  destruct (move E _ f t); inversion Hd; subst; simpl;
    (split; [exact H4|split; assumption]).
Qed.

Lemma completeMove_clocksOk (c c' : Component E) (idle : bool) (f t : Square)
      (effects : list (Effect E)) :
  completeMove E c idle f t = Returns (c', effects) ->
  clocksOk E c -> clocksOk E c'.
Proof.
  unfold completeMove. destruct idle; [|apply dispatchMove_clocksOk].
  intros Hd [H1 [H2 H3]].
  destruct (handleMove E (gameState c) f t) as [[s1 e1]|]; [|discriminate].
  inversion Hd; subst.
  destruct (afterPush_frame (gameState c) f t) as [_ [_ [_ [_ [_ [Ht _]]]]]].
  unfold clocksOk, update, render.
  cbn [fst gameState initialTimeControlNow settings].
  split; [rewrite Ht; exact H1|split; assumption].
Qed.

Lemma dispatch_clocksOk (i : Intent) (c c' : Component E)
      (effects : list (Effect E)) :
  validIntent i ->
  dispatch E i c = Returns (c', effects) ->
  clocksOk E c -> clocksOk E c'.
Proof.
  intros Hv Hd Hok. pose proof Hok as [H1 [H2 H3]].
  destruct i; unfold dispatch in Hd.
  - exact (dispatchMove_clocksOk _ _ _ _ _ Hd Hok).
  - pose proof (handleSquareClick_frame (gameState c) square) as F.
    destruct (handleSquareClick E (gameState c) square) as [s [[f t]|]].
    + exact (completeMove_clocksOk _ _ _ _ _ _ Hd Hok).
    + simpl in F. destruct F as [_ [_ [_ [_ [Ft _]]]]].
      inversion Hd; subst; unfold clocksOk; simpl.
      split; [rewrite Ft; exact H1|split; assumption].
  - inversion Hd; subst; unfold clocksOk; simpl. split; [exact H2|split; assumption].
  - destruct (undoMove E (gameState c)) as [[s1 e1]|] eqn:Hu; [|discriminate].
    inversion Hd; subst; unfold clocksOk; simpl. split; [|split; assumption].
    unfold undoMove in Hu. destruct (gameHistory (gameState c)).
    + inversion Hu; subst. exact H1.
    + destruct (replay E _); [|discriminate]. inversion Hu; subst. exact H1.
  - inversion Hd; subst; unfold clocksOk; simpl. split; [exact H1|split; assumption].
  - inversion Hd; subst; unfold clocksOk; simpl. split; [exact H1|split; assumption].
  - inversion Hd; subst; unfold clocksOk; simpl. split; [exact H1|split; assumption].
  - inversion Hd; subst; unfold clocksOk; simpl. split; [exact H1|split; [exact H2|]].
    exact (settings_step_valid _ _ Hv H3).
  - inversion Hd; subst; unfold clocksOk; simpl. split; [exact H3|split; assumption].
  - inversion Hd; subst; unfold clocksOk; simpl. split; [exact H1|split; assumption].
  - destruct (timerActive E (gameState c)); inversion Hd; subst; [|exact Hok].
    simpl. pose proof (tick_clockOk _ H1) as H4.
    split; [exact H4|]. split.
    + destruct (Ref_eqb (timeControlRef c) Initial); assumption.
    + destruct (Ref_eqb (timeControlRef c) (localTimeControlRef c)); assumption.
Qed.

Lemma run_clocksOk (intents : list Intent) (c c' : Component E) :
  Forall validIntent intents ->
  run E intents c = Returns c' ->
  clocksOk E c -> clocksOk E c'.
Proof.
  intros Hv. revert c. induction Hv as [|i r Hi Hr IH]; intros c Hrun Hc.
  - inversion Hrun; subst. exact Hc.
  - simpl in Hrun.
    destruct (dispatch E i c) as [[c1 e1]|] eqn:Hd; [|discriminate].
    apply (IH c1 Hrun). exact (dispatch_clocksOk _ _ _ _ Hi Hd Hc).
Qed.

(** One run of the timer callback. *)
Lemma tick_step (s : GameState E) :
  let mover := turn E (game s) in
  let s' := fst (tick E s) in
  remaining mover (timeControl s') = Z.max 0 (remaining mover (timeControl s) - 1)
  /\ remaining (otherSide mover) (timeControl s')
     = remaining (otherSide mover) (timeControl s)
  /\ TimeControl.increment (timeControl s') = TimeControl.increment (timeControl s)
  /\ game s' = game s
  /\ (remaining mover (timeControl s') = 0 ->
      isTimerRunning s' = false
      /\ snd (tick E s)
         = [Toast "Time's up!"
              match mover with
              | White => "White ran out of time. Black wins!"
              | Black => "Black ran out of time. White wins!"
              end])
  /\ (remaining mover (timeControl s') <> 0 ->
      isTimerRunning s' = isTimerRunning s /\ snd (tick E s) = []).
Proof.
  unfold tick. destruct (turn E (game s)); simpl;
    (split; [reflexivity|]); (split; [reflexivity|]);
    (split; [reflexivity|]); (split; [reflexivity|]); split; intros Hz.
  - rewrite Hz. split; reflexivity.
  - apply Z.eqb_neq in Hz. rewrite Hz. split; reflexivity.
  - rewrite Hz. split; reflexivity.
  - apply Z.eqb_neq in Hz. rewrite Hz. split; reflexivity.
Qed.

(** The timer callback as the component runs it. *)
Lemma tick_dispatched (c : Component E) :
  timerActive E (gameState c) = true ->
  exists c',
    dispatch E Tick c = Returns (c', snd (tick E (gameState c)))
    /\ gameState c' = fst (tick E (gameState c)).
Proof.
  intros H. unfold dispatch. rewrite H. eexists. split; reflexivity.
Qed.

Lemma tick_stopped (c : Component E) :
  timerActive E (gameState c) = false -> dispatch E Tick c = Returns (c, []).
Proof. intros H. unfold dispatch. rewrite H. reflexivity. Qed.

End Clock.

(** C4 as stated fails: the time is reported as run out more than once.
    With thirty seconds a side, the clock is started and White lets the
    thirty seconds go by: the toast is shown and the clock stops.  The
    clock button starts the clock again, at 0, and the next tick shows the
    toast a second time. *)
Lemma time_expired_twice_counterexample :
  ~ (forall (E : Engine) (c0 c : Component E) (intents : list Intent)
            (effects : list (Effect E)) (side : Color),
        clocksOk E c0 ->
        Forall validIntent intents ->
        runLog E intents c0 = Returns (c, effects) ->
        (timesExpired E side effects <= 1)%nat).
Proof.
  intros H.
  set (intents :=
         [ChangeSettings (SettingsDialog.SlideTime 30); ApplySettings; Timer]
         ++ repeat Tick 30 ++ [Timer; Tick]).
  assert (match runLog KingsAndRooks.engine intents
                  (freshComponent KingsAndRooks.engine) with
          | Returns (_, effects) => timesExpired KingsAndRooks.engine White effects
          | Throws => 0%nat
          end = 2%nat) as Htwice.
  { vm_compute. reflexivity. }
  destruct (runLog KingsAndRooks.engine intents (freshComponent KingsAndRooks.engine))
    as [[c effects]|] eqn:Hr; [|discriminate Htwice].
  assert (timesExpired KingsAndRooks.engine White effects <= 1)%nat as Hle.
  { apply (H KingsAndRooks.engine (freshComponent KingsAndRooks.engine) c intents).
    - repeat split; simpl; lia.
    - apply Forall_forall. intros i Hi. unfold intents in Hi. simpl in Hi.
      repeat (destruct Hi as [<-|Hi]; [simpl; try lia; exact I|]).
      destruct Hi.
    - exact Hr. }
  rewrite Htwice in Hle. lia.
Qed.

(** C4, amended.  In every state the component reaches from one without
    negative clock entries, a new game among them, neither side's remaining
    time is negative.  While the clock is stopped or the game is over no
    tick runs.  Otherwise a tick takes exactly one second, floored at 0,
    from the side to move and leaves the other side alone; if time is
    left, it reports nothing and the clock goes on.  If it leaves the side
    to move at 0, the clock is stopped and that tick shows one toast which
    names that side as out of time, and no tick runs while the clock stays
    stopped; the clock button starts the clock again at 0, and the next
    tick shows the same toast once more and stops the clock again. *)
Theorem clock_never_negative (E : Engine) (c0 c : Component E)
        (intents : list Intent) :
  clocksOk E c0 ->
  Forall validIntent intents ->
  run E intents c0 = Returns c ->
  let s := gameState c in
  let mover := turn E (game s) in
  let expired : Effect E :=
    Toast "Time's up!"
      match mover with
      | White => "White ran out of time. Black wins!"
      | Black => "Black ran out of time. White wins!"
      end in
  (0 <= remaining White (timeControl s) /\ 0 <= remaining Black (timeControl s))
  /\ (timerActive E s = false -> dispatch E Tick c = Returns (c, []))
  /\ (timerActive E s = true ->
      exists c' effects,
        dispatch E Tick c = Returns (c', effects)
        /\ let s' := gameState c' in
           game s' = game s
           /\ remaining mover (timeControl s')
              = Z.max 0 (remaining mover (timeControl s) - 1)
           /\ remaining (otherSide mover) (timeControl s')
              = remaining (otherSide mover) (timeControl s)
           /\ (remaining mover (timeControl s') <> 0 ->
               isTimerRunning s' = true /\ effects = [])
           /\ (remaining mover (timeControl s') = 0 ->
               isTimerRunning s' = false
               /\ effects = [expired]
               /\ dispatch E Tick c' = Returns (c', [])
               /\ exists c2 c3,
                    dispatch E Timer c' = Returns (c2, [])
                    /\ isTimerRunning (gameState c2) = true
                    /\ dispatch E Tick c2 = Returns (c3, [expired])
                    /\ remaining mover (timeControl (gameState c3)) = 0
                    /\ isTimerRunning (gameState c3) = false)).
Proof.
  intros Hok Hv Hrun s mover expired.
  assert (clocksOk E c) as [[Hw [Hb _]] _].
  { exact (run_clocksOk E _ _ _ Hv Hrun Hok). }
  split; [split; assumption|].
  split; [apply tick_stopped|].
  intros Ha.
  destruct (tick_dispatched E c Ha) as [c' [Hd Hs']].
  exists c', (snd (tick E s)). split; [exact Hd|]. cbv zeta.
  destruct (tick_step E s) as [T1 [T2 [_ [T4 [T5 T6]]]]].
  fold s in Hs'. fold mover in T1, T2, T5, T6.
  assert (isTimerRunning s = true /\ isGameOver E (game s) = false) as [Hrunning Hover].
  { unfold timerActive in Ha. apply andb_true_iff in Ha. destruct Ha as [A B].
    split; [exact A|]. destruct (isGameOver E (game s)); [discriminate B|reflexivity]. }
  split; [rewrite Hs'; exact T4|].
  split; [rewrite Hs'; exact T1|].
  split; [rewrite Hs'; exact T2|].
  split.
  { rewrite Hs'. intros Hz. destruct (T6 Hz) as [A B]. rewrite A.
    split; assumption. }
  intros Hz. rewrite Hs' in Hz. destruct (T5 Hz) as [A B].
  split; [rewrite Hs'; exact A|]. split; [exact B|].
  assert (timerActive E (gameState c') = false) as Hstop.
  { rewrite Hs'. unfold timerActive. rewrite A. reflexivity. }
  split; [exact (tick_stopped E c' Hstop)|].
  assert (exists c2, dispatch E Timer c' = Returns (c2, [])
                     /\ gameState c2 = fst (toggleTimer E (gameState c')))
    as [c2 [Ht Hs2]].
  { eexists. split; reflexivity. }
  assert (game (gameState c2) = game s) as Hg2.
  { rewrite Hs2, Hs'. simpl. exact T4. }
  assert (timeControl (gameState c2) = timeControl (fst (tick E s))) as Htc2.
  { rewrite Hs2, Hs'. reflexivity. }
  assert (isTimerRunning (gameState c2) = true) as Hr2.
  { rewrite Hs2, Hs'. simpl. rewrite A. reflexivity. }
  assert (timerActive E (gameState c2) = true) as Ha2.
  { unfold timerActive. rewrite Hr2, Hg2, Hover. reflexivity. }
  destruct (tick_dispatched E c2 Ha2) as [c3 [Hd3 Hs3]].
  destruct (tick_step E (gameState c2)) as [U1 [_ [_ [_ [U5 _]]]]].
  rewrite Hg2 in U1, U5. fold mover in U1, U5.
  rewrite Htc2, Hz in U1. simpl in U1.
  destruct (U5 U1) as [V1 V2].
  exists c2, c3. split; [exact Ht|]. split; [exact Hr2|].
  split; [rewrite Hd3, V2; reflexivity|].
  rewrite Hs3. split; [exact U1|exact V1].
Qed.

Lemma clock_never_negative_witness :
  exists c',
    dispatch KingsAndRooks.engine Tick
      (componentOf KingsAndRooks.engine Examples.lastSecond)
    = Returns (c', [Toast "Time's up!" "White ran out of time. Black wins!"])
    /\ isTimerRunning (gameState c') = false.
Proof.
  assert (clocksOk KingsAndRooks.engine
            (componentOf KingsAndRooks.engine Examples.lastSecond)) as Hok.
  { repeat split; simpl; lia. }
  destruct (clock_never_negative KingsAndRooks.engine
              (componentOf KingsAndRooks.engine Examples.lastSecond)
              (componentOf KingsAndRooks.engine Examples.lastSecond)
              [] Hok (Forall_nil _) eq_refl) as [_ [_ H]].
  destruct H as [c' [effects [Hd [_ [H1 [_ [_ H0]]]]]]].
  { vm_compute. reflexivity. }
  assert (turn KingsAndRooks.engine
            (game (gameState (componentOf KingsAndRooks.engine Examples.lastSecond)))
          = White) as Hmover by reflexivity.
  rewrite Hmover in H0, H1.
  destruct H0 as [Hr [He _]].
  { rewrite H1. reflexivity. }
  exists c'. split; [rewrite Hd, He; reflexivity|exact Hr].
Defined.

(** ** Replaying the move history *)

Section Replay.

Variable E : Engine.
Hypothesis L : EngineLaws E.

(** The loop of [undoMove], from any game on. *)
Lemma replay_fold (sans : list string) (g g' : Game E) :
  replayFrom E g sans = Some g' ->
  fold_left
    (fun r san =>
       match r with
       | Returns g =>
           match moveSan E g san with
           | Made _ g' => Returns g'
           | Null => Returns g
           | Invalid => Throws
           end
       | Throws => Throws
       end)
    sans (Returns g) = Returns g'.
Proof.
  revert g. induction sans as [|x r IH]; simpl; intros g H.
  - congruence.
  - destruct (moveSan E g x) as [m g1| |]; try discriminate.
    apply IH. exact H.
Qed.

(** Where every notation is made, the loop of [undoMove] ends without an
    exception, in the game of the strict replay. *)
Lemma replay_replayFrom (sans : list string) (g : Game E) :
  replayFrom E (newChess E) sans = Some g -> replay E sans = Returns g.
Proof. apply replay_fold. Qed.

Lemma replayFrom_app (sans : list string) (x : string) (g : Game E) :
  replayFrom E g (sans ++ [x]) =
  match replayFrom E g sans with
  | Some g1 =>
      match moveSan E g1 x with Made _ g2 => Some g2 | _ => None end
  | None => None
  end.
Proof.
  revert g. induction sans as [|y r IH]; simpl; intros g.
  - destruct (moveSan E g x) as [m g1| |]; reflexivity.
  - destruct (moveSan E g y) as [m g1| |]; [apply IH|reflexivity|reflexivity].
Qed.

Lemma replayFrom_history (sans : list string) (g g' : Game E) :
  replayFrom E g sans = Some g' ->
  List.length (history E g') = (List.length (history E g) + List.length sans)%nat.
Proof.
  revert g. induction sans as [|x r IH]; simpl; intros g H.
  - inversion H; subst. lia.
  - destruct (moveSan E g x) as [m g1| |] eqn:Hm; try discriminate.
    rewrite (IH _ H). rewrite (moveSan_made E L _ _ _ _ Hm).
    rewrite length_app. simpl. lia.
Qed.

(** Recalculating the buckets from a list of records collects, for each
    side, the pieces taken by that side's own records. *)
Lemma fold_pushCaptured (h : list Move.t) (acc : CapturedPieces.t) (c : Color) :
  bucket c (fold_left pushCaptured h acc) = bucket c acc ++ capturedIn c h.
Proof.
  revert acc. induction h as [|m r IH]; simpl; intros acc.
  - rewrite app_nil_r. reflexivity.
  - rewrite IH. unfold pushCaptured, capturedPiece, capturedPieceId.
    destruct (Move.captured m) as [p|], (Move.color m), c; simpl;
      try rewrite <- app_assoc; reflexivity.
Qed.

Lemma recalculate_buckets (h : list Move.t) (c : Color) :
  bucket c (recalculate h) = capturedIn c h.
Proof.
  unfold recalculate. rewrite fold_pushCaptured. destruct c; reflexivity.
Qed.

Lemma recalculate_snoc (h : list Move.t) (m : Move.t) :
  recalculate (h ++ [m]) = pushCaptured (recalculate h) m.
Proof. unfold recalculate. rewrite fold_left_app. reflexivity. Qed.

Lemma lastMoveOf_snoc (h : list Move.t) (m : Move.t) :
  lastMoveOf (h ++ [m])
  = Some {| LastMove.from := Move.from m; LastMove.to := Move.to m |}.
Proof. unfold lastMoveOf. rewrite rev_unit. reflexivity. Qed.

(** A committed move keeps the state consistent with its records. *)
Lemma handleMove_consistent (s s' : GameState E) (records : list Move.t)
      (f t : Square) (m : Move.t) (g1 : Game E) (effects : list (Effect E)) :
  consistent E s records ->
  move E (loadFen E (fen E (game s))) f t = Made m g1 ->
  handleMove E s f t = Returns (s', effects) ->
  consistent E s' (records ++ [m]).
Proof.
  intros [g [Hr [Hf [Hh Hc]]]] Hm Hs.
  assert (fen E (loadFen E (fen E (game s))) = fen E g) as Hfen.
  { rewrite (fen_loadFen E L). symmetry. exact Hf. }
  destruct (san_roundtrip E L _ _ _ _ _ _ Hfen Hm) as [g2 [Hs2 Hf2]].
  unfold handleMove in Hs. rewrite Hm in Hs. inversion Hs; subst; clear Hs.
  exists g2. simpl. split; [|split; [|split]].
  - rewrite replayFrom_app, Hr, Hs2. reflexivity.
  - exact Hf2.
  - rewrite (moveSan_made E L _ _ _ _ Hs2). reflexivity.
  - rewrite recalculate_snoc, Hc. reflexivity.
Qed.

Lemma play_consistent (ms : list (Square * Square)) (s s' : GameState E)
      (records0 records : list Move.t) :
  consistent E s records0 ->
  play E s ms = Some (s', records) ->
  consistent E s' (records0 ++ records).
Proof.
  revert s records0 records.
  induction ms as [|[f t] r IH]; simpl; intros s records0 records Hc Hp.
  - inversion Hp; subst. rewrite app_nil_r. exact Hc.
  - destruct (move E _ f t) as [m g1| |] eqn:Hm; try discriminate.
    destruct (handleMove E s f t) as [[s1 e1]|] eqn:Hs; [|discriminate].
    destruct (play E s1 r) as [[s2 recs]|] eqn:Hr; [|discriminate].
    inversion Hp; subst.
    replace (records0 ++ m :: recs) with ((records0 ++ [m]) ++ recs)
      by (rewrite <- app_assoc; reflexivity).
    apply (IH _ _ _ (handleMove_consistent _ _ _ _ _ _ _ _ Hc Hm Hs) Hr).
Qed.

Lemma fresh_consistent (tc : TimeControl.t) : consistent E (freshState E tc) [].
Proof.
  exists (newChess E). simpl. repeat split. apply (history_newChess E L).
Qed.

(** What [undoMove] returns when the shortened history replays. *)
Lemma undoMove_result (s : GameState E) (sans : list string) (last : string)
      (g : Game E) :
  gameHistory s = sans ++ [last] ->
  replayFrom E (newChess E) sans = Some g ->
  exists effects,
    undoMove E s =
    Returns
      ({| game := g;
          gameHistory := sans;
          capturedPieces := recalculate (history E g);
          lastMove := lastMoveOf (history E g);
          selectedSquare := None;
          legalMoves := [];
          isFlipped := isFlipped s;
          soundEnabled := soundEnabled s;
          timeControl := timeControl s;
          isTimerRunning := isTimerRunning s;
          boardTheme := boardTheme s |}, effects).
Proof.
  intros Hh Hr. unfold undoMove.
  destruct (gameHistory s) as [|x r] eqn:Hg.
  - destruct sans; discriminate.
  - rewrite Hh, removelast_last.
    rewrite (replay_replayFrom _ _ Hr). eexists. reflexivity.
Qed.

(** A notation the engine does not accept ends the loop, and the updater,
    with its exception. *)
Lemma undoMove_thrown (s : GameState E) (sans : list string) (last : string) :
  gameHistory s = sans ++ [last] ->
  replay E sans = Throws ->
  undoMove E s = Throws.
Proof.
  intros Hh Hr. unfold undoMove.
  destruct (gameHistory s) as [|x r] eqn:Hg.
  - destruct sans; discriminate.
  - rewrite Hh, removelast_last, Hr. reflexivity.
Qed.

End Replay.

(** C3. With an empty history [undoMove] returns the state it was given.
    Otherwise it drops the last notation and, the remaining notations
    replaying from the initial position to a game [g], the new state holds
    [g], the buckets collected from the records of [g], the squares of the
    last of these records as last move (none when no notation remains), and
    no selection. *)
Theorem undoMove_replays_history (E : Engine) (L : EngineLaws E) (s : GameState E) :
  (gameHistory s = [] -> undoMove E s = Returns (s, []))
  /\ (forall sans last g,
        gameHistory s = sans ++ [last] ->
        replayFrom E (newChess E) sans = Some g ->
        exists s' effects,
          undoMove E s = Returns (s', effects)
          /\ gameHistory s' = sans
          /\ game s' = g
          /\ (forall c, bucket c (capturedPieces s') = capturedIn c (history E g))
          /\ List.length (history E g) = List.length sans
          /\ (sans = [] -> lastMove s' = None)
          /\ (forall h m, history E g = h ++ [m] ->
              lastMove s' = Some {| LastMove.from := Move.from m;
                                    LastMove.to := Move.to m |})
          /\ selectedSquare s' = None /\ legalMoves s' = []).
Proof.
  split.
  - intros H. unfold undoMove. rewrite H. reflexivity.
  - intros sans last g Hh Hr.
    destruct (undoMove_result E s sans last g Hh Hr) as [effects Hu].
    eexists. exists effects. split; [exact Hu|]. simpl.
    pose proof (replayFrom_history E L _ _ _ Hr) as Hlen.
    rewrite (history_newChess E L) in Hlen. simpl in Hlen.
    split; [reflexivity|]. split; [reflexivity|].
    split; [intros c; apply recalculate_buckets|].
    split; [exact Hlen|].
    split.
    + intros ->. simpl in Hlen.
      destruct (history E g); [reflexivity|discriminate].
    + split; [|split; reflexivity].
      intros h m Hm. rewrite Hm. apply lastMoveOf_snoc.
Qed.

Lemma undoMove_replays_history_witness :
  exists s' effects,
    undoMove KingsAndRooks.engine Examples.twoMoves = Returns (s', effects)
    /\ gameHistory s' = ["a1a8"].
Proof.
  assert (exists g,
             replayFrom KingsAndRooks.engine (newChess KingsAndRooks.engine) ["a1a8"]
             = Some g) as [g Hg].
  { vm_compute. eexists. reflexivity. }
  destruct (undoMove_replays_history KingsAndRooks.engine kr_laws Examples.twoMoves)
    as [_ H].
  destruct (H ["a1a8"] "e8d7" g) as [s' [effects [Hu [H1 _]]]].
  - reflexivity.
  - exact Hg.
  - exists s', effects. split; [exact Hu|exact H1].
Defined.

(** A stored notation that is no move makes [undoMove] throw. *)
Example undoMove_stray_notation :
  undoMove KingsAndRooks.engine Examples.strayNotation = Throws.
Proof. reflexivity. Qed.

(** ** Captured pieces *)

(** C7 as stated fails: once the white rook has taken the rook on a8, the
    white bucket holds that rook, while the records made by Black hold no
    capture. *)
Lemma captured_by_opposing_side_counterexample :
  ~ (forall (E : Engine) (L : EngineLaws E) (ms : list (Square * Square))
            (s : GameState E) (records : list Move.t) (c : Color),
        play E (freshState E initialTimeControl) ms = Some (s, records) ->
        Permutation (bucket c (capturedPieces s))
                    (capturedIn (otherSide c) records)).
Proof.
  intros H.
  assert (exists s records,
             play KingsAndRooks.engine
                  (freshState KingsAndRooks.engine initialTimeControl)
                  [("a1", "a8")] = Some (s, records)
             /\ bucket White (capturedPieces s) = ["bR"]
             /\ capturedIn Black records = []) as [s [records [Hp [Hb Hc]]]].
  { eexists. eexists. split; [reflexivity|]. split; reflexivity. }
  specialize (H KingsAndRooks.engine kr_laws _ s records White Hp).
  change (otherSide White) with Black in H. rewrite Hb, Hc in H.
  apply Permutation_length in H. discriminate H.
Qed.

(** C7, amended.  After any sequence of committed moves from a new game,
    the bucket of each side holds exactly the captured pieces of the records
    made by that same side, in the order of play; recalculating the buckets
    from a full replay of the move history gives the same buckets; and
    undoing a further committed move gives back the buckets held before
    it. *)
Theorem captured_pieces_follow_records (E : Engine) (L : EngineLaws E)
        (tc : TimeControl.t) (ms : list (Square * Square))
        (s : GameState E) (records : list Move.t) :
  play E (freshState E tc) ms = Some (s, records) ->
  (forall c, bucket c (capturedPieces s) = capturedIn c records)
  /\ (forall c, Permutation (bucket c (capturedPieces s)) (capturedIn c records))
  /\ (exists g,
        replay E (gameHistory s) = Returns g
        /\ history E g = records
        /\ recalculate (history E g) = capturedPieces s)
  /\ (forall f t m g1,
        move E (loadFen E (fen E (game s))) f t = Made m g1 ->
        exists s1 e1 s2 e2,
          handleMove E s f t = Returns (s1, e1)
          /\ capturedPieces s1 = pushCaptured (capturedPieces s) m
          /\ undoMove E s1 = Returns (s2, e2)
          /\ capturedPieces s2 = capturedPieces s).
Proof.
  intros Hp.
  pose proof (play_consistent E L ms _ _ [] records (fresh_consistent E L tc) Hp)
    as [g [Hr [Hf [Hh Hc]]]].
  simpl in Hh.
  assert (forall c, bucket c (capturedPieces s) = capturedIn c records) as Hb.
  { intros c. rewrite Hc. apply recalculate_buckets. }
  split; [exact Hb|].
  split; [intros c; rewrite Hb; apply Permutation_refl|].
  split.
  { exists g. split; [exact (replay_replayFrom E _ _ Hr)|].
    split; [exact Hh|]. rewrite Hh. symmetry. exact Hc. }
  intros f t m g1 Hm.
  destruct (handleMove_made E s f t m g1 Hm) as [e1 He1].
  match type of He1 with
  | _ = Returns (?s1, _) =>
      destruct (undoMove_result E s1 (gameHistory s) (Move.san m) g eq_refl Hr)
        as [e2 He2]
  end.
  eexists. exists e1. eexists. exists e2.
  split; [exact He1|]. split; [reflexivity|].
  split; [exact He2|]. simpl. rewrite Hh. symmetry. exact Hc.
Qed.

Lemma captured_pieces_follow_records_witness :
  exists s records,
    play KingsAndRooks.engine Examples.fresh [("a1", "a8"); ("e8", "d7")]
    = Some (s, records)
    /\ bucket White (capturedPieces s) = capturedIn White records.
Proof.
  assert (exists s records,
             play KingsAndRooks.engine Examples.fresh [("a1", "a8"); ("e8", "d7")]
             = Some (s, records)) as [s [records Hp]].
  { eexists. eexists. reflexivity. }
  exists s, records. split; [exact Hp|].
  destruct (captured_pieces_follow_records KingsAndRooks.engine kr_laws
              initialTimeControl _ s records Hp) as [Hb _].
  apply Hb.
Defined.

(** ** The end of the game *)

(** C6 as stated fails: the king takes the last rook, which leaves bare
    kings and ends the game as a draw; the engine still has legal king
    moves, and [handleMove] commits the next one. *)
Lemma finished_game_accepts_moves_counterexample :
  ~ (forall (E : Engine) (L : EngineLaws E) (s s' : GameState E) (f t : Square)
            (m : Move.t) (g' : Game E) (effects : list (Effect E)),
        move E (loadFen E (fen E (game s))) f t = Made m g' ->
        isGameOver E g' = true ->
        handleMove E s f t = Returns (s', effects) ->
        isTimerRunning s' = false
        /\ forall f' t', handleMove E s' f' t' = Returns (s', [])).
Proof.
  intros H.
  destruct (move KingsAndRooks.engine
                 (loadFen KingsAndRooks.engine
                          (fen KingsAndRooks.engine (game Examples.lastRook)))
                 "d4" "e5") as [m g'| |] eqn:Hm;
    [|vm_compute in Hm; discriminate Hm|vm_compute in Hm; discriminate Hm].
  assert (isGameOver KingsAndRooks.engine g' = true) as Ho.
  { vm_compute in Hm. inversion Hm; subst. vm_compute. reflexivity. }
  destruct (handleMove_made KingsAndRooks.engine Examples.lastRook "d4" "e5" m g' Hm)
    as [effects He].
  destruct (H KingsAndRooks.engine kr_laws Examples.lastRook _ "d4" "e5" m g'
              effects Hm Ho He) as [_ Hno].
  specialize (Hno "e8" "d8").
  apply (f_equal (fun r => match r with
                           | Returns (_, e) => List.length e
                           | Throws => 0%nat
                           end)) in Hno.
  vm_compute in Hm. inversion Hm; subst.
  vm_compute in Hno. discriminate Hno.
Qed.

(** C6, amended.  A committed move that leaves the game over leaves the
    clock stopped, and no tick runs after it.  The finished game is not
    closed to [handleMove]: every move the engine still makes in the
    position reached is committed like any other, with its notation added
    to the history, and the clock stays stopped. *)
Theorem game_over_stops_clock (E : Engine) (s : GameState E)
        (f t : Square) (m : Move.t) (g' : Game E) :
  move E (loadFen E (fen E (game s))) f t = Made m g' ->
  isGameOver E g' = true ->
  exists s' effects,
    handleMove E s f t = Returns (s', effects)
    /\ game s' = g'
    /\ isTimerRunning s' = false
    /\ timerActive E s' = false
    /\ (forall f' t' m' g'',
          move E (loadFen E (fen E g')) f' t' = Made m' g'' ->
          exists s'' effects',
            handleMove E s' f' t' = Returns (s'', effects')
            /\ game s'' = g''
            /\ gameHistory s'' = gameHistory s' ++ [Move.san m']
            /\ lastMove s'' = Some {| LastMove.from := f'; LastMove.to := t' |}
            /\ isTimerRunning s'' = false).
Proof.
  intros Hm Ho.
  destruct (handleMove_made E s f t m g' Hm) as [effects He].
  eexists. exists effects. split; [exact He|]. simpl.
  split; [reflexivity|].
  split; [rewrite Ho; apply andb_false_r|].
  split; [unfold timerActive; simpl; rewrite Ho; apply andb_false_r|].
  intros f' t' m' g'' Hm'.
  match goal with
  | |- exists s'' effects', handleMove E ?s1 f' t' = _ /\ _ =>
      destruct (handleMove_made E s1 f' t' m' g'' Hm') as [effects' He']
  end.
  eexists. exists effects'. split; [exact He'|]. simpl.
  split; [reflexivity|]. split; [reflexivity|]. split; [reflexivity|].
  rewrite Ho. rewrite andb_false_r. reflexivity.
Qed.

Lemma game_over_stops_clock_witness :
  exists s' effects s'' effects',
    handleMove KingsAndRooks.engine Examples.lastRook "d4" "e5" = Returns (s', effects)
    /\ isTimerRunning s' = false
    /\ handleMove KingsAndRooks.engine s' "e8" "d8" = Returns (s'', effects')
    /\ gameHistory s'' = gameHistory s' ++ ["e8d8"].
Proof.
  destruct (move KingsAndRooks.engine
                 (loadFen KingsAndRooks.engine
                          (fen KingsAndRooks.engine (game Examples.lastRook)))
                 "d4" "e5") as [m g'| |] eqn:Hm;
    [|vm_compute in Hm; discriminate Hm|vm_compute in Hm; discriminate Hm].
  assert (isGameOver KingsAndRooks.engine g' = true) as Ho.
  { vm_compute in Hm. inversion Hm; subst. vm_compute. reflexivity. }
  destruct (game_over_stops_clock KingsAndRooks.engine Examples.lastRook
              "d4" "e5" m g' Hm Ho) as [s' [effects [He [_ [Hr [_ Hnext]]]]]].
  destruct (move KingsAndRooks.engine
                 (loadFen KingsAndRooks.engine (fen KingsAndRooks.engine g'))
                 "e8" "d8") as [m' g''| |] eqn:Hm';
    [|vm_compute in Hm; inversion Hm; subst; vm_compute in Hm'; discriminate Hm'
     |vm_compute in Hm; inversion Hm; subst; vm_compute in Hm'; discriminate Hm'].
  destruct (Hnext "e8" "d8" m' g'' Hm') as [s'' [effects' [He' [_ [Hh _]]]]].
  exists s', effects, s'', effects'.
  split; [exact He|]. split; [exact Hr|]. split; [exact He'|].
  rewrite Hh. f_equal.
  vm_compute in Hm. inversion Hm; subst.
  vm_compute in Hm'. inversion Hm'; subst. reflexivity.
Defined.

(** In a position without a legal move the engine throws on every pair of
    squares: after a mate, a drop on the board takes the component off the
    page. *)
Lemma handleMove_after_mate (E : Engine) (L : EngineLaws E) (s : GameState E)
      (f t : Square) :
  isCheckmate E (game s) = true \/ isStalemate E (game s) = true ->
  handleMove E s f t = Throws.
Proof.
  intros H. apply (handleMove_not_destination E L).
  rewrite (no_moves_when_mated E L _ _ H). intros [].
Qed.

Example kr_drop_after_mate :
  handleMove KingsAndRooks.engine
    (Examples.after Examples.mateInOne "a1" "a8") "h8" "h7" = Throws.
Proof. reflexivity. Qed.

(** ** Reset *)

Section ResetGame.

Variable E : Engine.

(** After a render the memoised [resetGame] agrees with the state on the
    two flags of its dependency list. *)
Lemma render_sameDeps (c : Component E) :
  sameDeps E (resetGameState (render E c)) (gameState (render E c)) = true.
Proof.
  unfold render. simpl.
  destruct (sameDeps E (resetGameState c) (gameState c)) eqn:H; [exact H|].
  unfold sameDeps. rewrite !Bool.eqb_reflx. reflexivity.
Qed.

Lemma settled_render (c : Component E) :
  sharesInitialTimeControl c = false ->
  Ref_eqb (localTimeControlRef c) Initial = false ->
  initialTimeControlNow c = initialTimeControl ->
  settled E (render E c).
Proof.
  intros H2 H3 H4. split; [apply render_sameDeps|].
  split; [exact H2|]. split; [exact H3|exact H4].
Qed.

Lemma dispatchMove_settled (c c' : Component E) (f t : Square)
      (effects : list (Effect E)) :
  dispatchMove E c f t = Returns (c', effects) ->
  settled E c -> settled E c'.
Proof.
  unfold dispatchMove. intros Hd [H1 [H2 [H3 H4]]].
  destruct (handleMove E (gameState c) f t) as [r|]; [|discriminate].
  destruct (move E _ f t); inversion Hd; subst;
    apply settled_render; try reflexivity; assumption.
Qed.

Lemma dispatch_settled (i : Intent) (c c' : Component E)
      (effects : list (Effect E)) :
  dispatch E i c = Returns (c', effects) ->
  settled E c -> settled E c'.
Proof.
  intros Hd H. pose proof H as [H1 [H2 [H3 H4]]].
  destruct i; unfold dispatch in Hd.
  - exact (dispatchMove_settled _ _ _ _ _ Hd H).
  - destruct (handleSquareClick E (gameState c) square) as [s [[f t]|]].
    + unfold completeMove in Hd. destruct idle.
      * destruct (handleMove E (gameState c) f t) as [[s1 e1]|]; [|discriminate].
        inversion Hd; subst. apply settled_render; assumption.
      * exact (dispatchMove_settled _ _ _ _ _ Hd H).
    + inversion Hd; subst. apply settled_render; assumption.
  - inversion Hd; subst. apply settled_render; try reflexivity; assumption.
  - destruct (undoMove E (gameState c)) as [r|]; [|discriminate].
    inversion Hd; subst. apply settled_render; assumption.
  - inversion Hd; subst. apply settled_render; assumption.
  - inversion Hd; subst. apply settled_render; assumption.
  - inversion Hd; subst. apply settled_render; assumption.
  - inversion Hd; subst. split; [exact H1|]. split; [exact H2|].
    split; [|exact H4]. simpl.
    destruct (SettingsDialog.installs a); [reflexivity|exact H3].
  - inversion Hd; subst. apply settled_render; assumption.
  - inversion Hd; subst. apply settled_render; assumption.
  - destruct (timerActive E (gameState c)); inversion Hd; subst; [|exact H].
    apply settled_render; try assumption.
    simpl. unfold sharesInitialTimeControl in H2. rewrite H2. exact H4.
Qed.

(** A component mounted with a state of its own time control is settled. *)
Lemma mount_settled (JSON_parse : string -> option JS.JSON)
      (savedGame : option string) (c : Component E) :
  mount E JSON_parse savedGame = Some c ->
  sharesInitialTimeControl c = false ->
  settled E c.
Proof.
  unfold mount. destruct (initialGameState E JSON_parse savedGame) as [s shares|];
    [|discriminate].
  intros H Hs. inversion H; subst; clear H.
  unfold sharesInitialTimeControl in Hs. simpl in Hs.
  split; [|split; [exact Hs|split; [exact Hs|reflexivity]]].
  unfold sameDeps. simpl. rewrite !Bool.eqb_reflx. reflexivity.
Qed.

Lemma run_settled (intents : list Intent) (c c' : Component E) :
  run E intents c = Returns c' -> settled E c -> settled E c'.
Proof.
  revert c. induction intents as [|i r IH]; intros c Hrun H.
  - inversion Hrun; subst. exact H.
  - simpl in Hrun.
    destruct (dispatch E i c) as [[c1 e1]|] eqn:Hd; [|discriminate].
    apply (IH c1 Hrun). exact (dispatch_settled _ _ _ _ Hd H).
Qed.

End ResetGame.

(** C1 as stated fails: after the settings dialog handed over five minutes
    with three seconds a move and the theme was set to "wooden", a reset
    leaves ten minutes without increment and the theme "classic". *)
Lemma reset_keeps_settings_counterexample :
  let intents :=
    [ChangeSettings (SettingsDialog.ChoosePreset "Blitz (5+3)"); ApplySettings;
     SetBoardTheme "wooden"] in
  exists c c' effects,
    run KingsAndRooks.engine intents (freshComponent KingsAndRooks.engine)
    = Returns c
    /\ dispatch KingsAndRooks.engine Reset c = Returns (c', effects)
    /\ (boardTheme (gameState c) = "wooden"
        /\ boardTheme (gameState c') = "classic")
    /\ boardTheme (gameState c') <> boardTheme (gameState c)
    /\ (timeControl (gameState c) = Examples.fiveThree
        /\ timeControl (gameState c')
           = {| TimeControl.white := 600; TimeControl.black := 600;
                TimeControl.increment := 0 |})
    /\ timeControl (gameState c') <> timeControl (gameState c).
Proof.
  eexists. eexists. eexists.
  split; [reflexivity|]. split; [reflexivity|].
  split; [split; reflexivity|].
  split; [intros H; vm_compute in H; discriminate H|].
  split; [split; reflexivity|].
  intros H; vm_compute in H; discriminate H.
Qed.

(** C1, amended.  In a session whose state owns its time control, a reset
    gives the initial position, no move, empty buckets, no last move and no
    selection; the board orientation and the sound flag are those before
    the reset; the clock is stopped and set to ten minutes a side with no
    increment, whatever time control was handed over by the settings
    dialog. *)
Theorem resetGame_new_game (E : Engine) (c0 c : Component E)
        (intents : list Intent) :
  settled E c0 ->
  run E intents c0 = Returns c ->
  exists c' effects,
    dispatch E Reset c = Returns (c', effects)
    /\ let s := gameState c in
       let s' := gameState c' in
       game s' = newChess E /\ gameHistory s' = []
       /\ capturedPieces s'
          = {| CapturedPieces.white := []; CapturedPieces.black := [] |}
       /\ lastMove s' = None /\ selectedSquare s' = None /\ legalMoves s' = []
       /\ isFlipped s' = isFlipped s /\ soundEnabled s' = soundEnabled s
       /\ timeControl s' = {| TimeControl.white := 600; TimeControl.black := 600;
                              TimeControl.increment := 0 |}
       /\ isTimerRunning s' = false.
Proof.
  intros H0 Hrun.
  assert (settled E c) as [H1 [_ [_ H4]]] by (exact (run_settled E _ _ _ Hrun H0)).
  eexists. eexists. split; [reflexivity|]. simpl. rewrite H4.
  unfold sameDeps in H1. apply andb_true_iff in H1. destruct H1 as [Hf Hs].
  apply Bool.eqb_prop in Hf, Hs.
  repeat split; assumption.
Qed.

Lemma resetGame_new_game_witness :
  exists c c' effects,
    run KingsAndRooks.engine
      [ChangeSettings (SettingsDialog.ChoosePreset "Blitz (5+3)"); ApplySettings; Flip]
      (freshComponent KingsAndRooks.engine) = Returns c
    /\ dispatch KingsAndRooks.engine Reset c = Returns (c', effects)
    /\ timeControl (gameState c') = initialTimeControl
    /\ isFlipped (gameState c') = true.
Proof.
  assert (settled KingsAndRooks.engine (freshComponent KingsAndRooks.engine)) as H0.
  { repeat split. }
  assert (exists c,
             run KingsAndRooks.engine
               [ChangeSettings (SettingsDialog.ChoosePreset "Blitz (5+3)");
                ApplySettings; Flip]
               (freshComponent KingsAndRooks.engine) = Returns c
             /\ isFlipped (gameState c) = true) as [c [Hrun Hflip]].
  { eexists. split; reflexivity. }
  destruct (resetGame_new_game KingsAndRooks.engine
              (freshComponent KingsAndRooks.engine) c _ H0 Hrun)
    as [c' [effects [Hd [_ [_ [_ [_ [_ [_ [Hf [_ [Ht _]]]]]]]]]]]].
  exists c, c', effects. split; [exact Hrun|]. split; [exact Hd|].
  split; [exact Ht|]. rewrite Hf. exact Hflip.
Defined.

(** [resetGame] takes the board theme from the [gameState] of the render in
    which the callback was memoised, and the theme is not in its dependency
    list: in a new session, after the theme was set to "wooden", a reset
    puts the theme back to "classic". *)
Lemma resetGame_reverts_board_theme (E : Engine) :
  exists before after,
    run E [SetBoardTheme "wooden"] (freshComponent E) = Returns before
    /\ run E [SetBoardTheme "wooden"; Reset] (freshComponent E) = Returns after
    /\ boardTheme (gameState before) = "wooden"
    /\ boardTheme (gameState after) = "classic".
Proof.
  eexists. eexists. split; [reflexivity|]. split; [reflexivity|].
  split; reflexivity.
Qed.

(** A theme chosen before the last flip or sound toggle does survive. *)
Example resetGame_keeps_theme_after_flip (E : Engine) :
  exists after,
    run E [SetBoardTheme "wooden"; Flip; Reset] (freshComponent E) = Returns after
    /\ boardTheme (gameState after) = "wooden".
Proof. eexists. split; reflexivity. Qed.

(** Restored from a record without [timeControl], the state holds the
    module-level [initialTimeControl] itself, and so does the settings
    dialog; the seconds ticked away are then written to that object, and
    [resetGame] copies them.  "Apply Settings" hands the same object back
    to the state. *)
Example resetGame_after_shared_time_control
        (JSON_parse : string -> option JS.JSON) :
  JSON_parse "saved" = Some Examples.recordWithoutTimeControl ->
  exists c c1 c2,
    mount KingsAndRooks.engine JSON_parse (Some "saved") = Some c
    /\ sharesInitialTimeControl c = true
    /\ run KingsAndRooks.engine [Timer; Tick; Reset] c = Returns c1
    /\ TimeControl.white (timeControl (gameState c1)) = 599
    /\ run KingsAndRooks.engine [ApplySettings; Timer; Tick; Reset] c = Returns c2
    /\ TimeControl.white (timeControl (gameState c2)) = 599.
Proof.
  intros H. unfold mount, initialGameState. rewrite H. simpl.
  eexists. eexists. eexists. split; [reflexivity|]. split; [reflexivity|].
  split; [reflexivity|]. split; [reflexivity|]. split; reflexivity.
Qed.

(** ** The kings-and-rooks engine at work *)

Example kr_rook_moves_at_start :
  map Move.to (moves KingsAndRooks.engine (newChess KingsAndRooks.engine) "a1")
  = ["b1"; "c1"; "d1"; "a2"; "a3"; "a4"; "a5"; "a6"; "a7"; "a8"].
Proof. vm_compute. reflexivity. Qed.

Example kr_capture_is_recorded :
  capturedPieces (Examples.after Examples.fresh "a1" "a8")
  = {| CapturedPieces.white := ["bR"]; CapturedPieces.black := [] |}
  /\ gameHistory (Examples.after Examples.fresh "a1" "a8") = ["a1a8"]
  /\ lastMove (Examples.after Examples.fresh "a1" "a8")
     = Some {| LastMove.from := "a1"; LastMove.to := "a8" |}.
Proof. vm_compute. repeat split. Qed.

Example kr_bare_kings_are_drawn :
  isGameOver KingsAndRooks.engine (game Examples.bareKings) = true
  /\ isCheckmate KingsAndRooks.engine (game Examples.bareKings) = false
  /\ isTimerRunning Examples.bareKings = false
  /\ map Move.to (moves KingsAndRooks.engine (game Examples.bareKings) "e8")
     = ["f8"; "d8"; "d7"; "e7"; "f7"].
Proof. vm_compute. repeat split. Qed.

(** A stored [null] and a stored [{}] both end in the fresh state: the first
    by the [TypeError] of [parsed.pgn], the second because the engine does
    not load an undefined [pgn]. *)
Example kr_restore_null_or_empty :
  mount KingsAndRooks.engine Examples.parse (Some "null")
  = Some (freshComponent KingsAndRooks.engine)
  /\ mount KingsAndRooks.engine Examples.parse (Some "{}")
     = Some (freshComponent KingsAndRooks.engine).
Proof. split; reflexivity. Qed.

(** ** Undo, further *)

Section UndoFurther.

Variable E : Engine.
Hypothesis L : EngineLaws E.

Lemma undoMove_empty (s : GameState E) :
  gameHistory s = [] -> undoMove E s = Returns (s, []).
Proof. intros H. unfold undoMove. rewrite H. reflexivity. Qed.


Lemma length_removelast_cons (x : string) (r : list string) :
  List.length (removelast (x :: r)) = List.length r.
Proof.
  revert x. induction r as [|y r IH]; intros x; [reflexivity|].
  change (removelast (x :: y :: r)) with (x :: removelast (y :: r)).
  cbn [List.length]. f_equal. apply IH.
Qed.

(** One undo in a consistent state: it returns, the state it returns is
    consistent and one notation shorter, and clock and settings are kept;
    the last notation undone leaves the game as new. *)
Lemma undoMove_consistent (s : GameState E) (records : list Move.t) :
  consistent E s records ->
  gameHistory s <> [] ->
  exists s' effects records',
    undoMove E s = Returns (s', effects)
    /\ consistent E s' records'
    /\ S (List.length (gameHistory s')) = List.length (gameHistory s)
    /\ selectedSquare s' = None /\ legalMoves s' = []
    /\ timeControl s' = timeControl s /\ isTimerRunning s' = isTimerRunning s
    /\ isFlipped s' = isFlipped s /\ soundEnabled s' = soundEnabled s
    /\ boardTheme s' = boardTheme s
    /\ (gameHistory s' = [] ->
        game s' = newChess E
        /\ capturedPieces s'
           = {| CapturedPieces.white := []; CapturedPieces.black := [] |}
        /\ lastMove s' = None).
Proof.
  intros [g [Hr _]] Hne.
  destruct (gameHistory s) as [|x r] eqn:Hh; [contradiction|].
  destruct (@exists_last _ (x :: r)) as [sans [last Hl]]; [discriminate|].
  rewrite Hl in Hr. rewrite replayFrom_app in Hr.
  destruct (replayFrom E (newChess E) sans) as [g1|] eqn:Hr1; [|discriminate].
  assert (gameHistory s = sans ++ [last]) as Hh' by (rewrite Hh; exact Hl).
  destruct (undoMove_result E s sans last g1 Hh' Hr1) as [effects Hu].
  eexists. exists effects, (history E g1). split; [exact Hu|]. simpl.
  split; [exists g1; simpl; repeat split; exact Hr1|].
  split.
  { apply (f_equal (@List.length string)) in Hl.
    rewrite length_app in Hl. simpl in Hl. lia. }
  repeat (split; [reflexivity|]).
  intros ->. simpl in Hr1. inversion Hr1; subst.
  rewrite (history_newChess E L). repeat split.
Qed.



End UndoFurther.



(** ** The history and the position, over every intent *)

Section Reachable.

Variable E : Engine.
Hypothesis L : EngineLaws E.

Lemma Color_eqb_refl (c : Color) : Color_eqb c c = true.
Proof. destruct c; reflexivity. Qed.

Lemma handleSquareClick_queued (s s' : GameState E) (sq f t : Square) :
  handleSquareClick E s sq = (s', Some (f, t)) ->
  s' = s /\ selectedSquare s = Some f /\ t = sq.
Proof.
  unfold handleSquareClick.
  destruct (selectedSquare s) as [sel|];
    repeat match goal with
           | |- context [if ?b then _ else _] => destruct b
           end; intros H; inversion H; subst; repeat split.
Qed.

Lemma consistent_same (s s' : GameState E) (records : list Move.t) :
  game s' = game s -> gameHistory s' = gameHistory s ->
  capturedPieces s' = capturedPieces s ->
  consistent E s records -> consistent E s' records.
Proof.
  intros Hg Hh Hc [g [H1 [H2 [H3 H4]]]]. exists g.
  rewrite Hg, Hh, Hc. repeat split; assumption.
Qed.

Lemma handleMove_keeps_consistent (s s' : GameState E) (f t : Square)
      (effects : list (Effect E)) :
  handleMove E s f t = Returns (s', effects) ->
  (exists records, consistent E s records) ->
  exists records, consistent E s' records.
Proof.
  intros Hs [records Hc].
  destruct (move E (loadFen E (fen E (game s))) f t) as [m g1| |] eqn:Hm.
  - exists (records ++ [m]).
    exact (handleMove_consistent E L _ _ _ _ _ _ _ _ Hc Hm Hs).
  - unfold handleMove in Hs. rewrite Hm in Hs. inversion Hs; subst.
    exists records. exact Hc.
  - unfold handleMove in Hs. rewrite Hm in Hs. discriminate Hs.
Qed.

Lemma undoMove_keeps_consistent (s s' : GameState E) (effects : list (Effect E)) :
  undoMove E s = Returns (s', effects) ->
  (exists records, consistent E s records) ->
  exists records, consistent E s' records.
Proof.
  intros Hu [records Hc].
  destruct (gameHistory s) as [|x r] eqn:Hh.
  - rewrite (undoMove_empty E s Hh) in Hu. inversion Hu; subst.
    exists records. exact Hc.
  - destruct (undoMove_consistent E L s records Hc)
      as [s1 [e1 [r1 [Hu1 [Hc1 _]]]]].
    { rewrite Hh. discriminate. }
    rewrite Hu1 in Hu. inversion Hu; subst. exists r1. exact Hc1.
Qed.

Lemma dispatchMove_state (c c' : Component E) (f t : Square)
      (effects : list (Effect E)) :
  dispatchMove E c f t = Returns (c', effects) ->
  handleMove E (gameState c) f t = Returns (gameState c', effects).
Proof.
  unfold dispatchMove.
  destruct (handleMove E (gameState c) f t) as [[s1 e1]|]; [|discriminate].
  destruct (move E _ f t); intros H; inversion H; subst; reflexivity.
Qed.

Lemma dispatch_keeps_consistent (i : Intent) (c c' : Component E)
      (effects : list (Effect E)) :
  deferred i ->
  dispatch E i c = Returns (c', effects) ->
  (exists records, consistent E (gameState c) records) ->
  exists records, consistent E (gameState c') records.
Proof.
  intros Hi Hd H. destruct i; unfold dispatch in Hd.
  - apply dispatchMove_state in Hd.
    exact (handleMove_keeps_consistent _ _ _ _ _ Hd H).
  - pose proof (handleSquareClick_frame E (gameState c) square) as F.
    destruct (handleSquareClick E (gameState c) square) as [s [[f t]|]];
      simpl in F; destruct F as [F1 [F2 [F3 _]]].
    + destruct idle; [destruct Hi|]. unfold completeMove in Hd.
      apply dispatchMove_state in Hd.
      exact (handleMove_keeps_consistent _ _ _ _ _ Hd H).
    + inversion Hd; subst. simpl. destruct H as [records H]. exists records.
      apply (consistent_same _ _ _ F1 F2 F3 H).
  - inversion Hd; subst. exists []. exists (newChess E). simpl. repeat split.
    apply (history_newChess E L).
  - destruct (undoMove E (gameState c)) as [[s1 e1]|] eqn:Hu; [|discriminate].
    inversion Hd; subst. exact (undoMove_keeps_consistent _ _ _ Hu H).
  - inversion Hd; subst. exact H.
  - inversion Hd; subst. exact H.
  - inversion Hd; subst. exact H.
  - inversion Hd; subst. exact H.
  - inversion Hd; subst. exact H.
  - inversion Hd; subst. exact H.
  - destruct (timerActive E (gameState c)); inversion Hd; subst; [|exact H].
    destruct H as [records H]. exists records. simpl.
    apply (consistent_same (gameState c)); try exact H;
      unfold tick; destruct (turn E (game (gameState c))); reflexivity.
Qed.

(** The selection survives what does not move a piece and is dropped by
    what does. *)
Lemma handleMove_selectionOk (s s' : GameState E) (f t : Square)
      (effects : list (Effect E)) :
  handleMove E s f t = Returns (s', effects) ->
  selectionOk E s -> selectionOk E s'.
Proof.
  unfold handleMove.
  destruct (move E _ f t) as [m g1| |]; intros H Hs; inversion H; subst;
    [reflexivity|exact Hs].
Qed.

Lemma handleSquareClick_selectionOk (s : GameState E) (sq : Square) :
  selectionOk E s -> selectionOk E (fst (handleSquareClick E s sq)).
Proof.
  intros H. unfold handleSquareClick.
  destruct (selectedSquare s) as [sel|] eqn:Hs;
    repeat match goal with
           | |- context [if ?b then _ else _] => destruct b
           end; simpl; try reflexivity; try exact H.
Qed.

Lemma afterPush_selectionOk (s : GameState E) (f t : Square) :
  selectionOk E s -> selectionOk E (afterPush E s f t).
Proof.
  unfold afterPush. destruct (move E _ f t); intros H; exact H.
Qed.

Lemma dispatch_selectionOk (i : Intent) (c c' : Component E)
      (effects : list (Effect E)) :
  dispatch E i c = Returns (c', effects) ->
  selectionOk E (gameState c) -> selectionOk E (gameState c').
Proof.
  intros Hd H. destruct i; unfold dispatch in Hd.
  - apply dispatchMove_state in Hd.
    exact (handleMove_selectionOk _ _ _ _ _ Hd H).
  - pose proof (handleSquareClick_selectionOk (gameState c) square H) as F.
    destruct (handleSquareClick E (gameState c) square) as [s [[f t]|]]; simpl in F.
    + unfold completeMove in Hd. destruct idle.
      * destruct (handleMove E (gameState c) f t) as [[s1 e1]|]; [|discriminate].
        inversion Hd; subst. apply afterPush_selectionOk. exact H.
      * apply dispatchMove_state in Hd.
        exact (handleMove_selectionOk _ _ _ _ _ Hd H).
    + inversion Hd; subst. exact F.
  - inversion Hd; subst. reflexivity.
  - destruct (undoMove E (gameState c)) as [[s1 e1]|] eqn:Hu; [|discriminate].
    inversion Hd; subst. simpl. unfold undoMove in Hu.
    destruct (gameHistory (gameState c)).
    + inversion Hu; subst. exact H.
    + destruct (replay E _); [|discriminate]. inversion Hu; subst. reflexivity.
  - inversion Hd; subst. exact H.
  - inversion Hd; subst. exact H.
  - inversion Hd; subst. exact H.
  - inversion Hd; subst. exact H.
  - inversion Hd; subst. exact H.
  - inversion Hd; subst. exact H.
  - destruct (timerActive E (gameState c)); inversion Hd; subst; [|exact H].
    simpl. unfold tick, selectionOk in *.
    destruct (turn E (game (gameState c))); exact H.
Qed.

End Reachable.

(** X2. Over every sequence of intents (moves, clicks, undo, reset,
    settings, ticks) in which React runs no click at once, the state stays
    consistent as long as the component lives: its move history replays
    from the initial position, notation by notation, to the position it
    holds, and its buckets are those recalculated from the replayed
    records. *)
Theorem run_keeps_consistent (E : Engine) (L : EngineLaws E)
        (c0 c : Component E) (intents : list Intent) :
  Forall deferred intents ->
  run E intents c0 = Returns c ->
  (exists records, consistent E (gameState c0) records) ->
  exists records, consistent E (gameState c) records.
Proof.
  intros Hv. revert c0. induction Hv as [|i r Hi Hr IH]; intros c0 Hrun H.
  - inversion Hrun; subst. exact H.
  - simpl in Hrun.
    destruct (dispatch E i c0) as [[c1 e1]|] eqn:Hd; [|discriminate].
    apply (IH c1 Hrun). exact (dispatch_keeps_consistent E L _ _ _ _ Hi Hd H).
Qed.

Lemma run_keeps_consistent_witness :
  exists c records,
    run KingsAndRooks.engine
      [DropPiece "a1" "a8"; ClickSquare "e8" false; ClickSquare "d7" false; Undo]
      (freshComponent KingsAndRooks.engine) = Returns c
    /\ consistent KingsAndRooks.engine (gameState c) records.
Proof.
  assert (exists c,
             run KingsAndRooks.engine
               [DropPiece "a1" "a8"; ClickSquare "e8" false;
                ClickSquare "d7" false; Undo]
               (freshComponent KingsAndRooks.engine) = Returns c) as [c Hrun].
  { returns_by_computation. }
  destruct (run_keeps_consistent KingsAndRooks.engine kr_laws
              (freshComponent KingsAndRooks.engine) c
              [DropPiece "a1" "a8"; ClickSquare "e8" false;
               ClickSquare "d7" false; Undo]) as [records Hc].
  - repeat constructor.
  - exact Hrun.
  - exists []. apply (fresh_consistent KingsAndRooks.engine kr_laws).
  - exists c, records. split; [exact Hrun|exact Hc].
Defined.

(** A click that React runs at once breaks this: the rook is selected, and
    the click on a8 that should take the rook there leaves the position and
    the history as they were, with that rook in the white bucket. *)
Example eager_click_is_not_consistent :
  exists c,
    run KingsAndRooks.engine [ClickSquare "a1" false; ClickSquare "a8" true]
        (freshComponent KingsAndRooks.engine) = Returns c
    /\ gameHistory (gameState c) = []
    /\ capturedPieces (gameState c)
       = {| CapturedPieces.white := ["bR"]; CapturedPieces.black := [] |}
    /\ ~ exists records, consistent KingsAndRooks.engine (gameState c) records.
Proof.
  assert (exists c,
             run KingsAndRooks.engine [ClickSquare "a1" false; ClickSquare "a8" true]
                 (freshComponent KingsAndRooks.engine) = Returns c) as [c Hrun].
  { returns_by_computation. }
  assert (match run KingsAndRooks.engine
                  [ClickSquare "a1" false; ClickSquare "a8" true]
                  (freshComponent KingsAndRooks.engine) with
          | Returns c0 => (gameHistory (gameState c0), capturedPieces (gameState c0))
          | Throws => ([], {| CapturedPieces.white := []; CapturedPieces.black := [] |})
          end
          = ([], {| CapturedPieces.white := ["bR"]; CapturedPieces.black := [] |}))
    as Hv.
  { vm_compute. reflexivity. }
  rewrite Hrun in Hv.
  pose proof (f_equal fst Hv) as Hh. pose proof (f_equal snd Hv) as Hcp.
  simpl in Hh, Hcp.
  exists c. split; [exact Hrun|]. split; [exact Hh|]. split; [exact Hcp|].
  intros [records [g [Hr [_ [Hh' Hc]]]]].
  rewrite Hh in Hr. simpl in Hr. inversion Hr; subst g. simpl in Hh'.
  subst records. rewrite Hcp in Hc. discriminate Hc.
Qed.

(** X3. Undoing a move just committed gives back the move history, the
    position, the records and the buckets held before it, and shows the
    move before as last move.  The clock keeps what the move did to it: an
    increment credited for the move is not taken back. *)
Theorem undo_after_move (E : Engine) (L : EngineLaws E) (s : GameState E)
        (records : list Move.t) (f t : Square) (m : Move.t) (g1 : Game E) :
  consistent E s records ->
  move E (loadFen E (fen E (game s))) f t = Made m g1 ->
  exists s1 e1 s2 e2,
    handleMove E s f t = Returns (s1, e1)
    /\ undoMove E s1 = Returns (s2, e2)
    /\ gameHistory s2 = gameHistory s
    /\ fen E (game s2) = fen E (game s)
    /\ history E (game s2) = records
    /\ capturedPieces s2 = capturedPieces s
    /\ lastMove s2 = lastMoveOf records
    /\ selectedSquare s2 = None
    /\ isTimerRunning s2 = isTimerRunning s1
    /\ remaining (Move.color m) (timeControl s2)
       = remaining (Move.color m) (timeControl s)
         + (if isTimerRunning s then TimeControl.increment (timeControl s) else 0).
Proof.
  intros Hc Hm.
  destruct Hc as [g [Hr [Hf [Hh Hcp]]]].
  destruct (handleMove_made E s f t m g1 Hm) as [e1 He1].
  match type of He1 with
  | _ = Returns (?s1, _) =>
      destruct (undoMove_result E s1 (gameHistory s) (Move.san m) g eq_refl Hr)
        as [e2 He2]
  end.
  eexists. exists e1. eexists. exists e2.
  split; [exact He1|]. split; [exact He2|]. simpl.
  rewrite Hh.
  split; [reflexivity|]. split; [exact Hf|]. split; [reflexivity|].
  split; [symmetry; exact Hcp|]. split; [reflexivity|]. split; [reflexivity|].
  split; [reflexivity|].
  destruct (isTimerRunning s), (Move.color m); simpl; lia.
Qed.

Lemma undo_after_move_witness :
  exists s1 e1 s2 e2,
    handleMove KingsAndRooks.engine Examples.timed "a1" "a8" = Returns (s1, e1)
    /\ undoMove KingsAndRooks.engine s1 = Returns (s2, e2)
    /\ gameHistory s2 = []
    /\ remaining White (timeControl s2) = 603.
Proof.
  destruct (move KingsAndRooks.engine
                 (loadFen KingsAndRooks.engine
                          (fen KingsAndRooks.engine (game Examples.timed)))
                 "a1" "a8") as [m g1| |] eqn:Hm;
    [|vm_compute in Hm; discriminate Hm|vm_compute in Hm; discriminate Hm].
  assert (Move.color m = White) as Hcol.
  { vm_compute in Hm. inversion Hm; subst. reflexivity. }
  assert (consistent KingsAndRooks.engine Examples.timed []) as Hc.
  { exists (newChess KingsAndRooks.engine). repeat split. }
  destruct (undo_after_move KingsAndRooks.engine kr_laws Examples.timed []
              "a1" "a8" m g1 Hc Hm)
    as [s1 [e1 [s2 [e2 [H1 [H2 [H3 [_ [_ [_ [_ [_ [_ H8]]]]]]]]]]]]].
  rewrite Hcol in H8. exists s1, e1, s2, e2.
  split; [exact H1|]. split; [exact H2|]. split; [exact H3|exact H8].
Defined.

(** ** Selecting and clicking *)

(** X4. Over every sequence of intents, as long as the component lives,
    the cached list of legal moves is exactly the list of destinations of
    the selected square in the position held, and is empty when no square
    is selected. *)
Theorem run_keeps_selectionOk (E : Engine) (c0 c : Component E)
        (intents : list Intent) :
  selectionOk E (gameState c0) ->
  run E intents c0 = Returns c ->
  selectionOk E (gameState c).
Proof.
  revert c0. induction intents as [|i r IH]; intros c0 H Hrun.
  - inversion Hrun; subst. exact H.
  - simpl in Hrun.
    destruct (dispatch E i c0) as [[c1 e1]|] eqn:Hd; [|discriminate].
    apply (IH c1); [|exact Hrun]. exact (dispatch_selectionOk E _ _ _ _ Hd H).
Qed.

Lemma run_keeps_selectionOk_witness :
  exists c,
    run KingsAndRooks.engine
      [ClickSquare "a1" true; Flip; Tick; ClickSquare "h1" false; Undo]
      (freshComponent KingsAndRooks.engine) = Returns c
    /\ selectionOk KingsAndRooks.engine (gameState c).
Proof.
  assert (exists c,
             run KingsAndRooks.engine
               [ClickSquare "a1" true; Flip; Tick; ClickSquare "h1" false; Undo]
               (freshComponent KingsAndRooks.engine) = Returns c) as [c Hrun].
  { returns_by_computation. }
  exists c. split; [exact Hrun|].
  apply (run_keeps_selectionOk KingsAndRooks.engine
           (freshComponent KingsAndRooks.engine) c _ eq_refl Hrun).
Defined.

Lemma savedStates_sounds (E : Engine) (enabled : bool) (type : SoundType) :
  savedStates E (playSound E enabled type) = [].
Proof. destruct enabled; reflexivity. Qed.

(** A committed move is saved, once, as the state [handleMove] returns. *)
Lemma handleMove_saves (E : Engine) (s s' : GameState E) (f t : Square)
      (m : Move.t) (g1 : Game E) (effects : list (Effect E)) :
  move E (loadFen E (fen E (game s))) f t = Made m g1 ->
  handleMove E s f t = Returns (s', effects) ->
  savedStates E effects = [s'].
Proof.
  intros Hm. unfold handleMove. rewrite Hm. intros H. inversion H; subst.
  unfold savedStates. rewrite !flat_map_app.
  fold (savedStates E (playSound E (soundEnabled s)
          match Move.captured m with Some _ => SoundCapture | None => SoundMove end)).
  rewrite savedStates_sounds.
  destruct (isCheck E g1), (isGameOver E g1), (soundEnabled s); reflexivity.
Qed.

(** X5. With a square selected, a click on a square of the cached list of
    legal moves has the engine make that move, and the updater of
    [handleMove] runs, with its sounds and its save of the new state.
    Where React runs the click while rendering, the state after the click
    is that new state: the move appended, the two squares as last move, the
    selection dropped.  Where React runs the click at once, the state
    after the click still holds the old position, history, last move and
    selection, and a captured piece is in its bucket all the same. *)
Theorem click_on_legal_move (E : Engine) (L : EngineLaws E)
        (c : Component E) (sel t : Square) (idle : bool) :
  selectionOk E (gameState c) ->
  selectedSquare (gameState c) = Some sel ->
  sel <> EmptyString -> sel <> t ->
  In t (legalMoves (gameState c)) ->
  exists m g' s1 effects c',
    move E (loadFen E (fen E (game (gameState c)))) sel t = Made m g'
    /\ handleMove E (gameState c) sel t = Returns (s1, effects)
    /\ dispatch E (ClickSquare t idle) c = Returns (c', effects)
    /\ savedStates E effects = [s1]
    /\ game s1 = g'
    /\ gameHistory s1 = gameHistory (gameState c) ++ [Move.san m]
    /\ lastMove s1 = Some {| LastMove.from := sel; LastMove.to := t |}
    /\ selectedSquare s1 = None
    /\ (idle = false -> gameState c' = s1)
    /\ (idle = true ->
        game (gameState c') = game (gameState c)
        /\ gameHistory (gameState c') = gameHistory (gameState c)
        /\ lastMove (gameState c') = lastMove (gameState c)
        /\ selectedSquare (gameState c') = Some sel
        /\ capturedPieces (gameState c')
           = pushCaptured (capturedPieces (gameState c)) m).
Proof.
  intros Hok Hsel Hne1 Hne2 Hin.
  assert (In t (map Move.to (moves E (game (gameState c)) sel))) as Hleg.
  { unfold selectionOk in Hok. rewrite Hsel in Hok. rewrite <- Hok. exact Hin. }
  destruct (move E (loadFen E (fen E (game (gameState c)))) sel t)
    as [m g'| |] eqn:Hm.
  2:{ exfalso. exact (move_not_null E L _ _ _ Hm). }
  2:{ exfalso. apply (move_legal E L) in Hm. apply Hm.
      rewrite (moves_reloaded E L). exact Hleg. }
  destruct (handleMove_made E (gameState c) sel t m g' Hm) as [effects He].
  assert (handleSquareClick E (gameState c) t = (gameState c, Some (sel, t)))
    as Hclick.
  { unfold handleSquareClick. rewrite Hsel.
    destruct (String.eqb_spec sel t) as [|_]; [contradiction|].
    destruct (String.eqb_spec sel EmptyString) as [|_]; [contradiction|].
    assert (existsb (String.eqb t) (legalMoves (gameState c)) = true) as ->.
    { apply existsb_exists. exists t. split; [exact Hin|apply String.eqb_refl]. }
    reflexivity. }
  exists m, g'. eexists. exists effects.
  assert (exists c',
             dispatch E (ClickSquare t idle) c = Returns (c', effects)
             /\ (idle = false ->
                 handleMove E (gameState c) sel t = Returns (gameState c', effects))
             /\ (idle = true -> gameState c' = afterPush E (gameState c) sel t))
    as [c' [Hd [Hlazy Heager]]].
  { unfold dispatch. rewrite Hclick. unfold completeMove, dispatchMove.
    rewrite He, Hm. destruct idle; eexists.
    - split; [reflexivity|]. split; [discriminate|]. reflexivity.
    - split; [reflexivity|]. split; [|discriminate]. reflexivity. }
  exists c'. split; [reflexivity|]. split; [exact He|]. split; [exact Hd|].
  split; [exact (handleMove_saves E _ _ _ _ _ _ _ Hm He)|].
  split; [reflexivity|]. split; [reflexivity|]. split; [reflexivity|].
  split; [reflexivity|]. split.
  - intros Hi. specialize (Hlazy Hi). rewrite He in Hlazy.
    inversion Hlazy. reflexivity.
  - intros Hi. rewrite (Heager Hi). unfold afterPush. rewrite Hm. simpl.
    repeat split. exact Hsel.
Qed.

Lemma click_on_legal_move_witness :
  exists c' effects,
    dispatch KingsAndRooks.engine (ClickSquare "a8" false)
      (componentOf KingsAndRooks.engine Examples.rookSelected)
    = Returns (c', effects)
    /\ gameHistory (gameState c') = ["a1a8"].
Proof.
  destruct (click_on_legal_move KingsAndRooks.engine kr_laws
              (componentOf KingsAndRooks.engine Examples.rookSelected)
              "a1" "a8" false)
    as [m [g' [s1 [effects [c' [Hm [_ [Hd [_ [_ [H6 [_ [_ [Hlazy _]]]]]]]]]]]]]].
  - unfold selectionOk. vm_compute. reflexivity.
  - reflexivity.
  - discriminate.
  - discriminate.
  - simpl. tauto.
  - exists c', effects. split; [exact Hd|].
    rewrite (Hlazy eq_refl), H6. simpl. f_equal.
    vm_compute in Hm. inversion Hm; subst. reflexivity.
Defined.

(** X6. With nothing selected, a click on a piece of the side to move
    selects it and caches its destinations, and a second click on the same
    square gives back the state before the first; this is so however React
    runs the two clicks. *)
Theorem select_then_deselect (E : Engine) (c : Component E) (sq : Square)
        (p : Piece) (idle1 idle2 : bool) :
  selectedSquare (gameState c) = None ->
  legalMoves (gameState c) = [] ->
  get E (game (gameState c)) sq = Some p ->
  pieceColor p = turn E (game (gameState c)) ->
  exists c1 c2,
    dispatch E (ClickSquare sq idle1) c = Returns (c1, [])
    /\ dispatch E (ClickSquare sq idle2) c1 = Returns (c2, [])
    /\ selectedSquare (gameState c1) = Some sq
    /\ legalMoves (gameState c1) = map Move.to (moves E (game (gameState c)) sq)
    /\ gameState c2 = gameState c.
Proof.
  intros Hs Hl Hg Hc.
  assert (handleSquareClick E (gameState c) sq =
          ({| game := game (gameState c); gameHistory := gameHistory (gameState c);
              capturedPieces := capturedPieces (gameState c);
              lastMove := lastMove (gameState c);
              selectedSquare := Some sq;
              legalMoves := map Move.to (moves E (game (gameState c)) sq);
              isFlipped := isFlipped (gameState c);
              soundEnabled := soundEnabled (gameState c);
              timeControl := timeControl (gameState c);
              isTimerRunning := isTimerRunning (gameState c);
              boardTheme := boardTheme (gameState c) |}, None)) as H1.
  { unfold handleSquareClick. rewrite Hs, Hg, Hc, Color_eqb_refl. reflexivity. }
  assert (exists c1, dispatch E (ClickSquare sq idle1) c = Returns (c1, [])
                     /\ gameState c1 = fst (handleSquareClick E (gameState c) sq))
    as [c1 [Hd1 Hs1]].
  { unfold dispatch. rewrite H1. eexists. split; reflexivity. }
  rewrite H1 in Hs1. simpl in Hs1.
  assert (handleSquareClick E (gameState c1) sq = (gameState c, None)) as H2.
  { unfold handleSquareClick. rewrite Hs1. simpl. rewrite String.eqb_refl.
    destruct (gameState c); simpl in *. subst. reflexivity. }
  assert (exists c2, dispatch E (ClickSquare sq idle2) c1 = Returns (c2, [])
                     /\ gameState c2 = gameState c) as [c2 [Hd2 Hs2]].
  { unfold dispatch. rewrite H2. eexists. split; reflexivity. }
  exists c1, c2. split; [exact Hd1|]. split; [exact Hd2|].
  rewrite Hs1. simpl. repeat split. exact Hs2.
Qed.

Lemma select_then_deselect_witness :
  exists c,
    run KingsAndRooks.engine [ClickSquare "e1" true; ClickSquare "e1" true]
        (freshComponent KingsAndRooks.engine) = Returns c
    /\ gameState c = gameState (freshComponent KingsAndRooks.engine).
Proof.
  destruct (select_then_deselect KingsAndRooks.engine
              (freshComponent KingsAndRooks.engine) "e1"
              (KingsAndRooks.piece White King) true true)
    as [c1 [c2 [Hd1 [Hd2 [_ [_ H]]]]]].
  - reflexivity.
  - reflexivity.
  - reflexivity.
  - reflexivity.
  - exists c2. split; [|exact H].
    rewrite (run_cons _ _ _ _ _ _ Hd1), (run_cons _ _ _ _ _ _ Hd2). reflexivity.
Defined.

(** ** Drag and drop *)

(** X7. A piece of the side to move, dragged from a square that is not
    itself among the cached legal moves and dropped on another square: if
    the engine makes the move, the state is the one [handleMove] returns
    for the state before the drag; if the piece cannot go there, the engine
    throws in the updater of the drop and the component is gone.  A drag
    from any other square does nothing. *)
Theorem dragAndDrop_moves (E : Engine) (c : Component E) (f t : Square)
        (idle : bool) :
  f <> EmptyString -> f <> t ->
  ~ In f (legalMoves (gameState c)) ->
  let s := gameState c in
  let own :=
    match get E (game s) f with
    | Some p => Color_eqb (pieceColor p) (turn E (game s))
    | None => false
    end in
  (own = false -> dragAndDrop E c f t idle = Returns c)
  /\ (own = true ->
      forall m g1, move E (loadFen E (fen E (game s))) f t = Made m g1 ->
      exists c' s' effects,
        dragAndDrop E c f t idle = Returns c'
        /\ handleMove E s f t = Returns (s', effects)
        /\ gameState c' = s')
  /\ (own = true ->
      move E (loadFen E (fen E (game s))) f t = Invalid ->
      dragAndDrop E c f t idle = Throws).
Proof.
  intros Hne1 Hne2 Hnin s own.
  assert (existsb (String.eqb f) (legalMoves s) = false) as Hex.
  { destruct (existsb (String.eqb f) (legalMoves s)) eqn:Hx; [|reflexivity].
    apply existsb_exists in Hx. destruct Hx as [x [Hx1 Hx2]].
    apply String.eqb_eq in Hx2. subst x. contradiction. }
  assert (negb (f =? EmptyString)%string && negb (f =? t)%string = true) as Hcond.
  { destruct (String.eqb_spec f EmptyString); [contradiction|].
    destruct (String.eqb_spec f t); [contradiction|]. reflexivity. }
  (* the click reported by the drag changes the selection only *)
  assert (own = true ->
          exists c1,
            handleDragStart E c f idle = Some (Returns (c1, f))
            /\ game (gameState c1) = game s
            /\ gameHistory (gameState c1) = gameHistory s
            /\ capturedPieces (gameState c1) = capturedPieces s
            /\ timeControl (gameState c1) = timeControl s
            /\ isTimerRunning (gameState c1) = isTimerRunning s
            /\ isFlipped (gameState c1) = isFlipped s
            /\ soundEnabled (gameState c1) = soundEnabled s
            /\ boardTheme (gameState c1) = boardTheme s)
    as Hdrag.
  { intros Hown. unfold handleDragStart. fold s. unfold own in Hown.
    destruct (get E (game s) f) as [p|] eqn:Hg; [|discriminate].
    rewrite Hown. unfold dispatch. fold s.
    pose proof (handleSquareClick_frame E s f) as F.
    assert (snd (handleSquareClick E s f) = None) as Hnone.
    { unfold handleSquareClick. rewrite Hg, Hown, Hex.
      destruct (selectedSquare s) as [sel|];
        [destruct (sel =? f)%string; [|rewrite andb_false_r]|]; reflexivity. }
    destruct (handleSquareClick E s f) as [s1 q]. simpl in Hnone, F. subst q.
    eexists. split; [reflexivity|]. simpl.
    destruct F as [F1 [F2 [F3 [_ [F5 [F6 [F7 [F8 F9]]]]]]]].
    repeat split; assumption. }
  split; [|split].
  - intros Hown. unfold dragAndDrop, handleDragStart. fold s. unfold own in Hown.
    destruct (get E (game s) f) as [p|]; [|reflexivity].
    rewrite Hown. reflexivity.
  - intros Hown m g1 Hm.
    destruct (Hdrag Hown) as [c1 [Hs [F1 [F2 [F3 [F5 [F6 [F7 [F8 F9]]]]]]]]].
    assert (move E (loadFen E (fen E (game (gameState c1)))) f t = Made m g1)
      as Hm1 by (rewrite F1; exact Hm).
    destruct (handleMove_made E s f t m g1 Hm) as [effects He].
    destruct (handleMove_made E (gameState c1) f t m g1 Hm1) as [effects1 He1].
    unfold dragAndDrop. rewrite Hs. unfold handleDrop. rewrite Hcond.
    unfold dispatch, dispatchMove. rewrite He1, Hm1.
    eexists. eexists. exists effects.
    split; [reflexivity|]. split; [exact He|].
    simpl. rewrite F2, F3, F5, F6, F7, F8, F9. reflexivity.
  - intros Hown Hm.
    destruct (Hdrag Hown) as [c1 [Hs [F1 _]]].
    assert (move E (loadFen E (fen E (game (gameState c1)))) f t = Invalid)
      as Hm1 by (rewrite F1; exact Hm).
    unfold dragAndDrop. rewrite Hs. unfold handleDrop. rewrite Hcond.
    unfold dispatch, dispatchMove.
    rewrite (handleMove_thrown E (gameState c1) f t Hm1). reflexivity.
Qed.

Lemma dragAndDrop_moves_witness :
  dragAndDrop KingsAndRooks.engine (freshComponent KingsAndRooks.engine)
    "a1" "b2" true = Throws.
Proof.
  destruct (dragAndDrop_moves KingsAndRooks.engine
              (freshComponent KingsAndRooks.engine) "a1" "b2" true)
    as [_ [_ H]].
  - discriminate.
  - discriminate.
  - intros [].
  - apply H; [reflexivity|vm_compute; reflexivity].
Defined.
(** ** Saving and restoring *)

Lemma asStrings_jsonStrings (l : list string) :
  JS.asStrings (map JS.JStr l) = Some l.
Proof.
  induction l as [|x r IH]; [reflexivity|]. simpl. rewrite IH. reflexivity.
Qed.

(** X8. A state saved by [saveGameState] and read back at the next start
    comes back with its move history, buckets, last move, orientation,
    sound flag and clock values, with the game the engine loads from the
    saved PGN, with no selection and a stopped clock, and with the theme
    "classic" in place of an empty theme; the state does not share the
    module-level time control.  If the engine does not load the saved PGN,
    the start is a fresh state. *)
Theorem restore_saved_state (E : Engine) (pgn : Game E -> string)
        (JSON_parse : string -> option JS.JSON) (text : string) (s : GameState E) :
  text <> EmptyString ->
  JSON_parse text = Some (saveData E pgn s) ->
  (forall g, loadPgn E (Some (JS.JStr (pgn (game s)))) = Some g ->
     initialGameState E JSON_parse (Some text) =
       Typed {| game := g;
                gameHistory := gameHistory s;
                capturedPieces := capturedPieces s;
                lastMove := lastMove s;
                selectedSquare := None;
                legalMoves := [];
                isFlipped := isFlipped s;
                soundEnabled := soundEnabled s;
                timeControl := timeControl s;
                isTimerRunning := false;
                boardTheme :=
                  if (boardTheme s =? EmptyString)%string
                  then "classic" else boardTheme s |} false)
  /\ (loadPgn E (Some (JS.JStr (pgn (game s)))) = None ->
      initialGameState E JSON_parse (Some text)
      = Typed (freshState E initialTimeControl) false).
Proof.
  intros Hne Hp.
  assert ((text =? EmptyString)%string = false) as Ht.
  { destruct (String.eqb_spec text EmptyString); [contradiction|reflexivity]. }
  split.
  - intros g Hg. unfold initialGameState. rewrite Ht, Hp.
    unfold saveData at 1. cbn [JS.prop JS.assoc String.eqb Ascii.eqb Bool.eqb].
    rewrite Hg. unfold field, saveData, jsonStrings.
    cbn [JS.prop JS.assoc String.eqb Ascii.eqb Bool.eqb JS.asStringArray
         decodeCapturedPieces].
    rewrite !asStrings_jsonStrings.
    destruct s as [g0 h [w b] lm sel lms fl snd [tw tb ti] run th]; simpl.
    destruct lm as [[lf lt]|], fl, snd, (th =? EmptyString)%string eqn:Hth;
      simpl; unfold decodeBoardTheme, JS.truthy; rewrite Hth; reflexivity.
  - intros Hg. unfold initialGameState. rewrite Ht, Hp.
    unfold saveData at 1. cbn [JS.prop JS.assoc String.eqb Ascii.eqb Bool.eqb].
    rewrite Hg. reflexivity.
Qed.

Lemma restore_saved_state_witness :
  initialGameState KingsAndRooks.engine
    (fun _ => Some (saveData KingsAndRooks.engine (fun _ => EmptyString)
                             Examples.timed))
    (Some "saved")
  = Typed {| game := newChess KingsAndRooks.engine;
             gameHistory := [];
             capturedPieces :=
               {| CapturedPieces.white := []; CapturedPieces.black := [] |};
             lastMove := None;
             selectedSquare := None;
             legalMoves := [];
             isFlipped := false;
             soundEnabled := true;
             timeControl := {| TimeControl.white := 598; TimeControl.black := 600;
                               TimeControl.increment := 5 |};
             isTimerRunning := false;
             boardTheme := "classic" |} false.
Proof.
  destruct (restore_saved_state KingsAndRooks.engine (fun _ => EmptyString)
              (fun _ => Some (saveData KingsAndRooks.engine (fun _ => EmptyString)
                                       Examples.timed))
              "saved" Examples.timed) as [H _].
  - discriminate.
  - reflexivity.
  - apply (H (newChess KingsAndRooks.engine)). reflexivity.
Defined.

(** X9. Whatever is stored, a state the initialiser returns has a stopped
    clock, no selection and a theme that is not empty; and it shares the
    module-level time control only with the values that object was loaded
    with. *)
Theorem restored_state_is_idle (E : Engine)
        (JSON_parse : string -> option JS.JSON) (savedGame : option string)
        (s : GameState E) (shares : bool) :
  initialGameState E JSON_parse savedGame = Typed s shares ->
  isTimerRunning s = false /\ selectedSquare s = None /\ legalMoves s = []
  /\ boardTheme s <> EmptyString
  /\ (shares = true -> timeControl s = initialTimeControl).
Proof.
  unfold initialGameState.
  assert (forall (s0 : GameState E) (sh : bool),
             Typed (freshState E initialTimeControl) false = Typed s0 sh ->
             isTimerRunning s0 = false /\ selectedSquare s0 = None
             /\ legalMoves s0 = [] /\ boardTheme s0 <> EmptyString
             /\ (sh = true -> timeControl s0 = initialTimeControl)) as Hfresh.
  { intros s0 sh H. inversion H; subst. simpl.
    repeat split; try discriminate. }
  destruct savedGame as [saved|]; [|apply Hfresh].
  destruct (saved =? EmptyString)%string; [apply Hfresh|].
  destruct (JSON_parse saved) as [parsed|]; [|apply Hfresh].
  destruct (JS.prop parsed "pgn") as [pgn|]; [|apply Hfresh].
  destruct (loadPgn E pgn) as [g|]; [|apply Hfresh].
  destruct (JS.asStringArray _) as [h|]; [|discriminate].
  destruct (decodeCapturedPieces _) as [cp|]; [|discriminate].
  destruct (decodeLastMove _) as [lm|]; [|discriminate].
  destruct (decodeIsFlipped _) as [fl|]; [|discriminate].
  destruct (decodeTimeControl _) as [[tc sh]|] eqn:Htc; [|discriminate].
  destruct (decodeBoardTheme _) as [th|] eqn:Hth; [|discriminate].
  intros H. inversion H; subst. simpl.
  split; [reflexivity|]. split; [reflexivity|]. split; [reflexivity|]. split.
  - unfold decodeBoardTheme in Hth.
    destruct (field parsed "boardTheme") as [v|];
      [|inversion Hth; discriminate].
    destruct v as [|bv|nv|sv|lv|ov]; simpl in Hth.
    + inversion Hth; discriminate.
    + destruct bv; [discriminate|inversion Hth; discriminate].
    + destruct (nv =? 0); simpl in Hth; [inversion Hth; discriminate|discriminate].
    + destruct (sv =? EmptyString)%string eqn:Hx; simpl in Hth;
        inversion Hth; subst; [discriminate|].
      intros Hc. rewrite Hc in Hx. discriminate Hx.
    + discriminate.
    + discriminate.
  - intros ->. unfold decodeTimeControl in Htc.
    destruct (JS.truthy (field parsed "timeControl")).
    + destruct (field parsed "timeControl") as [[| | | | |l]|]; try discriminate.
      destruct (JS.assoc "white" l) as [[| |w| | |]|]; try discriminate.
      destruct (JS.assoc "black" l) as [[| |b| | |]|]; try discriminate.
      destruct (JS.assoc "increment" l) as [[| |i| | |]|]; discriminate.
    + inversion Htc. reflexivity.
Qed.

Lemma restored_state_is_idle_witness :
  exists s shares,
    initialGameState KingsAndRooks.engine
      (fun _ => Some Examples.recordWithoutTimeControl) (Some "saved")
    = Typed s shares
    /\ isTimerRunning s = false /\ timeControl s = initialTimeControl.
Proof.
  eexists. eexists. split; [reflexivity|].
  match goal with
  | |- isTimerRunning ?s = _ /\ _ =>
      destruct (restored_state_is_idle KingsAndRooks.engine
                  (fun _ => Some Examples.recordWithoutTimeControl)
                  (Some "saved") s true eq_refl) as [H1 [_ [_ [_ H5]]]]
  end.
  split; [exact H1|apply H5; reflexivity].
Defined.

(** ** The status badge and the end-of-game dialog *)

(** X10. The end-of-game dialog is open exactly when the status badge shows
    checkmate, stalemate or draw, and it is then titled accordingly, never
    with its fallback "Game Over"; while the game goes on the badge shows
    check or the side to move.  On checkmate both name the side that is not
    to move as the winner. *)
Theorem dialog_and_badge_agree (E : Engine) (L : EngineLaws E)
        (isThreefoldRepetition isInsufficientMaterial : Game E -> bool)
        (s : GameState E) :
  let st := getGameStatus E (game s) in
  let r := getGameResult E isThreefoldRepetition isInsufficientMaterial (game s) in
  (dialogOpen E s = true ->
   In (GameStatus.status st, GameResult.title r)
      [("checkmate", "Checkmate!"); ("stalemate", "Stalemate!"); ("draw", "Draw!")])
  /\ (dialogOpen E s = false ->
      (GameStatus.status st = "check" \/ GameStatus.status st = "playing")
      /\ GameResult.title r = "Game Over")
  /\ (isCheckmate E (game s) = true ->
      let winner := match turn E (game s) with White => "Black" | Black => "White" end in
      GameStatus.message st = String.append "Checkmate! " (String.append winner " wins!")
      /\ GameResult.message r = String.append winner " wins the game!").
Proof.
  intros st r. unfold dialogOpen, st, r, getGameStatus, getGameResult.
  rewrite (isGameOver_def E L).
  destruct (isCheckmate E (game s)), (isStalemate E (game s)),
    (isDraw E (game s)), (isCheck E (game s)); simpl;
    repeat split; intros; try discriminate; auto.
Qed.

Lemma dialog_and_badge_agree_witness :
  GameResult.title
    (getGameResult KingsAndRooks.engine (fun _ => false)
       (fun g => KingsAndRooks.insufficientMaterial (KingsAndRooks.position g))
       (game Examples.bareKings))
  = "Draw!".
Proof.
  destruct (dialog_and_badge_agree KingsAndRooks.engine kr_laws (fun _ => false)
              (fun g => KingsAndRooks.insufficientMaterial (KingsAndRooks.position g))
              Examples.bareKings) as [H _].
  assert (dialogOpen KingsAndRooks.engine Examples.bareKings = true) as Ho.
  { vm_compute. reflexivity. }
  specialize (H Ho).
  destruct H as [H|[H|[H|[]]]].
  - exfalso. apply (f_equal fst) in H. vm_compute in H. discriminate H.
  - exfalso. apply (f_equal fst) in H. vm_compute in H. discriminate H.
  - exact (eq_sym (f_equal snd H)).
Defined.

(** ** Move numbers *)

Lemma gameDuration_step (z : Z) :
  0 <= z ->
  gameDuration (z + 1) = gameDuration z + (if isWhiteMove z then 1 else 0).
Proof.
  intros Hz. unfold gameDuration, isWhiteMove.
  destruct (Z.eqb_spec (z mod 2) 0) as [He|He];
    Z.div_mod_to_equations; lia.
Qed.

(** X11. The count of full moves in the end-of-game dialog is the number
    of entries of the history panel that carry a move number (the entries
    at even indices), and for a non-empty history it is the move number of
    the last entry.  The entries 2k and 2k+1 share the number k+1, the
    first marked as White's. *)
Theorem gameDuration_counts_numbered_moves (n : nat) (k : Z) :
  Z.of_nat (List.length (filter isWhiteMove (indices n))) = gameDuration (Z.of_nat n)
  /\ ((0 < n)%nat -> gameDuration (Z.of_nat n) = moveNumber (Z.of_nat n - 1))
  /\ (0 <= k ->
      moveNumber (2 * k) = k + 1 /\ moveNumber (2 * k + 1) = k + 1
      /\ isWhiteMove (2 * k) = true /\ isWhiteMove (2 * k + 1) = false).
Proof.
  split; [|split].
  - induction n as [|n IH]; [reflexivity|].
    unfold indices in *. rewrite seq_S, map_app, filter_app, length_app.
    rewrite Nat2Z.inj_add, IH, Nat2Z.inj_succ, <- Z.add_1_r.
    rewrite gameDuration_step by lia. simpl.
    destruct (isWhiteMove (Z.of_nat n)); reflexivity.
  - intros Hn. unfold gameDuration, moveNumber.
    Z.div_mod_to_equations. lia.
  - intros Hk. unfold moveNumber, isWhiteMove. repeat split.
    + Z.div_mod_to_equations. lia.
    + Z.div_mod_to_equations. lia.
    + apply Z.eqb_eq. Z.div_mod_to_equations. lia.
    + apply Z.eqb_neq. Z.div_mod_to_equations. lia.
Qed.

Lemma gameDuration_counts_numbered_moves_witness :
  gameDuration 5 = moveNumber 4.
Proof.
  destruct (gameDuration_counts_numbered_moves 5 0) as [_ [H _]].
  apply H. lia.
Defined.

(** ** The symbols of the captured pieces *)

(** X12. In a consistent state every piece shown in the bucket of a side
    is a piece of the other side, and [PIECE_SYMBOLS] has a symbol for
    it. *)
Theorem captured_pieces_have_symbols (E : Engine) (s : GameState E)
        (records : list Move.t) (c : Color) (id : string) :
  consistent E s records ->
  In id (bucket c (capturedPieces s)) ->
  (exists p, id = String.append (colorLetter (otherSide c)) (toUpperCase p))
  /\ (exists symbol, symbolOf id PIECE_SYMBOLS = Some symbol).
Proof.
  intros [g [_ [_ [_ Hc]]]] Hin.
  rewrite Hc, recalculate_buckets in Hin.
  unfold capturedIn in Hin. apply in_flat_map in Hin.
  destruct Hin as [m [_ Hm]].
  destruct (Color_eqb (Move.color m) c) eqn:Hcol; [|destruct Hm].
  unfold capturedPiece in Hm.
  destruct (Move.captured m) as [p|]; [|destruct Hm].
  destruct Hm as [Hm|[]]. subst id.
  assert (Move.color m = c) as ->.
  { destruct (Move.color m), c; try reflexivity; discriminate. }
  split; [exists p; reflexivity|].
  destruct c, p; simpl; eexists; reflexivity.
Qed.

Lemma captured_pieces_have_symbols_witness :
  exists symbol, symbolOf "bR" PIECE_SYMBOLS = Some symbol.
Proof.
  assert (exists records,
             consistent KingsAndRooks.engine
               (Examples.after Examples.fresh "a1" "a8") records) as [records Hc].
  { unfold consistent. vm_compute. eexists. eexists.
    split; [reflexivity|]. repeat split. }
  destruct (captured_pieces_have_symbols KingsAndRooks.engine _ _ White "bR" Hc)
    as [_ H].
  - vm_compute. left. reflexivity.
  - exact H.
Defined.

(** ** The board grid *)

(** X13. Either way up the grid has eight rows of eight cells and shows
    each of the 64 squares once; the flipped grid is the other one turned
    by half a turn: read row by row it lists the squares in reverse. *)
Theorem flipped_grid_is_rotated (isFlipped : bool) :
  List.length (ChessBoard.grid isFlipped) = 8%nat
  /\ Forall (fun row => List.length row = 8%nat) (ChessBoard.grid isFlipped)
  /\ NoDup (map ChessBoard.square (List.concat (ChessBoard.grid isFlipped)))
  /\ map ChessBoard.square (List.concat (ChessBoard.grid (negb isFlipped)))
     = rev (map ChessBoard.square (List.concat (ChessBoard.grid isFlipped))).
Proof.
  destruct isFlipped.
  - split; [reflexivity|]. split; [repeat constructor|].
    split; [|reflexivity].
    vm_compute. repeat (constructor; [simpl; intuition discriminate|]).
    constructor.
  - split; [reflexivity|]. split; [repeat constructor|].
    split; [|reflexivity].
    vm_compute. repeat (constructor; [simpl; intuition discriminate|]).
    constructor.
Qed.

Ltac pick_name :=
  first [ exists "a"; reflexivity | exists "b"; reflexivity
        | exists "c"; reflexivity | exists "d"; reflexivity
        | exists "e"; reflexivity | exists "f"; reflexivity
        | exists "g"; reflexivity | exists "h"; reflexivity
        | exists "1"; reflexivity | exists "2"; reflexivity
        | exists "3"; reflexivity | exists "4"; reflexivity
        | exists "5"; reflexivity | exists "6"; reflexivity
        | exists "7"; reflexivity | exists "8"; reflexivity ].

Ltac label_case :=
  vm_compute; repeat split; intros;
  try discriminate; try reflexivity; try lia;
  try (exfalso; auto; fail);
  try (match goal with
       | H : Some _ = Some _ |- _ => injection H as <-
       end; pick_name).

(** X14. Either way up, the rank is written on the cells of the left-most
    column only and the file on the cells of the bottom row only, and what
    is written is the rank, respectively the file, of the square of the
    cell. *)
Theorem coordinates_on_left_and_bottom (isFlipped : bool) (r c : nat)
        (row : list ChessBoard.Cell) (cell : ChessBoard.Cell) :
  nth_error (ChessBoard.grid isFlipped) r = Some row ->
  nth_error row c = Some cell ->
  (ChessBoard.rankLabel cell <> None <-> c = 0%nat)
  /\ (ChessBoard.fileLabel cell <> None <-> r = 7%nat)
  /\ (forall rank, ChessBoard.rankLabel cell = Some rank ->
        exists file, ChessBoard.square cell = String.append file rank)
  /\ (forall file, ChessBoard.fileLabel cell = Some file ->
        exists rank, ChessBoard.square cell = String.append file rank).
Proof.
  intros Hr Hc.
  destruct isFlipped;
    (do 8 (destruct r as [|r];
           [vm_compute in Hr; injection Hr as <-;
            do 8 (destruct c as [|c];
                  [vm_compute in Hc; injection Hc as <-; label_case|]);
            destruct c; discriminate Hc|]);
     destruct r; discriminate Hr).
Qed.

Lemma coordinates_on_left_and_bottom_witness :
  ChessBoard.rankLabel (ChessBoard.renderSquare true "h" "1") <> None.
Proof.
  destruct (coordinates_on_left_and_bottom true 0 0
              (map (fun file => ChessBoard.renderSquare true file "1")
                   (ChessBoard.boardFiles true))
              (ChessBoard.renderSquare true "h" "1") eq_refl eq_refl)
    as [[_ H] _].
  apply H. reflexivity.
Defined.

(** X15. The shades alternate along files and ranks, for every pair of
    indices a board can have: a step to the next file or rank changes the
    shade, a diagonal step keeps it. *)
Theorem getSquareColor_checkerboard (file rank : Z) :
  0 <= file -> 0 <= rank ->
  ChessBoard.getSquareColor (file + 1) rank <> ChessBoard.getSquareColor file rank
  /\ ChessBoard.getSquareColor file (rank + 1) <> ChessBoard.getSquareColor file rank
  /\ ChessBoard.getSquareColor (file + 1) (rank + 1)
     = ChessBoard.getSquareColor file rank.
Proof.
  intros Hf Hr. unfold ChessBoard.getSquareColor.
  destruct (Z.eqb_spec ((file + rank) mod 2) 0) as [H0|H0];
    destruct (Z.eqb_spec ((file + 1 + rank) mod 2) 0) as [H1|H1];
    destruct (Z.eqb_spec ((file + (rank + 1)) mod 2) 0) as [H2|H2];
    destruct (Z.eqb_spec ((file + 1 + (rank + 1)) mod 2) 0) as [H3|H3];
    repeat split; try discriminate; try reflexivity;
    exfalso; revert H0 H1 H2 H3; Z.div_mod_to_equations; lia.
Qed.

Lemma getSquareColor_checkerboard_witness :
  ChessBoard.getSquareColor 1 7 <> ChessBoard.getSquareColor 0 7.
Proof.
  destruct (getSquareColor_checkerboard 0 7) as [H _]; [lia|lia|].
  exact H.
Defined.


(** ** Who holds which time control *)

Lemma Ref_eqb_eq (a b : Ref) : Ref_eqb a b = true <-> a = b.
Proof.
  destruct a as [|n], b as [|m]; simpl; split; intros H;
    try reflexivity; try discriminate.
  - apply Nat.eqb_eq in H. subst. reflexivity.
  - inversion H; subst. apply Nat.eqb_refl.
Qed.

Section Objects.

Variable E : Engine.

(** A reference to an object created so far is not one to the object
    created next. *)
Lemma known_not_next (c : Component E) (r : Ref) :
  known E c r -> Ref_eqb (Created (created c)) r = false.
Proof.
  destruct r as [|n]; simpl; [reflexivity|].
  intros H. apply Nat.eqb_neq. lia.
Qed.

Lemma known_later (c : Component E) (r : Ref) (k : nat) :
  known E c r -> (created c <= k)%nat ->
  match r with Initial => True | Created n => (n < k)%nat end.
Proof. destruct r as [|n]; simpl; [trivial|lia]. Qed.

(** The state is replaced by one that holds the same time-control object,
    with the same fields. *)
Lemma objectsOk_update (c : Component E) (s : GameState E) :
  timeControl s = timeControl (gameState c) ->
  objectsOk E c ->
  objectsOk E
    (render E {| gameState := s;
                 timeControlRef := timeControlRef c;
                 initialTimeControlNow := initialTimeControlNow c;
                 resetGameState := resetGameState c;
                 settings := settings c;
                 localTimeControlRef := localTimeControlRef c;
                 created := created c |}).
Proof.
  intros Ht [K1 [K2 [A1 [A2 A3]]]]. unfold objectsOk. simpl. rewrite Ht.
  repeat split; assumption.
Qed.

(** The state is replaced by one that holds a time control created for
    it. *)
Lemma objectsOk_updateOwn (c : Component E) (s : GameState E) :
  objectsOk E c ->
  objectsOk E
    (render E {| gameState := s;
                 timeControlRef := Created (created c);
                 initialTimeControlNow := initialTimeControlNow c;
                 resetGameState := resetGameState c;
                 settings := settings c;
                 localTimeControlRef := localTimeControlRef c;
                 created := S (created c) |}).
Proof.
  intros [K1 [K2 [A1 [A2 A3]]]]. unfold objectsOk. simpl.
  split; [lia|]. split.
  { destruct (localTimeControlRef c); simpl in *; [trivial|lia]. }
  split.
  { intros H. destruct (localTimeControlRef c) as [|n]; simpl in *;
      [discriminate H|]. apply Nat.eqb_eq in H. lia. }
  split; [discriminate|exact A3].
Qed.

Lemma handleMove_timeControl_rejected (s s' : GameState E) (f t : Square)
      (effects : list (Effect E)) :
  handleMove E s f t = Returns (s', effects) ->
  (forall m g', move E (loadFen E (fen E (game s))) f t <> Made m g') ->
  s' = s.
Proof.
  unfold handleMove. destruct (move E _ f t) as [m g'| |]; intros H Hn.
  - exfalso. exact (Hn m g' eq_refl).
  - inversion H. reflexivity.
  - discriminate H.
Qed.

Lemma dispatchMove_objectsOk (c c' : Component E) (f t : Square)
      (effects : list (Effect E)) :
  dispatchMove E c f t = Returns (c', effects) ->
  objectsOk E c -> objectsOk E c'.
Proof.
  unfold dispatchMove. intros Hd H.
  destruct (handleMove E (gameState c) f t) as [[s1 e1]|] eqn:Hm; [|discriminate].
  destruct (move E (loadFen E (fen E (game (gameState c)))) f t) as [m g'| |] eqn:Hv;
    inversion Hd; subst.
  - apply objectsOk_updateOwn. exact H.
  - apply objectsOk_update; [|exact H].
    rewrite (handleMove_timeControl_rejected _ _ _ _ _ Hm); [reflexivity|].
    intros m g' Hc. rewrite Hv in Hc. discriminate Hc.
  - apply objectsOk_update; [|exact H].
    rewrite (handleMove_timeControl_rejected _ _ _ _ _ Hm); [reflexivity|].
    intros m g' Hc. rewrite Hv in Hc. discriminate Hc.
Qed.

Lemma dispatch_objectsOk (i : Intent) (c c' : Component E)
      (effects : list (Effect E)) :
  dispatch E i c = Returns (c', effects) ->
  objectsOk E c -> objectsOk E c'.
Proof.
  intros Hd H. destruct i; unfold dispatch in Hd.
  - exact (dispatchMove_objectsOk _ _ _ _ _ Hd H).
  - pose proof (handleSquareClick_frame E (gameState c) square) as F.
    destruct (handleSquareClick E (gameState c) square) as [s [[f t]|]].
    + unfold completeMove in Hd. destruct idle.
      * destruct (handleMove E (gameState c) f t) as [[s1 e1]|]; [|discriminate].
        inversion Hd; subst. apply objectsOk_update; [|exact H].
        apply (afterPush_frame E (gameState c) f t).
      * exact (dispatchMove_objectsOk _ _ _ _ _ Hd H).
    + inversion Hd; subst. apply objectsOk_update; [|exact H].
      simpl in F. apply F.
  - inversion Hd; subst. apply objectsOk_updateOwn. exact H.
  - destruct (undoMove E (gameState c)) as [[s1 e1]|] eqn:Hu; [|discriminate].
    inversion Hd; subst. apply objectsOk_update; [|exact H].
    unfold undoMove in Hu. destruct (gameHistory (gameState c)).
    + inversion Hu; subst. reflexivity.
    + destruct (replay E _); [|discriminate]. inversion Hu; subst. reflexivity.
  - inversion Hd; subst. apply objectsOk_update; [reflexivity|exact H].
  - inversion Hd; subst. apply objectsOk_update; [reflexivity|exact H].
  - inversion Hd; subst. apply objectsOk_update; [reflexivity|exact H].
  - inversion Hd; subst. destruct H as [K1 [K2 [A1 [A2 A3]]]].
    unfold objectsOk. simpl.
    destruct (SettingsDialog.installs a) eqn:Hi.
    + split; [exact (known_later c _ _ K1 (Nat.le_succ_diag_r _))|].
      split; [simpl; lia|]. split.
      { intros Hx. apply Ref_eqb_eq in Hx.
        rewrite Hx in K1. simpl in K1. lia. }
      split; [exact A2|discriminate].
    + rewrite (settings_step_keeps _ _ Hi). repeat split; assumption.
  - inversion Hd; subst. destruct H as [K1 [K2 [A1 [A2 A3]]]].
    unfold objectsOk. simpl.
    split; [exact K2|]. split; [exact K2|]. split; [reflexivity|].
    split; exact A3.
  - inversion Hd; subst. apply objectsOk_update; [reflexivity|exact H].
  - destruct (timerActive E (gameState c)); inversion Hd; subst; [|exact H].
    destruct H as [K1 [K2 [A1 [A2 A3]]]]. unfold objectsOk. simpl.
    split; [exact K1|]. split; [exact K2|].
    destruct (Ref_eqb (timeControlRef c) (localTimeControlRef c)) eqn:Hsame;
      destruct (Ref_eqb (timeControlRef c) Initial) eqn:Hinit; simpl.
    + repeat split; reflexivity.
    + split; [reflexivity|]. split; [discriminate|].
      intros Hl. apply Ref_eqb_eq in Hsame. rewrite Hsame, Hl in Hinit.
      discriminate Hinit.
    + split; [discriminate|]. split; [reflexivity|].
      intros Hl. apply Ref_eqb_eq in Hinit, Hl. rewrite Hinit, Hl in Hsame.
      discriminate Hsame.
    + split; [discriminate|]. split; [discriminate|exact A3].
Qed.

Lemma run_objectsOk (intents : list Intent) (c c' : Component E) :
  run E intents c = Returns c' -> objectsOk E c -> objectsOk E c'.
Proof.
  revert c. induction intents as [|i r IH]; intros c Hrun H.
  - inversion Hrun; subst. exact H.
  - simpl in Hrun.
    destruct (dispatch E i c) as [[c1 e1]|] eqn:Hd; [|discriminate].
    apply (IH c1 Hrun). exact (dispatch_objectsOk _ _ _ _ Hd H).
Qed.

End Objects.

(** X16. Over every run of intents with the sliders within their bounds,
    from a component without negative clock entries: "Apply Settings" sets
    the clock of the game to the time control the dialog holds, which has
    no negative entry.  As long as the dialog holds the object the game
    state holds (nothing was chosen in the dialog and no move was made
    since the state took that object), this is the clock as it stands, with
    the seconds ticked away, and "Apply Settings" changes no time.
    Choosing "Custom", or a name that is no preset, leaves the time control
    of the dialog as it is. *)
Theorem settings_hand_over_valid_time_control (E : Engine) (c0 c : Component E)
        (intents : list Intent) (presetName : string) :
  clocksOk E c0 -> objectsOk E c0 ->
  Forall validIntent intents ->
  run E intents c0 = Returns c ->
  exists c' effects,
    dispatch E ApplySettings c = Returns (c', effects)
    /\ timeControl (gameState c') = SettingsDialog.localTimeControl (settings c)
    /\ fromSettings (timeControl (gameState c'))
    /\ isTimerRunning (gameState c') = isTimerRunning (gameState c)
    /\ game (gameState c') = game (gameState c)
    /\ (Ref_eqb (timeControlRef c) (localTimeControlRef c) = true ->
        timeControl (gameState c') = timeControl (gameState c))
    /\ SettingsDialog.localTimeControl
         (SettingsDialog.handleTimePresetChange "Custom" (settings c))
       = SettingsDialog.localTimeControl (settings c)
    /\ (find (fun p => (SettingsDialog.Preset.name p =? presetName)%string)
             SettingsDialog.TIME_PRESETS = None ->
        SettingsDialog.localTimeControl
          (SettingsDialog.handleTimePresetChange presetName (settings c))
        = SettingsDialog.localTimeControl (settings c)).
Proof.
  intros Hok Hobj Hv Hrun.
  pose proof (run_clocksOk E _ _ _ Hv Hrun Hok) as [_ [_ H3]].
  pose proof (run_objectsOk E _ _ _ Hrun Hobj) as [_ [_ [A1 _]]].
  assert (find (fun p => (SettingsDialog.Preset.name p =? presetName)%string)
               SettingsDialog.TIME_PRESETS = None ->
          SettingsDialog.localTimeControl
            (SettingsDialog.handleTimePresetChange presetName (settings c))
          = SettingsDialog.localTimeControl (settings c)) as Hnone.
  { intros Hn. unfold SettingsDialog.handleTimePresetChange. rewrite Hn.
    reflexivity. }
  eexists. eexists. split; [reflexivity|].
  split; [reflexivity|]. split; [exact H3|].
  split; [reflexivity|]. split; [reflexivity|].
  split; [exact A1|]. split; [reflexivity|exact Hnone].
Qed.

Lemma settings_hand_over_valid_time_control_witness :
  exists c c' effects,
    run KingsAndRooks.engine [Timer; Tick; Tick; Tick]
        (freshComponent KingsAndRooks.engine) = Returns c
    /\ dispatch KingsAndRooks.engine ApplySettings c = Returns (c', effects)
    /\ timeControl (gameState c') = timeControl (gameState c)
    /\ fromSettings (timeControl (gameState c')).
Proof.
  assert (exists c,
             run KingsAndRooks.engine [Timer; Tick; Tick; Tick]
                 (freshComponent KingsAndRooks.engine) = Returns c) as [c Hrun].
  { returns_by_computation. }
  assert (match run KingsAndRooks.engine [Timer; Tick; Tick; Tick]
                  (freshComponent KingsAndRooks.engine) with
          | Returns c0 => Ref_eqb (timeControlRef c0) (localTimeControlRef c0)
          | Throws => false
          end = true) as Hsame.
  { vm_compute. reflexivity. }
  rewrite Hrun in Hsame.
  destruct (settings_hand_over_valid_time_control KingsAndRooks.engine
              (freshComponent KingsAndRooks.engine) c
              [Timer; Tick; Tick; Tick] EmptyString)
    as [c' [effects [Hd [_ [Hvalid [_ [_ [Hkeep _]]]]]]]].
  - repeat split; simpl; lia.
  - repeat split; simpl; try lia; discriminate.
  - repeat constructor.
  - exact Hrun.
  - exists c, c', effects. split; [exact Hrun|]. split; [exact Hd|].
    split; [exact (Hkeep Hsame)|exact Hvalid].
Defined.

(** After a move the dialog is left with the object the state held before:
    "Apply Settings" then puts the clock back to the fields of that
    object. *)
Example apply_after_move_restores_old_clock :
  match run KingsAndRooks.engine
          [Timer; Tick; DropPiece "a1" "a2"; Tick; Tick; ApplySettings]
          (freshComponent KingsAndRooks.engine) with
  | Returns c => Some (timeControl (gameState c))
  | Throws => None
  end
  = Some {| TimeControl.white := 599; TimeControl.black := 600;
            TimeControl.increment := 0 |}.
Proof. vm_compute. reflexivity. Qed.

(** ** Seconds going by *)

Lemma ticks_while_stopped (E : Engine) (n : nat) (c : Component E) :
  timerActive E (gameState c) = false -> run E (repeat Tick n) c = Returns c.
Proof.
  intros H. induction n as [|n IH]; [reflexivity|].
  change (repeat Tick (S n)) with (Tick :: repeat Tick n).
  rewrite (run_cons E Tick _ c c [] (tick_stopped E c H)). exact IH.
Qed.

(** X17. On a running clock of a game that is not over, with time left
    for the side to move, [n] ticks take [n] seconds from that side, down
    to 0 and no further; the clock is still running after them exactly if
    fewer seconds went by than were left; the other side's time and the
    position are untouched. *)
Theorem ticks_count_down (E : Engine) (n : nat) (c : Component E) :
  isTimerRunning (gameState c) = true ->
  isGameOver E (game (gameState c)) = false ->
  0 < remaining (turn E (game (gameState c))) (timeControl (gameState c)) ->
  exists c',
    run E (repeat Tick n) c = Returns c'
    /\ let s := gameState c in
       let mover := turn E (game s) in
       let s' := gameState c' in
       remaining mover (timeControl s')
       = Z.max 0 (remaining mover (timeControl s) - Z.of_nat n)
       /\ remaining (otherSide mover) (timeControl s')
          = remaining (otherSide mover) (timeControl s)
       /\ isTimerRunning s' = (Z.of_nat n <? remaining mover (timeControl s))
       /\ game s' = game s.
Proof.
  revert c. induction n as [|n IH]; intros c Hrun Hover Hpos.
  - exists c. split; [reflexivity|]. cbv zeta.
    split; [lia|]. split; [reflexivity|]. split; [|reflexivity].
    rewrite Hrun. symmetry. apply Z.ltb_lt. exact Hpos.
  - set (s := gameState c) in *. set (mover := turn E (game s)) in *.
    assert (timerActive E s = true) as Hact.
    { unfold timerActive. rewrite Hrun, Hover. reflexivity. }
    destruct (tick_dispatched E c Hact) as [c1 [Hd Hs1]]. fold s in Hd, Hs1.
    destruct (tick_step E s) as [T1 [T2 [_ [T4 [T5 T6]]]]].
    fold mover in T1, T2, T5, T6.
    rewrite Z.max_r in T1 by lia.
    change (repeat Tick (S n)) with (Tick :: repeat Tick n).
    rewrite (run_cons E Tick _ c c1 _ Hd).
    destruct (Z.eq_dec (remaining mover (timeControl s)) 1) as [H1|H1].
    + assert (timerActive E (gameState c1) = false) as Hst.
      { rewrite Hs1. unfold timerActive.
        destruct T5 as [T5 _]; [lia|]. rewrite T5. reflexivity. }
      exists c1. split; [exact (ticks_while_stopped E n c1 Hst)|]. cbv zeta.
      fold mover.
      destruct T5 as [T5 _]; [lia|].
      rewrite Hs1, T1, T2, T4, T5. repeat split; try lia.
      symmetry. apply Z.ltb_ge. lia.
    + destruct T6 as [T6 _]; [lia|].
      assert (isTimerRunning (gameState c1) = true) as R1
          by (rewrite Hs1, T6; exact Hrun).
      assert (isGameOver E (game (gameState c1)) = false) as O1
          by (rewrite Hs1, T4; exact Hover).
      assert (0 < remaining (turn E (game (gameState c1)))
                    (timeControl (gameState c1))) as P1.
      { rewrite Hs1, T4. fold mover. lia. }
      destruct (IH c1 R1 O1 P1) as [c' [Hr' H]]. cbv zeta in H.
      destruct H as [A [B [C D]]].
      rewrite Hs1, T4 in A, B, C, D. fold mover in A, B, C.
      exists c'. split; [exact Hr'|]. cbv zeta. fold mover.
      rewrite A, B, C, D, T1, T2.
      repeat split; try lia.
      destruct (Z.ltb_spec (Z.of_nat n) (remaining mover (timeControl s) - 1));
        destruct (Z.ltb_spec (Z.of_nat (S n)) (remaining mover (timeControl s)));
        try reflexivity; lia.
Qed.

Lemma ticks_count_down_witness :
  exists c',
    run KingsAndRooks.engine (repeat Tick 700)
        (componentOf KingsAndRooks.engine Examples.timed) = Returns c'
    /\ remaining White (timeControl (gameState c')) = 0.
Proof.
  destruct (ticks_count_down KingsAndRooks.engine 700
              (componentOf KingsAndRooks.engine Examples.timed))
    as [c' [Hr [H _]]].
  - reflexivity.
  - vm_compute. reflexivity.
  - vm_compute. reflexivity.
  - exists c'. split; [exact Hr|exact H].
Defined.

(** ** Showing a time *)

Lemma toString_safe (z : Z) :
  0 <= z <= Display.MAX_SAFE_INTEGER ->
  Display.toString z = Some (DecimalString.NilZero.string_of_int (Z.to_int z)).
Proof.
  intros H. unfold Display.toString, Display.isSafeInteger.
  rewrite Z.abs_eq by lia.
  destruct (Z.leb_spec z Display.MAX_SAFE_INTEGER); [reflexivity|lia].
Qed.

Lemma padStart2_two_digits (k : nat) :
  (k < 60)%nat ->
  Display.padStart2 (DecimalString.NilZero.string_of_int (Z.to_int (Z.of_nat k)))
  = String.append
      (DecimalString.NilZero.string_of_int (Z.to_int (Z.of_nat k / 10)))
      (DecimalString.NilZero.string_of_int (Z.to_int (Z.of_nat k mod 10))).
Proof.
  intros H. do 60 (destruct k as [|k]; [vm_compute; reflexivity|]). lia.
Qed.

(** X18. A time of up to 2^53 - 1 seconds, and not negative, is shown by
    the clock as the minutes, a colon, and exactly two digits: the tens and
    the units of the seconds within the minute.  The settings dialog shows
    the same text from one minute on, and below one minute the seconds
    followed by "s". *)
Theorem formatTime_minutes_and_two_digits (seconds : Z) :
  0 <= seconds <= Display.MAX_SAFE_INTEGER ->
  let secs := seconds - 60 * (seconds / 60) in
  0 <= secs / 10 <= 5 /\ 0 <= secs mod 10 <= 9
  /\ exists mins tens units,
       Display.toString (seconds / 60) = Some mins
       /\ Display.toString (secs / 10) = Some tens
       /\ Display.toString (secs mod 10) = Some units
       /\ ChessGameDisplay.formatTime seconds
          = Some (String.append mins
                    (String.append ":" (String.append tens units)))
       /\ (60 <= seconds ->
           SettingsDialogDisplay.formatTime seconds
           = ChessGameDisplay.formatTime seconds)
       /\ (seconds < 60 ->
           mins = "0"
           /\ exists text,
                Display.toString seconds = Some text
                /\ SettingsDialogDisplay.formatTime seconds
                   = Some (String.append text "s")).
Proof.
  intros H secs.
  assert (Display.MAX_SAFE_INTEGER = 9007199254740991) as Hmax by reflexivity.
  assert (Z.rem seconds 60 = secs) as Hrem.
  { unfold secs. rewrite Z.rem_mod_nonneg by lia.
    rewrite Z.mod_eq by lia. reflexivity. }
  assert (0 <= secs < 60) as Hs.
  { rewrite <- Hrem. rewrite Z.rem_mod_nonneg by lia.
    apply Z.mod_pos_bound. lia. }
  assert (0 <= seconds / 60 <= seconds) as Hq.
  { split; [apply Z.div_pos; lia|].
    apply Z.div_le_upper_bound; lia. }
  split; [Z.div_mod_to_equations; lia|].
  split; [Z.div_mod_to_equations; lia|].
  assert (Display.isSafeInteger seconds = true) as Hsafe.
  { unfold Display.isSafeInteger. rewrite Z.abs_eq by lia. apply Z.leb_le. lia. }
  pose proof (toString_safe (seconds / 60)) as Hmins.
  pose proof (toString_safe secs) as Hsecs.
  pose proof (toString_safe (secs / 10)) as Htens.
  pose proof (toString_safe (secs mod 10)) as Hunits.
  rewrite Hmins by lia. rewrite Htens by (Z.div_mod_to_equations; lia).
  rewrite Hunits by (Z.div_mod_to_equations; lia).
  do 3 eexists.
  split; [reflexivity|]. split; [reflexivity|]. split; [reflexivity|].
  assert (ChessGameDisplay.formatTime seconds
          = Some (String.append
                    (DecimalString.NilZero.string_of_int (Z.to_int (seconds / 60)))
                    (String.append ":"
                       (String.append
                          (DecimalString.NilZero.string_of_int (Z.to_int (secs / 10)))
                          (DecimalString.NilZero.string_of_int
                             (Z.to_int (secs mod 10))))))) as Hfmt.
  { unfold ChessGameDisplay.formatTime. rewrite Hsafe, Hrem.
    rewrite Hmins by lia. rewrite Hsecs by lia.
    rewrite <- (Z2Nat.id secs) by lia.
    rewrite padStart2_two_digits by lia. reflexivity. }
  split; [exact Hfmt|]. split.
  - intros H60. rewrite Hfmt.
    unfold SettingsDialogDisplay.formatTime. rewrite Hsafe, Hrem.
    rewrite Hmins by lia. rewrite Hsecs by lia.
    assert ((0 <? seconds / 60) = true) as ->.
    { apply Z.ltb_lt. Z.div_mod_to_equations. lia. }
    rewrite <- (Z2Nat.id secs) by lia.
    rewrite padStart2_two_digits by lia. reflexivity.
  - intros H60.
    assert (seconds / 60 = 0) as Hz by (apply Z.div_small; lia).
    split; [rewrite Hz; reflexivity|].
    exists (DecimalString.NilZero.string_of_int (Z.to_int seconds)).
    split; [apply toString_safe; lia|].
    unfold SettingsDialogDisplay.formatTime. rewrite Hsafe, Hrem.
    rewrite Hmins by lia. rewrite Hsecs by lia.
    rewrite Hz. simpl. unfold secs. rewrite Hz.
    replace (seconds - 60 * 0) with seconds by lia. reflexivity.
Qed.

Lemma formatTime_minutes_and_two_digits_witness :
  ChessGameDisplay.formatTime 605 = Some "10:05".
Proof.
  destruct (formatTime_minutes_and_two_digits 605)
    as [_ [_ [mins [tens [units [H1 [H2 [H3 [H _]]]]]]]]].
  - unfold Display.MAX_SAFE_INTEGER. lia.
  - rewrite H. vm_compute in H1, H2, H3.
    inversion H1; inversion H2; inversion H3; subst. reflexivity.
Defined.

(** ** What is saved, and when *)

Lemma dispatchMove_saves (E : Engine) (c c' : Component E) (f t : Square)
      (effects : list (Effect E)) :
  dispatchMove E c f t = Returns (c', effects) ->
  savedStates E effects = [] \/ savedStates E effects = [gameState c'].
Proof.
  intros Hd. pose proof (dispatchMove_state E _ _ _ _ _ Hd) as Hs.
  destruct (move E (loadFen E (fen E (game (gameState c)))) f t) as [m g1| |] eqn:Hm.
  - right. exact (handleMove_saves E _ _ _ _ _ _ _ Hm Hs).
  - left. unfold handleMove in Hs. rewrite Hm in Hs. inversion Hs. reflexivity.
  - unfold handleMove in Hs. rewrite Hm in Hs. discriminate Hs.
Qed.

Lemma tick_saves (E : Engine) (s : GameState E) :
  savedStates E (snd (tick E s)) = [].
Proof.
  unfold tick. destruct (turn E (game s)); simpl;
    match goal with |- context [if ?b then _ else _] => destruct b end;
    reflexivity.
Qed.

(** X19. An intent leads to at most one save.  Unless it is a click that
    React runs at once, what is saved is the state the intent leaves.  A
    tick, a start or stop of the clock, a change in the settings dialog
    and a click that only changes the selection save nothing: the seconds
    gone by reach the store only with the next intent that saves.  A click
    that React runs at once and that completes a move saves the state with
    the move, and leaves the state without it. *)
Theorem saves_the_state_it_leaves (E : Engine) (i : Intent) (c c' : Component E)
        (effects : list (Effect E)) :
  dispatch E i c = Returns (c', effects) ->
  (savedStates E effects = [] \/ exists s, savedStates E effects = [s])
  /\ (deferred i ->
      savedStates E effects = [] \/ savedStates E effects = [gameState c'])
  /\ (i = Tick \/ i = Timer \/ (exists a, i = ChangeSettings a) ->
      savedStates E effects = [])
  /\ (forall sq idle, i = ClickSquare sq idle ->
        snd (handleSquareClick E (gameState c) sq) = None ->
        savedStates E effects = [])
  /\ (i = Reset \/ i = Flip \/ i = Sound \/ i = ApplySettings
      \/ (exists th, i = SetBoardTheme th) ->
      savedStates E effects = [gameState c'])
  /\ (forall sq f t m g',
        i = ClickSquare sq true ->
        snd (handleSquareClick E (gameState c) sq) = Some (f, t) ->
        move E (loadFen E (fen E (game (gameState c)))) f t = Made m g' ->
        exists s1,
          savedStates E effects = [s1]
          /\ gameHistory s1 = gameHistory (gameState c) ++ [Move.san m]
          /\ gameHistory (gameState c') = gameHistory (gameState c)).
Proof.
  intros Hd.
  assert (deferred i ->
          savedStates E effects = [] \/ savedStates E effects = [gameState c'])
    as Hdef.
  { intros Hi. destruct i; unfold dispatch in Hd.
    - exact (dispatchMove_saves E _ _ _ _ _ Hd).
    - destruct (handleSquareClick E (gameState c) square) as [s [[f t]|]].
      + destruct idle; [destruct Hi|]. exact (dispatchMove_saves E _ _ _ _ _ Hd).
      + inversion Hd; subst. left. reflexivity.
    - inversion Hd; subst. right. reflexivity.
    - destruct (undoMove E (gameState c)) as [[s1 e1]|] eqn:Hu; [|discriminate].
      inversion Hd; subst. unfold undoMove in Hu.
      destruct (gameHistory (gameState c)).
      + inversion Hu; subst. left. reflexivity.
      + destruct (replay E _); [|discriminate]. inversion Hu; subst.
        right. reflexivity.
    - inversion Hd; subst. right. reflexivity.
    - inversion Hd; subst. right. reflexivity.
    - inversion Hd; subst. left. reflexivity.
    - inversion Hd; subst. left. reflexivity.
    - inversion Hd; subst. right. reflexivity.
    - inversion Hd; subst. right. reflexivity.
    - destruct (timerActive E (gameState c)); inversion Hd; subst.
      + left. apply tick_saves.
      + left. reflexivity. }
  assert (forall sq f t,
             i = ClickSquare sq true ->
             snd (handleSquareClick E (gameState c) sq) = Some (f, t) ->
             exists s1 : GameState E,
               handleMove E (gameState c) f t = Returns (s1, effects)
               /\ gameState c' = afterPush E (gameState c) f t) as Heager.
  { intros sq f t -> Hq. unfold dispatch in Hd.
    destruct (handleSquareClick E (gameState c) sq) as [s [[f0 t0]|]];
      simpl in Hq; [|discriminate Hq].
    inversion Hq; subst. unfold completeMove in Hd.
    destruct (handleMove E (gameState c) f t) as [[s1 e1]|]; [|discriminate].
    inversion Hd; subst. exists s1. split; reflexivity. }
  split; [|split; [exact Hdef|split; [|split; [|split]]]].
  - destruct i; try (destruct (Hdef I) as [H|H]; [left; exact H|right; eauto]).
    destruct idle; [|destruct (Hdef I) as [H|H]; [left; exact H|right; eauto]].
    destruct (handleSquareClick E (gameState c) square) as [s [[f t]|]] eqn:Hc.
    + destruct (Heager square f t eq_refl) as [s1 [Hs1 _]];
        [rewrite Hc; reflexivity|].
      destruct (move E (loadFen E (fen E (game (gameState c)))) f t)
        as [m g1| |] eqn:Hm.
      * right. exists s1. exact (handleMove_saves E _ _ _ _ _ _ _ Hm Hs1).
      * left. unfold handleMove in Hs1. rewrite Hm in Hs1. inversion Hs1.
        reflexivity.
      * unfold handleMove in Hs1. rewrite Hm in Hs1. discriminate Hs1.
    + unfold dispatch in Hd. rewrite Hc in Hd. inversion Hd. left. reflexivity.
  - intros [->|[->|[a ->]]]; unfold dispatch in Hd.
    + destruct (timerActive E (gameState c)); inversion Hd; subst;
        [apply tick_saves|reflexivity].
    + inversion Hd. reflexivity.
    + inversion Hd. reflexivity.
  - intros sq idle -> Hq. unfold dispatch in Hd.
    destruct (handleSquareClick E (gameState c) sq) as [s [[f t]|]];
      [discriminate Hq|]. inversion Hd. reflexivity.
  - intros [->|[->|[->|[->|[th ->]]]]]; unfold dispatch in Hd;
      inversion Hd; reflexivity.
  - intros sq f t m g' Hi Hq Hm.
    destruct (Heager sq f t Hi Hq) as [s1 [Hs1 Hleft]].
    exists s1. split; [exact (handleMove_saves E _ _ _ _ _ _ _ Hm Hs1)|].
    split.
    + unfold handleMove in Hs1. rewrite Hm in Hs1. inversion Hs1. reflexivity.
    + rewrite Hleft. apply (afterPush_frame E (gameState c) f t).
Qed.

Lemma saves_the_state_it_leaves_witness :
  exists c effects,
    dispatch KingsAndRooks.engine Flip (freshComponent KingsAndRooks.engine)
    = Returns (c, effects)
    /\ savedStates KingsAndRooks.engine effects = [gameState c].
Proof.
  assert (exists r,
             dispatch KingsAndRooks.engine Flip (freshComponent KingsAndRooks.engine)
             = Returns r) as [[c effects] Hd].
  { eexists. reflexivity. }
  destruct (saves_the_state_it_leaves KingsAndRooks.engine Flip
              (freshComponent KingsAndRooks.engine) c effects Hd)
    as [_ [_ [_ [_ [H _]]]]].
  exists c, effects. split; [exact Hd|]. apply H. right. left. reflexivity.
Defined.

(** ** The clock of a finished game *)

Lemma dispatch_keepsBoard (E : Engine) (i : Intent) (c : Component E) :
  keepsBoard i ->
  isGameOver E (game (gameState c)) = true ->
  exists c' effects,
    dispatch E i c = Returns (c', effects)
    /\ game (gameState c') = game (gameState c)
    /\ timeControl (gameState c') = timeControl (gameState c).
Proof.
  intros Hk Ho. destruct i; simpl in Hk; try contradiction.
  - eexists. eexists. split; [reflexivity|]. split; reflexivity.
  - eexists. eexists. split; [reflexivity|]. split; reflexivity.
  - eexists. eexists. split; [reflexivity|]. split; reflexivity.
  - eexists. eexists. split; [reflexivity|]. split; reflexivity.
  - exists c, []. split; [|split; reflexivity].
    apply tick_stopped. unfold timerActive. rewrite Ho. apply andb_false_r.
Qed.

(** X20. Once the game is over, the clock button, the timer and the
    display settings, in any order and number, leave both remaining times
    as they are: the clock can be switched on again, but no second is taken
    from a finished game. *)
Theorem finished_game_clock_is_frozen (E : Engine) (c : Component E)
        (intents : list Intent) :
  isGameOver E (game (gameState c)) = true ->
  Forall keepsBoard intents ->
  exists c',
    run E intents c = Returns c'
    /\ timeControl (gameState c') = timeControl (gameState c)
    /\ game (gameState c') = game (gameState c).
Proof.
  intros Ho Hk. revert c Ho.
  induction Hk as [|i r Hi Hr IH]; intros c Ho.
  - exists c. split; [reflexivity|]. split; reflexivity.
  - destruct (dispatch_keepsBoard E i c Hi Ho) as [c1 [e1 [Hd [Hg Ht]]]].
    destruct (IH c1) as [c' [Hrun [A B]]].
    + rewrite Hg. exact Ho.
    + exists c'. split; [rewrite (run_cons E _ _ _ _ _ Hd); exact Hrun|].
      rewrite A, B, Hg, Ht. split; reflexivity.
Qed.

Lemma finished_game_clock_is_frozen_witness :
  exists c',
    run KingsAndRooks.engine [Timer; Tick; Tick; Flip; Tick]
        (componentOf KingsAndRooks.engine Examples.bareKings) = Returns c'
    /\ timeControl (gameState c') = timeControl Examples.bareKings.
Proof.
  destruct (finished_game_clock_is_frozen KingsAndRooks.engine
              (componentOf KingsAndRooks.engine Examples.bareKings)
              [Timer; Tick; Tick; Flip; Tick]) as [c' [Hrun [H _]]].
  - vm_compute. reflexivity.
  - repeat constructor.
  - exists c'. split; [exact Hrun|exact H].
Defined.
